(** * Piano recorder of DaylightStation: session segmentation and broadcast client

    A shallow embedding of
    - [_extensions/piano/recorder/midi_message_converter.py],
    - [_extensions/piano/recorder/midi_ws_broadcaster.py] and its older copy
      [_extentions/piano/recorder/midi_ws_broadcaster.py],
    - [_extentions/piano/recorder/auto_midi_recorder.py],
    followed by the properties of the specification that were checked on it.

    Conventions of the embedding.
    - Python [int] is [Z]; [//] and [%] are [Z.div] and [Z.modulo] (both
      round towards minus infinity for a positive divisor, as Python does).
    - Python [float] values that hold instants and durations ([time.time()]
      and their differences) are exact rationals [Q]; rounding error of the
      binary representation is outside the model.
    - A [dict] built by a literal is an association list in insertion order.
    - Code that can raise returns a [res]; code that reads the clock, the file
      system or the network takes what it reads as an argument. *)

From Stdlib Require Import ZArith QArith Qminmax Qround Lia Lqa Ascii String DecimalString DecimalZ DecimalPos.
From stdpp Require Import base gmap strings list.

#[local] Set Warnings "-register-all".

#[local] Open Scope string_scope.
#[local] Open Scope list_scope.
#[local] Open Scope Z_scope.

(** ** Python values and primitives *)

Module Py.

Inductive exn : Type :=
| IndexError
| AttributeError
| OSError
| Full
| Empty
| JSONDecodeError.

Inductive res (A : Type) : Type :=
| Ok (a : A)
| Raise (e : exn).
Arguments Ok {A} a.
Arguments Raise {A} e.

Definition bind {A B : Type} (m : res A) (k : A -> res B) : res B :=
  match m with
  | Ok a => k a
  | Raise e => Raise e
  end.

(** [l[i]]: negative indices count from the end, anything else out of
    range raises [IndexError]. *)
Definition index {A : Type} (l : list A) (i : Z) : res A :=
  let n := Z.of_nat (length l) in
  let j := if i <? 0 then n + i else i in
  if (0 <=? j) && (j <? n) then
    match l !! Z.to_nat j with
    | Some x => Ok x
    | None => Raise IndexError
    end
  else Raise IndexError.

(** [str(n)] and [f"{n}"] for an [int]. *)
Definition str_int (n : Z) : string := NilZero.string_of_int (Z.to_int n).

(** Truth value of an [Optional[str]]: [None] and [""] are false. *)
Definition truthy (o : option string) : bool :=
  match o with
  | Some s => negb (String.eqb s "")
  | None => false
  end.

(** [int(x)] for a finite float: truncation towards zero. *)
Definition int_of (x : Q) : Z := Z.quot (Qnum x) (Z.pos (Qden x)).

(** [x < y] on floats, as a boolean. *)
Definition ltb (x y : Q) : bool :=
  match (x ?= y)%Q with Lt => true | _ => false end.

(** [min(x, y)] of two floats: the first one unless the second is smaller. *)
Definition min (x y : Q) : Q := if ltb y x then y else x.

(** [round(x, 2)]: to the nearest hundredth, ties to the even one. *)
Definition round2 (x : Q) : Q :=
  let n := Qnum x * 100 in
  let d := Z.pos (Qden x) in
  let f := n / d in
  let r := 2 * (n mod d) in
  let up := (d <? r) || ((d =? r) && Z.odd f) in
  Qmake (if up then f + 1 else f) 100.

(** [s.startswith(p)] as a stripping function. *)
Fixpoint strip_prefix (p s : string) : option string :=
  match p, s with
  | EmptyString, _ => Some s
  | String a p', String b s' =>
      if Ascii.eqb a b then strip_prefix p' s' else None
  | String _ _, EmptyString => None
  end.

(** [s.replace(old, new)] for a non-empty [old]: occurrences are replaced
    from the left, without overlap. *)
Fixpoint replace_fuel (fuel : nat) (old new s : string) : string :=
  match fuel with
  | O => s
  | S fuel' =>
      match strip_prefix old s with
      | Some rest => new +:+ replace_fuel fuel' old new rest
      | None =>
          match s with
          | EmptyString => EmptyString
          | String c s' => String c (replace_fuel fuel' old new s')
          end
      end
  end.

Definition replace (old new s : string) : string :=
  replace_fuel (S (String.length s)) old new s.

End Py.

Import Py.

(** ** JSON-serialisable values: what the converter builds and [json.loads] returns *)

Module Json.

Inductive t : Type :=
| Null
| Bool (b : bool)
| Int (n : Z)
| Float (x : Q)
| Str (s : string)
| Arr (l : list t)
| Obj (kv : list (string * t)).

(** Lookup in an association list that stands for a [dict]. *)
Fixpoint assoc (k : string) (kv : list (string * t)) : option t :=
  match kv with
  | [] => None
  | (k', v) :: kv' => if String.eqb k k' then Some v else assoc k kv'
  end.

(** [d[k]] read off a value known to be a dict; [None] when the value is
    not a dict or lacks the key. Used to state properties of messages. *)
Definition field (k : string) (d : t) : option t :=
  match d with
  | Obj kv => assoc k kv
  | _ => None
  end.

(** [d.get(k)]: a missing key gives [None] (Python's), a receiver that is
    not a dict has no attribute [get]. *)
Definition get (d : t) (k : string) : res t :=
  match d with
  | Obj kv => Ok (default Null (assoc k kv))
  | _ => Raise AttributeError
  end.

Definition of_opt_str (o : option string) : t :=
  match o with
  | Some s => Str s
  | None => Null
  end.

End Json.

(** ** mido messages *)

Module Mido.

(** The attributes a message has depend on its type, so the type and its
    attributes form one constructor; [time] exists on every message. *)
Inductive body : Type :=
| note_on (channel note velocity : Z)
| note_off (channel note velocity : Z)
| control_change (channel control value : Z)
| pitchwheel (channel pitch : Z)
| program_change (channel program : Z)
| other (type_name : string).

Record message : Type := Message { msg_body : body; msg_time : Z }.

Definition set_time (m : message) (t : Z) : message :=
  {| msg_body := msg_body m; msg_time := t |}.

Definition is_note (m : message) : bool :=
  match msg_body m with
  | note_on _ _ _ | note_off _ _ _ => true
  | _ => false
  end.

End Mido.

(** ** The file system as [os.path.exists], [os.remove] and [os.path.splitext] see it *)

Module Os.

(** [files] are the paths that exist; removing a path of [readonly] fails
    with [OSError] (a permission error, a directory, ...). *)
Record fs : Type := { files : gset string; readonly : gset string }.

Definition path_exists (w : fs) (p : string) : bool :=
  bool_decide (p ∈ files w).

Definition remove (w : fs) (p : string) : res fs :=
  if bool_decide (p ∈ files w) && negb (bool_decide (p ∈ readonly w))
  then Ok {| files := files w ∖ {[p]}; readonly := readonly w |}
  else Raise OSError.

(** [os.remove(p)] would succeed. *)
Definition removable (w : fs) (p : string) : Prop :=
  p ∈ files w /\ p ∉ readonly w.

(** [s.rfind(c)] on the characters of [s]: [-1] when [c] does not occur. *)
Fixpoint rfind_from (c : ascii) (l : list ascii) (i acc : Z) : Z :=
  match l with
  | [] => acc
  | x :: l' => rfind_from c l' (i + 1) (if Ascii.eqb x c then i else acc)
  end.

Definition rfind (c : ascii) (l : list ascii) : Z := rfind_from c l 0 (-1).

(** [os.path.splitext(p)[0]] on POSIX: the last dot after the last slash
    starts the extension, unless only dots precede it in the file name. *)
Definition splitext_root (p : string) : string :=
  let l := list_ascii_of_string p in
  let sep_index := rfind "/" l in
  let dot_index := rfind "." l in
  if sep_index <? dot_index then
    let name_start := Z.to_nat (sep_index + 1) in
    let before_dot := take (Z.to_nat dot_index - name_start) (drop name_start l) in
    if existsb (fun c => negb (Ascii.eqb c ".")) before_dot
    then string_of_list_ascii (take (Z.to_nat dot_index) l)
    else p
  else p.

End Os.

(** ** midi_message_converter.py *)

Module Converter.

Import Mido.

Definition MIN_SESSION_DURATION_SECONDS : Q := 30.

Definition NOTE_NAMES : list string :=
  ["C"; "C#"; "D"; "D#"; "E"; "F"; "F#"; "G"; "G#"; "A"; "A#"; "B"].

Definition CONTROL_NAMES : gmap Z string :=
  list_to_map
    [(1, "modulation"); (7, "volume"); (10, "pan"); (11, "expression");
     (64, "sustain"); (65, "portamento"); (66, "sostenuto");
     (67, "soft_pedal"); (91, "reverb"); (93, "chorus")].

Definition midi_note_to_name (note : Z) : res string :=
  if negb ((0 <=? note) && (note <=? 127)) then Ok ("Note" +:+ str_int note)
  else
    let octave := note / 12 - 1 in
    bind (index NOTE_NAMES (note mod 12)) (fun name =>
    Ok (name +:+ str_int octave)).

Definition get_control_name (control : Z) : string :=
  default ("cc" +:+ str_int control) (CONTROL_NAMES !! control).

(** [base] of [midi_message_to_json]; [ts] is what [get_timestamp()]
    returned. *)
Definition base (ts : string) (session_id : option string)
  : list (string * Json.t) :=
  [("topic", Json.Str "midi"); ("source", Json.Str "piano");
   ("timestamp", Json.Str ts); ("sessionId", Json.of_opt_str session_id)].

(** The [note_on]/[note_off] branch; [type_is_note_off] is
    [msg.type == 'note_off']. *)
Definition note_message_to_json (ts : string) (session_id : option string)
    (type_is_note_off : bool) (channel note velocity : Z)
  : res (option Json.t) :=
  let event :=
    if type_is_note_off || (velocity =? 0) then "note_off" else "note_on" in
  bind (midi_note_to_name note) (fun note_name =>
  Ok (Some (Json.Obj (base ts session_id ++
    [("type", Json.Str "note");
     ("data", Json.Obj
        [("event", Json.Str event); ("note", Json.Int note);
         ("noteName", Json.Str note_name);
         ("velocity", Json.Int velocity);
         ("channel", Json.Int channel)])])))).

Definition midi_message_to_json (ts : string) (msg : message)
    (session_id : option string) : res (option Json.t) :=
  match msg_body msg with
  | note_on channel note velocity =>
      note_message_to_json ts session_id false channel note velocity
  | note_off channel note velocity =>
      note_message_to_json ts session_id true channel note velocity
  | control_change channel control value =>
      Ok (Some (Json.Obj (base ts session_id ++
        [("type", Json.Str "control");
         ("data", Json.Obj
            [("event", Json.Str "control_change");
             ("control", Json.Int control);
             ("controlName", Json.Str (get_control_name control));
             ("value", Json.Int value);
             ("channel", Json.Int channel)])])))
  | pitchwheel channel pitch =>
      Ok (Some (Json.Obj (base ts session_id ++
        [("type", Json.Str "control");
         ("data", Json.Obj
            [("event", Json.Str "pitchwheel"); ("pitch", Json.Int pitch);
             ("channel", Json.Int channel)])])))
  | program_change channel program =>
      Ok (Some (Json.Obj (base ts session_id ++
        [("type", Json.Str "control");
         ("data", Json.Obj
            [("event", Json.Str "program_change");
             ("program", Json.Int program);
             ("channel", Json.Int channel)])])))
  | other _ => Ok None
  end.

Definition create_session_start_message (ts session_id device_name : string)
  : Json.t :=
  Json.Obj
    [("topic", Json.Str "midi"); ("source", Json.Str "piano");
     ("type", Json.Str "session"); ("timestamp", Json.Str ts);
     ("sessionId", Json.Str session_id);
     ("data", Json.Obj
        [("event", Json.Str "session_start");
         ("sessionId", Json.Str session_id);
         ("device", Json.Str device_name)])].

(** [delete_short_recording]: the result and the file system it leaves.
    What it prints is not modelled. *)
Definition delete_short_recording (w : Os.fs) (file_path : string)
    (duration : Q) : bool * Os.fs :=
  let '(deleted_any, w) :=
    if truthy (Some file_path) && Os.path_exists w file_path then
      match Os.remove w file_path with
      | Ok w' => (true, w')
      | Raise _ => (false, w)
      end
    else (false, w) in
  if truthy (Some file_path) then
    let mp3_path := Os.splitext_root file_path +:+ ".mp3" in
    if Os.path_exists w mp3_path then
      match Os.remove w mp3_path with
      | Ok w' => (true, w')
      | Raise _ => (deleted_any, w)
      end
    else (deleted_any, w)
  else (deleted_any, w).

Definition create_session_end_message (w : Os.fs) (ts session_id : string)
    (duration : Q) (note_count : Z) (file_path : option string)
  : Json.t * Os.fs :=
  let '(deleted, w) :=
    match file_path with
    | Some p =>
        if Py.ltb duration MIN_SESSION_DURATION_SECONDS && truthy file_path
        then delete_short_recording w p duration
        else (false, w)
    | None => (false, w)
    end in
  (Json.Obj
     [("topic", Json.Str "midi"); ("source", Json.Str "piano");
      ("type", Json.Str "session"); ("timestamp", Json.Str ts);
      ("sessionId", Json.Str session_id);
      ("data", Json.Obj
         [("event", Json.Str "session_end");
          ("sessionId", Json.Str session_id);
          ("duration", Json.Float (round2 duration));
          ("noteCount", Json.Int note_count);
          ("filePath",
            if deleted then Json.Null else Json.of_opt_str file_path);
          ("deleted", Json.Bool deleted)])],
   w).

End Converter.

(** ** midi_ws_broadcaster.py

    The repository holds two copies of the module, one under [_extensions]
    and an older one under [_extentions] (the one the recorder imports). They
    agree on [__init__], [start], [stop] and [broadcast] and differ in the
    worker: [copy] selects the file wherever the two differ. *)

Module Broadcaster.

Inductive copy : Type := extensions | extentions.

Record stats : Type := {
  messages_sent : Z;
  messages_dropped : Z;
  reconnect_count : Z;
  last_connected : option Q;
  last_error : option string;
  heartbeats_sent : Z;
  heartbeats_received : Z;
  last_heartbeat : option Q
}.

(** Where the worker thread stands in [_async_main] and in the
    [_send_queued_messages] it calls: the points between which a call of
    the producer's thread can fall. *)
Inductive pc : Type :=
| LoopHead                              (* guard of the outer [while] *)
| SessionHead                           (* guard of the inner [while] *)
| BatchHead (sent_in_batch : Z)         (* guard of the loop of [_send_queued_messages] *)
| Sending (sent_in_batch : Z) (message : Json.t)   (* inside [await ws.send] *)
| Backoff (wait_remaining : Q)          (* the wait before reconnecting *)
| Finished.                             (* [_async_main] has returned *)

Record t : Type := {
  reconnect_base : Q;
  reconnect_max : Q;
  max_queue_size : Z;
  queue : list Json.t;                  (* [self._queue], oldest first *)
  running : bool;
  connected : bool;
  stop_event : bool;
  thread : bool;                        (* [self._thread is not None] *)
  st : stats;
  (* locals of the worker thread *)
  at_pc : pc;
  reconnect_delay : Q
}.

Definition DEFAULT_RECONNECT_BASE : Q := 5.
Definition DEFAULT_RECONNECT_MAX : Q := 60.
Definition DEFAULT_QUEUE_MAX_SIZE : Z := 1000.
Definition DEFAULT_POLL_INTERVAL : Q := 1 # 100.
Definition DEFAULT_FLUSH_TIMEOUT : Q := 2.
Definition DEFAULT_HEARTBEAT_INTERVAL : Q := 15.

Definition zero_stats : stats :=
  {| messages_sent := 0; messages_dropped := 0; reconnect_count := 0;
     last_connected := None; last_error := None; heartbeats_sent := 0;
     heartbeats_received := 0; last_heartbeat := None |}.

(** [__init__]. No thread exists yet. *)
Definition init (reconnect_base reconnect_max : Q) (max_queue_size : Z) : t :=
  {| reconnect_base := reconnect_base; reconnect_max := reconnect_max;
     max_queue_size := max_queue_size; queue := []; running := false;
     connected := false; stop_event := false; thread := false;
     st := zero_stats; at_pc := Finished; reconnect_delay := reconnect_base |}.

(** *** Field updates *)

Definition set_queue (q : list Json.t) (b : t) : t :=
  {| reconnect_base := reconnect_base b; reconnect_max := reconnect_max b;
     max_queue_size := max_queue_size b; queue := q; running := running b;
     connected := connected b; stop_event := stop_event b;
     thread := thread b; st := st b; at_pc := at_pc b;
     reconnect_delay := reconnect_delay b |}.

Definition set_flags (running' connected' stop_event' thread' : bool) (b : t) : t :=
  {| reconnect_base := reconnect_base b; reconnect_max := reconnect_max b;
     max_queue_size := max_queue_size b; queue := queue b;
     running := running'; connected := connected';
     stop_event := stop_event'; thread := thread'; st := st b;
     at_pc := at_pc b; reconnect_delay := reconnect_delay b |}.

Definition set_connected (c : bool) (b : t) : t :=
  set_flags (running b) c (stop_event b) (thread b) b.

Definition set_stats (s : stats) (b : t) : t :=
  {| reconnect_base := reconnect_base b; reconnect_max := reconnect_max b;
     max_queue_size := max_queue_size b; queue := queue b;
     running := running b; connected := connected b;
     stop_event := stop_event b; thread := thread b; st := s;
     at_pc := at_pc b; reconnect_delay := reconnect_delay b |}.

Definition set_pc (p : pc) (b : t) : t :=
  {| reconnect_base := reconnect_base b; reconnect_max := reconnect_max b;
     max_queue_size := max_queue_size b; queue := queue b;
     running := running b; connected := connected b;
     stop_event := stop_event b; thread := thread b; st := st b;
     at_pc := p; reconnect_delay := reconnect_delay b |}.

Definition set_reconnect_delay (d : Q) (b : t) : t :=
  {| reconnect_base := reconnect_base b; reconnect_max := reconnect_max b;
     max_queue_size := max_queue_size b; queue := queue b;
     running := running b; connected := connected b;
     stop_event := stop_event b; thread := thread b; st := st b;
     at_pc := at_pc b; reconnect_delay := d |}.

Definition incr_sent (s : stats) : stats :=
  {| messages_sent := messages_sent s + 1;
     messages_dropped := messages_dropped s;
     reconnect_count := reconnect_count s;
     last_connected := last_connected s; last_error := last_error s;
     heartbeats_sent := heartbeats_sent s;
     heartbeats_received := heartbeats_received s;
     last_heartbeat := last_heartbeat s |}.

Definition incr_dropped (s : stats) : stats :=
  {| messages_sent := messages_sent s;
     messages_dropped := messages_dropped s + 1;
     reconnect_count := reconnect_count s;
     last_connected := last_connected s; last_error := last_error s;
     heartbeats_sent := heartbeats_sent s;
     heartbeats_received := heartbeats_received s;
     last_heartbeat := last_heartbeat s |}.

(** [last_error = str(e); reconnect_count += 1] *)
Definition note_failure (e : string) (s : stats) : stats :=
  {| messages_sent := messages_sent s;
     messages_dropped := messages_dropped s;
     reconnect_count := reconnect_count s + 1;
     last_connected := last_connected s; last_error := Some e;
     heartbeats_sent := heartbeats_sent s;
     heartbeats_received := heartbeats_received s;
     last_heartbeat := last_heartbeat s |}.

Definition note_connected (now : Q) (s : stats) : stats :=
  {| messages_sent := messages_sent s;
     messages_dropped := messages_dropped s;
     reconnect_count := reconnect_count s;
     last_connected := Some now; last_error := last_error s;
     heartbeats_sent := heartbeats_sent s;
     heartbeats_received := heartbeats_received s;
     last_heartbeat := last_heartbeat s |}.

Definition note_heartbeat_sent (now : Q) (s : stats) : stats :=
  {| messages_sent := messages_sent s;
     messages_dropped := messages_dropped s;
     reconnect_count := reconnect_count s;
     last_connected := last_connected s; last_error := last_error s;
     heartbeats_sent := heartbeats_sent s + 1;
     heartbeats_received := heartbeats_received s;
     last_heartbeat := Some now |}.

Definition incr_heartbeats_received (s : stats) : stats :=
  {| messages_sent := messages_sent s;
     messages_dropped := messages_dropped s;
     reconnect_count := reconnect_count s;
     last_connected := last_connected s; last_error := last_error s;
     heartbeats_sent := heartbeats_sent s;
     heartbeats_received := heartbeats_received s + 1;
     last_heartbeat := last_heartbeat s |}.

(** *** [queue.Queue(maxsize)] *)

(** A queue is full when [maxsize > 0] and it holds [maxsize] items; with
    [maxsize <= 0] it is unbounded. *)
Definition full (b : t) : bool :=
  (0 <? max_queue_size b) && (max_queue_size b <=? Z.of_nat (length (queue b))).

Definition put_nowait (message : Json.t) (b : t) : res unit * t :=
  if full b then (Raise Full, b)
  else (Ok tt, set_queue (queue b ++ [message]) b).

Definition get_nowait (b : t) : res Json.t * t :=
  match queue b with
  | [] => (Raise Empty, b)
  | message :: rest => (Ok message, set_queue rest b)
  end.

(** *** The public methods, run by the producer's thread *)

Definition thread_is_alive (b : t) : bool :=
  match at_pc b with
  | Finished => false
  | _ => true
  end.

Definition is_running (b : t) : bool :=
  running b && thread b && thread_is_alive b.

(** [start]: the new thread enters [_async_main], whose first statement is
    [reconnect_delay = self.reconnect_base]. *)
Definition start (b : t) : bool * t :=
  if is_running b then (false, b)
  else
    (true,
     set_reconnect_delay (reconnect_base b)
       (set_pc LoopHead (set_flags true (connected b) false true b))).

(** [broadcast]: the state survives an exception, as a mutated object
    does. *)
Definition broadcast (message : Json.t) (b : t) : res bool * t :=
  if negb (running b) then (Ok false, b)
  else
    match put_nowait message b with
    | (Ok _, b') => (Ok true, b')
    | (Raise Full, b') => (Ok false, set_stats (incr_dropped (st b')) b')
    | (Raise e, b') => (Raise e, b')
    end.

(** *** The worker thread: [_async_main] and [_send_queued_messages]

    One call of [worker_step] runs the worker from one [pc] to the next.
    What the network does is not decided by the program: [net_ok] tells
    whether the connect or the send awaited at this step succeeds. The
    producer's calls ([broadcast], [stop]) happen between steps. *)

Record oracle : Type := {
  net_ok : bool;        (* the awaited connect or send succeeds *)
  now : Q;              (* [time.time()] *)
  error : string        (* [str(e)] of the exception when it fails *)
}.

(** What a step does to the outside world. *)
Inductive effect : Type :=
| ConnectOk
| ConnectFailed
| Closed                         (* the [async with] block is left *)
| Sent (frame : Json.t)          (* [ws.send] returned *)
| SendFailed (frame : Json.t)    (* [ws.send] raised *)
| BackoffSleep (seconds : Q)     (* [asyncio.sleep] of the reconnect wait *)
| PollSleep.                     (* [asyncio.sleep(DEFAULT_POLL_INTERVAL)] *)

Definition max_batch : Z := 50.

(** After the outer loop: [self._connected = False]. *)
Definition finish (b : t) : t := set_pc Finished (set_connected false b).

(** The [except Exception as e] branch of [_async_main], up to the wait.
    [_extensions] waits [reconnect_delay] in chunks of at most a second;
    [_extentions] sleeps [min(reconnect_delay, 1)] once. *)
Definition on_failure (c : copy) (o : oracle) (b : t) : t :=
  let b := set_stats (note_failure (error o) (st b)) (set_connected false b) in
  match c with
  | extensions => set_pc (Backoff (reconnect_delay b)) b
  | extentions => set_pc (Backoff (Py.min (reconnect_delay b) 1)) b
  end.

(** After the wait: [if self._stop_event.is_set(): break] and
    [reconnect_delay = min(reconnect_delay * 2, self.reconnect_max)]. *)
Definition after_wait (b : t) : t :=
  if stop_event b then finish b
  else
    set_pc LoopHead
      (set_reconnect_delay
         (Py.min (reconnect_delay b * 2)%Q (reconnect_max b)) b).

Definition worker_step (c : copy) (o : oracle) (b : t) : t * list effect :=
  match at_pc b with
  | LoopHead =>
      if running b && negb (stop_event b) then
        if net_ok o then
          (set_pc SessionHead
             (set_reconnect_delay (reconnect_base b)
                (set_stats (note_connected (now o) (st b))
                   (set_connected true b))),
           [ConnectOk])
        else (on_failure c o b, [ConnectFailed])
      else (finish b, [])
  | SessionHead =>
      if running b && negb (stop_event b) then (set_pc (BatchHead 0) b, [])
      else (set_pc LoopHead b, [Closed])
  | BatchHead n =>
      if n <? max_batch then
        match get_nowait b with
        | (Ok message, b') => (set_pc (Sending n message) b', [])
        | (Raise _, b') => (set_pc SessionHead b', [PollSleep])
        end
      else (set_pc SessionHead b, [PollSleep])
  | Sending n message =>
      if net_ok o then
        (set_pc (BatchHead (n + 1)) (set_stats (incr_sent (st b)) b),
         [Sent message])
      else
        match c with
        | extensions =>
            (* put the message back, count it when the queue is full, re-raise *)
            let b' :=
              match put_nowait message b with
              | (Ok _, b') => b'
              | (Raise _, b') => set_stats (incr_dropped (st b')) b'
              end in
            (on_failure c o b', [SendFailed message; Closed])
        | extentions =>
            (* count the message as dropped and [break] *)
            (set_pc SessionHead (set_stats (incr_dropped (st b)) b),
             [SendFailed message; PollSleep])
        end
  | Backoff w =>
      match c with
      | extensions =>
          if Py.ltb 0 w && negb (stop_event b) then
            let chunk := Py.min w 1 in
            (set_pc (Backoff (w - chunk)%Q) b, [BackoffSleep chunk])
          else (after_wait b, [])
      | extentions =>
          if Py.ltb 0 w then (set_pc (Backoff 0) b, [BackoffSleep w])
          else (after_wait b, [])
      end
  | Finished => (b, [])
  end.

Fixpoint worker_steps (c : copy) (os : list oracle) (b : t)
  : t * list effect :=
  match os with
  | [] => (b, [])
  | o :: os' =>
      let '(b1, e1) := worker_step c o b in
      let '(b2, e2) := worker_steps c os' b1 in
      (b2, e1 ++ e2)
  end.

(** [stop]. [flush] only selects how long [join] waits for the worker;
    [during] is what the worker still does before [join] returns. The call
    of [self._loop.stop] makes the event loop leave the worker where it is
    suspended: that is an execution in which the worker takes no further
    step, so the executions of the model include it. *)
Definition join_timeout (flush : bool) : Q :=
  if flush then DEFAULT_FLUSH_TIMEOUT else 1 # 2.

Definition stop (c : copy) (flush : bool) (during : list oracle) (b : t)
  : t * list effect :=
  if negb (running b) then (b, [])
  else
    let signalled := set_flags false (connected b) true (thread b) b in
    let '(b', effs) := worker_steps c during signalled in
    (set_flags (running b') false (stop_event b') false b', effs).

(** *** Executions: the producer's calls interleaved with worker steps *)

Inductive event : Type :=
| EvBroadcast (message : Json.t)
| EvStop (flush : bool) (during : list oracle)
| EvWorker (o : oracle).

(** Bookkeeping of an execution, kept beside the state: how many
    [broadcast] calls returned [True], and how many were refused by a full
    queue. *)
Record ledger : Type := { accepted : Z; overflowed : Z }.

Definition step (c : copy) (ev : event) (bl : t * ledger) : t * ledger :=
  let '(b, l) := bl in
  match ev with
  | EvBroadcast message =>
      match broadcast message b with
      | (Ok true, b') =>
          (b', {| accepted := accepted l + 1; overflowed := overflowed l |})
      | (_, b') =>
          (b', {| accepted := accepted l;
                  overflowed :=
                    if running b then overflowed l + 1 else overflowed l |})
      end
  | EvStop flush during => (fst (stop c flush during b), l)
  | EvWorker o => (fst (worker_step c o b), l)
  end.

Definition run (c : copy) (evs : list event) (bl : t * ledger) : t * ledger :=
  fold_left (fun acc ev => step c ev acc) evs bl.

(** A broadcaster right after [__init__] and [start()]. *)
Definition started (reconnect_base reconnect_max : Q) (max_queue_size : Z)
  : t * ledger :=
  (snd (start (init reconnect_base reconnect_max max_queue_size)),
   {| accepted := 0; overflowed := 0 |}).

(** The message the worker holds between [get_nowait] and the end of
    [ws.send]. *)
Definition in_flight (b : t) : Z :=
  match at_pc b with
  | Sending _ _ => 1
  | _ => 0
  end.

(** *** Heartbeats ([_extensions] only) *)

Definition heartbeat_msg (now : Q) : Json.t :=
  Json.Obj
    [("source", Json.Str "piano"); ("topic", Json.Str "heartbeat");
     ("type", Json.Str "ping"); ("timestamp", Json.Float now)].

(** One turn of the loop of [_heartbeat_loop], up to its [sleep]. [now] is
    the clock read for the frame, [now'] the one read after the send. The
    boolean tells whether the loop goes on. *)
Definition _heartbeat_iteration (now : Q) (send_ok : bool) (now' : Q) (b : t)
  : t * list effect * bool :=
  if running b && negb (stop_event b) then
    if send_ok then
      (set_stats (note_heartbeat_sent now' (st b)) b,
       [Sent (heartbeat_msg now)], true)
    else (b, [SendFailed (heartbeat_msg now)], false)
  else (b, [], false).

(** How [_receive_loop] ends: the connection delivers no more frame, or an
    exception leaves the [async for] and is logged by the outer handler. *)
Inductive receive_end : Type :=
| Exhausted
| Escaped (e : exn).

Definition is_str (v : Json.t) (s : string) : bool :=
  match v with
  | Json.Str s' => String.eqb s' s
  | _ => false
  end.

(** The body of the [async for]: [Ok] when the loop goes on to the next
    frame. [loads] is [json.loads]. *)
Definition receive_frame (loads : string -> res Json.t) (message : string)
    (b : t) : res unit * t :=
  match loads message with
  | Raise JSONDecodeError => (Ok tt, b)
  | Raise e => (Raise e, b)
  | Ok data =>
      match Json.get data "topic" with
      | Raise e => (Raise e, b)
      | Ok topic =>
          if is_str topic "heartbeat" then
            match Json.get data "type" with
            | Raise e => (Raise e, b)
            | Ok type =>
                if is_str type "pong"
                then (Ok tt, set_stats (incr_heartbeats_received (st b)) b)
                else (Ok tt, b)
            end
          else (Ok tt, b)
      end
  end.

Fixpoint _receive_loop (loads : string -> res Json.t)
    (frames : list string) (b : t) : receive_end * t :=
  match frames with
  | [] => (Exhausted, b)
  | message :: rest =>
      match receive_frame loads message b with
      | (Ok _, b') => _receive_loop loads rest b'
      | (Raise e, b') => (Escaped e, b')
      end
  end.

(** *** Reading an execution *)

(** The frames handed to [ws.send] that went out. *)
Fixpoint sent_frames (effs : list effect) : list Json.t :=
  match effs with
  | [] => []
  | Sent frame :: effs' => frame :: sent_frames effs'
  | _ :: effs' => sent_frames effs'
  end.

(** The time slept after each failure, up to the next connection attempt:
    [pending] is the time slept since the last failure, if there was one. *)
Fixpoint reconnect_waits (pending : option Q) (effs : list effect) : list Q :=
  match effs with
  | [] => match pending with Some w => [w] | None => [] end
  | BackoffSleep d :: effs' =>
      reconnect_waits (option_map (fun w => Qred (w + d)) pending) effs'
  | ConnectFailed :: effs' =>
      match pending with
      | Some w => w :: reconnect_waits (Some 0%Q) effs'
      | None => reconnect_waits (Some 0%Q) effs'
      end
  | ConnectOk :: effs' =>
      match pending with
      | Some w => w :: reconnect_waits None effs'
      | None => reconnect_waits None effs'
      end
  | _ :: effs' => reconnect_waits pending effs'
  end.

(** The seconds slept in reconnect waits. *)
Fixpoint backoff_total (effs : list effect) : Q :=
  match effs with
  | [] => 0
  | BackoffSleep d :: effs' => d + backoff_total effs'
  | _ :: effs' => backoff_total effs'
  end.

(** The total of the three counters and places a message can be in. *)
Definition accounted (b : t) : Z :=
  messages_sent (st b) + messages_dropped (st b)
  + Z.of_nat (length (queue b)) + in_flight b.

(** The balance kept by every event of an execution. *)
Definition balanced (bl : t * ledger) : Prop :=
  accounted (fst bl) = accepted (snd bl) + overflowed (snd bl).

(** Places where the worker holds no message and is not about to take one
    without looking at the flags first. *)
Definition between_polls (p : pc) : bool :=
  match p with
  | LoopHead | SessionHead | Backoff _ | Finished => true
  | BatchHead _ | Sending _ _ => false
  end.

(** Places where the worker has no connection. *)
Definition disconnected (p : pc) : bool :=
  match p with
  | LoopHead | Backoff _ | Finished => true
  | SessionHead | BatchHead _ | Sending _ _ => false
  end.

(** A network that refuses everything, and one that accepts everything. *)
Definition refusing : oracle :=
  {| net_ok := false; now := 0; error := "refused" |}.

Definition accepting : oracle :=
  {| net_ok := true; now := 0; error := "" |}.

(** Frames for the examples: [json.loads] on the three texts below, every
    other text standing for one that is not JSON. *)
Definition dq : string := String (ascii_of_nat 34) "".

Definition pong_text : string :=
  "{" +:+ dq +:+ "topic" +:+ dq +:+ ": " +:+ dq +:+ "heartbeat" +:+ dq +:+ ", "
  +:+ dq +:+ "type" +:+ dq +:+ ": " +:+ dq +:+ "pong" +:+ dq +:+ "}".

Definition loads_on_examples (text : string) : res Json.t :=
  if String.eqb text pong_text then
    Ok (Json.Obj [("topic", Json.Str "heartbeat"); ("type", Json.Str "pong")])
  else if String.eqb text "42" then Ok (Json.Int 42)
  else if String.eqb text "[]" then Ok (Json.Arr [])
  else Raise JSONDecodeError.

End Broadcaster.

(** ** auto_midi_recorder.py *)

Module Recorder.

Import Mido.

Record t : Type := {
  base_output_dir : string;
  silence_timeout : Q;
  current_session : option string;
  current_session_path : option string;
  current_log_path : option string;
  session_messages : list message;
  last_message_time : option Q;
  silence_timer : bool;                 (* a [Timer] has been created *)
  _current_device_name : option string;
  _session_start_time : option Q;
  broadcaster : option Broadcaster.t
}.

(** [__init__], with the broadcaster it managed to create, if any. *)
Definition init (output_dir : string) (silence_timeout : Q)
    (device : option string) (broadcaster : option Broadcaster.t) : t :=
  {| base_output_dir := output_dir; silence_timeout := silence_timeout;
     current_session := None; current_session_path := None;
     current_log_path := None; session_messages := [];
     last_message_time := None; silence_timer := false;
     _current_device_name := device; _session_start_time := None;
     broadcaster := broadcaster |}.

(** What the environment answers during one call. Clock readings are
    listed in the order the code takes them. *)
Record save_env : Type := {
  save_ok : bool;              (* [mid.save] returns *)
  log_exists : bool;           (* [os.path.exists(self.current_log_path)] *)
  log_remove_ok : bool;        (* [os.remove] of the placeholder returns *)
  end_clock : Q;               (* [time.time()] for the duration *)
  rel_path : string;           (* [os.path.relpath(...)] *)
  end_fs : Os.fs;              (* the files [delete_short_recording] sees *)
  end_ts : string              (* [get_timestamp()] *)
}.

Record env : Type := {
  current_time : Q;            (* [time.time()] on entry *)
  stale : save_env;            (* for the save inside [start_new_session] *)
  year_month : string;         (* [now.strftime("%Y-%m")] *)
  timestamp : string;          (* [now.strftime("%Y-%m-%d %H.%M.%S")] *)
  makedirs_ok : bool;
  start_clock : Q;             (* [time.time()] for [last_message_time] *)
  start_clock' : Q;            (* [time.time()] for [_session_start_time] *)
  log_create_ok : bool;        (* [open(..., 'w')] and the write return *)
  start_ts : string;           (* [get_timestamp()] *)
  log_append_ok : bool;        (* [open(..., 'a')] and the write return *)
  msg_ts : string              (* [get_timestamp()] *)
}.

(** What a call leaves outside the recorder. *)
Inductive effect : Type :=
| SavedMidi (path : option string) (track : list message)
| RemovedLog (path : option string).

(** [os.path.join(a, b)] on POSIX. *)
Definition path_join (a b : string) : string :=
  match strip_prefix "/" b with
  | Some _ => b
  | None =>
      if String.eqb a "" then b
      else
        match String.get (String.length a - 1) a with
        | Some "/"%char => a +:+ b
        | _ => a +:+ "/" +:+ b
        end
  end.

(** *** Field updates *)

Definition set_broadcaster (b : option Broadcaster.t) (r : t) : t :=
  {| base_output_dir := base_output_dir r;
     silence_timeout := silence_timeout r;
     current_session := current_session r;
     current_session_path := current_session_path r;
     current_log_path := current_log_path r;
     session_messages := session_messages r;
     last_message_time := last_message_time r;
     silence_timer := silence_timer r;
     _current_device_name := _current_device_name r;
     _session_start_time := _session_start_time r;
     broadcaster := b |}.

Definition set_session (name path log : option string) (r : t) : t :=
  {| base_output_dir := base_output_dir r;
     silence_timeout := silence_timeout r;
     current_session := name; current_session_path := path;
     current_log_path := log;
     session_messages := session_messages r;
     last_message_time := last_message_time r;
     silence_timer := silence_timer r;
     _current_device_name := _current_device_name r;
     _session_start_time := _session_start_time r;
     broadcaster := broadcaster r |}.

Definition set_session_messages (l : list message) (r : t) : t :=
  {| base_output_dir := base_output_dir r;
     silence_timeout := silence_timeout r;
     current_session := current_session r;
     current_session_path := current_session_path r;
     current_log_path := current_log_path r;
     session_messages := l;
     last_message_time := last_message_time r;
     silence_timer := silence_timer r;
     _current_device_name := _current_device_name r;
     _session_start_time := _session_start_time r;
     broadcaster := broadcaster r |}.

Definition set_clocks (last start : option Q) (r : t) : t :=
  {| base_output_dir := base_output_dir r;
     silence_timeout := silence_timeout r;
     current_session := current_session r;
     current_session_path := current_session_path r;
     current_log_path := current_log_path r;
     session_messages := session_messages r;
     last_message_time := last;
     silence_timer := silence_timer r;
     _current_device_name := _current_device_name r;
     _session_start_time := start;
     broadcaster := broadcaster r |}.

Definition set_silence_timer (armed : bool) (r : t) : t :=
  {| base_output_dir := base_output_dir r;
     silence_timeout := silence_timeout r;
     current_session := current_session r;
     current_session_path := current_session_path r;
     current_log_path := current_log_path r;
     session_messages := session_messages r;
     last_message_time := last_message_time r;
     silence_timer := armed;
     _current_device_name := _current_device_name r;
     _session_start_time := _session_start_time r;
     broadcaster := broadcaster r |}.

(** [self.broadcaster.broadcast(m)] under [if self.broadcaster:]; an
    exception of [broadcast] would reach the caller's handler. *)
Definition emit (m : Json.t) (r : t) : res unit * t :=
  match broadcaster r with
  | Some b =>
      match Broadcaster.broadcast m b with
      | (Ok _, b') => (Ok tt, set_broadcaster (Some b') r)
      | (Raise e, b') => (Raise e, set_broadcaster (Some b') r)
      end
  | None => (Ok tt, r)
  end.

(** [self.current_session.replace('.mid', '')] *)
Definition session_id_of (name : string) : string := replace ".mid" "" name.

(** Truth value of an [Optional[float]]: [None] and [0.0] are false. *)
Definition truthy_float (o : option Q) : bool :=
  match o with
  | Some x => negb (Qeq_bool x 0)
  | None => false
  end.

(** *** [_save_current_session] *)

Definition _save_current_session (e : save_env) (r : t) : t * list effect :=
  match session_messages r, current_session r with
  | [], _ | _, None => (r, [])
  | _ :: _, Some name =>
      if String.eqb name "" then (r, [])
      else if negb (save_ok e) then (r, [])
      else
        let saved := SavedMidi (current_session_path r) (session_messages r) in
        let after_log :=
          if truthy (current_log_path r) && log_exists e then
            if log_remove_ok e then Ok [saved; RemovedLog (current_log_path r)]
            else Raise OSError
          else Ok [saved] in
        match after_log with
        | Raise _ => (r, [saved])
        | Ok effs =>
            match broadcaster r with
            | None => (r, effs)
            | Some _ =>
                let session_id := session_id_of name in
                let duration :=
                  match _session_start_time r with
                  | Some start =>
                      if truthy_float (Some start)
                      then (end_clock e - start)%Q else 0%Q
                  | None => 0%Q
                  end in
                let note_count :=
                  Z.of_nat (length (filter (fun m => is_note m = true)
                                      (session_messages r))) in
                let m :=
                  fst (Converter.create_session_end_message (end_fs e)
                         (end_ts e) session_id duration note_count
                         (Some (rel_path e))) in
                (snd (emit m r), effs)
            end
        end
  end.

(** *** [start_new_session]; every exception is caught inside it *)

Definition start_new_session (e : env) (r : t) : t * list effect :=
  let '(r, effs) :=
    if truthy (current_session r) then _save_current_session (stale e) r
    else (r, []) in
  if negb (makedirs_ok e) then (r, effs)
  else
    let session_dir := path_join (base_output_dir r) (year_month e) in
    let name := timestamp e +:+ ".mid" in
    let r :=
      set_clocks (Some (start_clock e)) (Some (start_clock' e))
        (set_session_messages []
           (set_session (Some name) (Some (path_join session_dir name))
              (Some (path_join session_dir (timestamp e +:+ ".log"))) r)) in
    if negb (log_create_ok e) then (r, effs)
    else
      let device :=
        if truthy (_current_device_name r)
        then default "Unknown" (_current_device_name r) else "Unknown" in
      (snd (emit (Converter.create_session_start_message (start_ts e)
                    (session_id_of name) device) r),
       effs).

(** *** [_on_silence_timeout] and [_reset_silence_timer] *)

Definition _on_silence_timeout (e : save_env) (r : t) : t * list effect :=
  if truthy (current_session r) then
    let '(r, effs) := _save_current_session e r in
    (set_session_messages [] (set_session None None None r), effs)
  else (r, []).

Definition _reset_silence_timer (r : t) : t := set_silence_timer true r.

(** *** [process_midi_message] *)

(** First statement under the lock: open a session when none is. *)
Definition ensure_session (e : env) (r : t) : t * list effect :=
  if negb (truthy (current_session r)) then start_new_session e r
  else (r, []).

(** The delta time written to [msg.time]. *)
Definition delta_ticks (current_time : Q) (last_message_time : option Q) : Z :=
  match last_message_time with
  | Some last =>
      let delta_seconds := (current_time - last)%Q in
      let delta_seconds :=
        if Py.ltb delta_seconds 0 then 0%Q else delta_seconds in
      let ticks := int_of (delta_seconds * 960)%Q in
      Z.min ticks 65535
  | None => 0
  end.

Definition process_midi_message (e : env) (msg : message) (r : t)
  : t * list effect :=
  let '(r, effs) := ensure_session e r in
  let msg := set_time msg (delta_ticks (current_time e) (last_message_time r)) in
  let r :=
    set_clocks (Some (current_time e)) (_session_start_time r)
      (set_session_messages (session_messages r ++ [msg]) r) in
  (* the log line: [open(None, 'a')] is a [TypeError] *)
  match current_log_path r with
  | None => (r, effs)
  | Some _ =>
      if negb (log_append_ok e) then (r, effs)
      else
        let broadcast_result :=
          match broadcaster r with
          | None => (Ok tt, r)
          | Some _ =>
              let session_id :=
                if truthy (current_session r)
                then option_map session_id_of (current_session r)
                else None in
              match Converter.midi_message_to_json (msg_ts e) msg session_id with
              | Raise x => (Raise x, r)
              | Ok None => (Ok tt, r)
              | Ok (Some json_msg) => emit json_msg r
              end
          end in
        match broadcast_result with
        | (Ok _, r) => (_reset_silence_timer r, effs)
        | (Raise _, r) => (r, effs)
        end
  end.

(** *** Executions of the engine

    The two entry points that take the session lock, in the order in which
    they get it. Beside the state a [journal] records the sessions the
    timeout handler closed, and the messages that arrived while a session
    was open or could be opened, as they arrived. *)

Inductive event : Type :=
| EvMessage (e : env) (msg : message)
| EvTimeout (e : save_env).

Record journal : Type := {
  closed : list (string * list message);
  arrived : list body
}.

Definition open_session (r : t) : option (string * list message) :=
  match current_session r with
  | Some name =>
      if truthy (Some name) then Some (name, session_messages r) else None
  | None => None
  end.

Definition step (ev : event) (rj : t * journal) : t * journal :=
  let '(r, j) := rj in
  match ev with
  | EvMessage e msg =>
      let r' := fst (process_midi_message e msg r) in
      (r',
       {| closed := closed j;
          arrived :=
            match open_session r' with
            | Some _ => arrived j ++ [msg_body msg]
            | None => arrived j
            end |})
  | EvTimeout e =>
      (fst (_on_silence_timeout e r),
       {| closed :=
            match open_session r with
            | Some s => closed j ++ [s]
            | None => closed j
            end;
          arrived := arrived j |})
  end.

Definition run (evs : list event) (rj : t * journal) : t * journal :=
  fold_left (fun acc ev => step ev acc) evs rj.

Definition fresh (output_dir : string) (silence_timeout : Q)
    (device : option string) (broadcaster : option Broadcaster.t)
  : t * journal :=
  (init output_dir silence_timeout device broadcaster,
   {| closed := []; arrived := [] |}).

(** *** Reading an execution *)

(** The messages of the session that is open, if one is. *)
Definition open_messages (r : t) : list message :=
  match open_session r with
  | Some s => snd s
  | None => []
  end.

(** The sessions closed so far, in the order they were closed, followed by
    the open one, hold the arrived messages in the order they arrived. *)
Definition partitioned (rj : t * journal) : Prop :=
  map msg_body (concat (map snd (closed (snd rj))) ++ open_messages (fst rj))
  = arrived (snd rj).


(** [r'] differs from [r] at most in the broadcaster and the timer. *)
Definition same_session (r r' : t) : Prop :=
  current_session r' = current_session r /\
  current_session_path r' = current_session_path r /\
  current_log_path r' = current_log_path r /\
  session_messages r' = session_messages r /\
  last_message_time r' = last_message_time r /\
  _session_start_time r' = _session_start_time r.

(** The messages of an execution, and the executions in which every
    directory could be made. *)
Definition messages_of (evs : list event) : list body :=
  flat_map (fun ev =>
              match ev with
              | EvMessage _ msg => [msg_body msg]
              | EvTimeout _ => []
              end) evs.

Definition dirs_made (evs : list event) : Prop :=
  Forall (fun ev =>
            match ev with
            | EvMessage e _ => makedirs_ok e = true
            | EvTimeout _ => True
            end) evs.

(** An environment in which every call succeeds, read at instant [now],
    and a message for the examples. *)
Definition calm_save (now : Q) : save_env :=
  {| save_ok := true; log_exists := true; log_remove_ok := true;
     end_clock := now; rel_path := "2025-01/2025-01-01 10.00.00.mid";
     end_fs := {| Os.files := ∅; Os.readonly := ∅ |};
     end_ts := "2025-01-01T10:00:00.000Z" |}.

Definition calm (now : Q) : env :=
  {| current_time := now; stale := calm_save now; year_month := "2025-01";
     timestamp := "2025-01-01 10.00.00"; makedirs_ok := true;
     start_clock := now; start_clock' := now; log_create_ok := true;
     start_ts := "2025-01-01T10:00:00.000Z"; log_append_ok := true;
     msg_ts := "2025-01-01T10:00:00.000Z" |}.

Definition middle_c_on : message := Message (note_on 0 60 64) 0.
Definition middle_c_off : message := Message (note_off 0 60 0) 0.

End Recorder.

(** ** Tables for the properties of the converter *)

Module ConverterTables.

(** The names of the notes 0 to 127, in order. *)
Definition in_range_names : list (res string) :=
  map (fun i => Converter.midi_note_to_name (Z.of_nat i)) (seq 0 128).

(** The entries of [CONTROL_NAMES]. *)
Definition control_table : list (Z * string) :=
  [(1, "modulation"); (7, "volume"); (10, "pan"); (11, "expression");
   (64, "sustain"); (65, "portamento"); (66, "sostenuto");
   (67, "soft_pedal"); (91, "reverb"); (93, "chorus")].

End ConverterTables.

(** ** auto_midi_recorder.py: device selection, the recording loop, shutdown *)

Module RecorderApp.

Import Mido.

(** [needle in hay] for strings. *)
Fixpoint contains (needle hay : string) : bool :=
  match strip_prefix needle hay with
  | Some _ => true
  | None =>
      match hay with
      | EmptyString => false
      | String _ hay' => contains needle hay'
      end
  end.

(** [s.lower()] on ASCII letters; other characters are left as they are. *)
Definition lower_char (c : ascii) : ascii :=
  let n := nat_of_ascii c in
  if (65 <=? n)%nat && (n <=? 90)%nat then ascii_of_nat (n + 32) else c.

Fixpoint lower (s : string) : string :=
  match s with
  | EmptyString => EmptyString
  | String c s' => String (lower_char c) (lower s')
  end.

(** The tests of the two loops of [find_midi_device]. *)
Definition preferred (name : string) : bool :=
  contains "Digital Keyboard" name || contains "yamaha" (lower name).

Definition non_virtual (name : string) : bool :=
  negb (contains "virtual" (lower name))
  && negb (contains "garageband" (lower name)).

Definition set_current_device_name (d : option string) (r : Recorder.t)
  : Recorder.t :=
  {| Recorder.base_output_dir := Recorder.base_output_dir r;
     Recorder.silence_timeout := Recorder.silence_timeout r;
     Recorder.current_session := Recorder.current_session r;
     Recorder.current_session_path := Recorder.current_session_path r;
     Recorder.current_log_path := Recorder.current_log_path r;
     Recorder.session_messages := Recorder.session_messages r;
     Recorder.last_message_time := Recorder.last_message_time r;
     Recorder.silence_timer := Recorder.silence_timer r;
     Recorder._current_device_name := d;
     Recorder._session_start_time := Recorder._session_start_time r;
     Recorder.broadcaster := Recorder.broadcaster r |}.

(** [find_midi_device]; [input_names] is what [mido.get_input_names()]
    returned. *)
Definition find_midi_device (input_names : list string) (r : Recorder.t)
  : option string * Recorder.t :=
  match input_names with
  | [] => (None, r)
  | first :: _ =>
      let device_name := find preferred input_names in
      let device_name :=
        if negb (truthy device_name) then
          match find non_virtual input_names with
          | Some name => Some name
          | None => device_name
          end
        else device_name in
      let device_name :=
        if negb (truthy device_name) then Some first else device_name in
      (device_name, set_current_device_name device_name r)
  end.

(** [msg.type] *)
Definition type_of (b : body) : string :=
  match b with
  | note_on _ _ _ => "note_on"
  | note_off _ _ _ => "note_off"
  | control_change _ _ _ => "control_change"
  | pitchwheel _ _ => "pitchwheel"
  | program_change _ _ => "program_change"
  | other type_name => type_name
  end.

(** The filter of the loop of [start_recording]. *)
Definition recorded_types : list string :=
  ["note_on"; "note_off"; "control_change"; "program_change"; "pitchwheel"].

Definition recorded (msg : message) : bool :=
  existsb (String.eqb (type_of (msg_body msg))) recorded_types.

(** [other] stands for the types that have no constructor of their own. *)
Definition well_typed (msg : message) : Prop :=
  match msg_body msg with
  | other type_name =>
      existsb (String.eqb type_name) recorded_types = false
  | _ => True
  end.

(** The recorder object with the flag of its loop. *)
Record t : Type := { engine : Recorder.t; is_recording : bool }.

(** [stop_recording]: [c] is the copy of the broadcaster in use and
    [during] what its worker does while [stop] joins it. *)
Definition stop_recording (c : Broadcaster.copy) (e : Recorder.save_env)
    (during : list Broadcaster.oracle) (a : t) : t * list Recorder.effect :=
  let r := engine a in
  let '(r, effs) :=
    if truthy (Recorder.current_session r)
    then Recorder._save_current_session e r
    else (r, []) in
  let r :=
    match Recorder.broadcaster r with
    | Some b =>
        Recorder.set_broadcaster
          (Some (fst (Broadcaster.stop c true during b))) r
    | None => r
    end in
  ({| engine := r; is_recording := false |}, effs).

(** The body of the [for] loop of [start_recording] over the messages the
    port delivers, while nothing clears [is_recording]. *)
Fixpoint record_all (incoming : list (Recorder.env * message)) (r : Recorder.t)
  : Recorder.t * list Recorder.effect :=
  match incoming with
  | [] => (r, [])
  | (e, msg) :: rest =>
      let '(r1, e1) :=
        if recorded msg then Recorder.process_midi_message e msg r
        else (r, []) in
      let '(r2, e2) := record_all rest r1 in
      (r2, e1 ++ e2)
  end.

(** [start_recording]. [open_ok] tells whether [mido.open_input] returns;
    an exception there, like the end of the port's messages, leads to the
    [finally] clause. *)
Definition start_recording (c : Broadcaster.copy) (input_names : list string)
    (open_ok : bool) (incoming : list (Recorder.env * message))
    (e : Recorder.save_env) (during : list Broadcaster.oracle) (a : t)
  : bool * t * list Recorder.effect :=
  let '(device_name, r) := find_midi_device input_names (engine a) in
  if negb (truthy device_name) then
    (false, {| engine := r; is_recording := is_recording a |}, [])
  else if negb open_ok then
    let '(a', effs) :=
      stop_recording c e during {| engine := r; is_recording := is_recording a |} in
    (true, a', effs)
  else
    let '(r', effs) := record_all incoming r in
    let '(a', effs') :=
      stop_recording c e during {| engine := r'; is_recording := true |} in
    (true, a', effs ++ effs').

End RecorderApp.

(** ** auto_midi_recorder.py: [load_config] *)

Module Config.

(** Truth value of a parsed value. *)
Definition truthy_value (v : Json.t) : bool :=
  match v with
  | Json.Null => false
  | Json.Bool b => b
  | Json.Int n => negb (n =? 0)
  | Json.Float x => negb (Qeq_bool x 0)
  | Json.Str s => negb (String.eqb s "")
  | Json.Arr l => match l with [] => false | _ => true end
  | Json.Obj kv => match kv with [] => false | _ => true end
  end.

Definition has_key (k : string) (kv : list (string * Json.t)) : bool :=
  match Json.assoc k kv with
  | Some _ => true
  | None => false
  end.

(** [{**a, **b}]: the keys of [a] in their order, with the value [b] gives
    them if it has one, then the keys only [b] has. *)
Definition merge (a b : list (string * Json.t)) : list (string * Json.t) :=
  map (fun kv => (fst kv, default (snd kv) (Json.assoc (fst kv) b))) a
  ++ filter (fun kv => has_key (fst kv) a = false) b.

Definition default_websocket : list (string * Json.t) :=
  [("enabled", Json.Bool false); ("host", Json.Str "localhost");
   ("port", Json.Int 3112); ("path", Json.Str "/ws")].

Definition default_config : list (string * Json.t) :=
  [("silence_timeout", Json.Int 30); ("websocket", Json.Obj default_websocket)].

(** [d[k] = v] on a dict that has the key [k]. *)
Definition set_key (k : string) (v : Json.t) (d : list (string * Json.t))
  : list (string * Json.t) :=
  map (fun kv => if String.eqb (fst kv) k then (k, v) else kv) d.

(** [load_config]. [file] is [None] when [config.yml] does not exist,
    otherwise what [open] and [yaml.safe_load] gave: a value, with
    mappings as [Json.Obj], or an exception. Every exception of the [try]
    block ends in the defaults. *)
Definition load_config (file : option (res Json.t)) : list (string * Json.t) :=
  match file with
  | None => default_config
  | Some (Raise _) => default_config
  | Some (Ok loaded) =>
      (* [yaml.safe_load(f) or {}] *)
      let file_config := if truthy_value loaded then loaded else Json.Obj [] in
      match file_config with
      | Json.Obj file_kv =>
          let config := merge default_config file_kv in
          match Json.assoc "websocket" file_kv with
          | Some (Json.Obj ws) =>
              set_key "websocket" (Json.Obj (merge default_websocket ws)) config
          | Some _ => default_config       (* not a mapping: [TypeError] *)
          | None => config
          end
      | _ => default_config                (* not a mapping: [TypeError] *)
      end
  end.

(** [d.get(k, fallback)] *)
Definition get_or (k : string) (fallback : Json.t) (d : list (string * Json.t))
  : Json.t :=
  default fallback (Json.assoc k d).

End Config.

(** ** midi_ws_broadcaster.py: the heartbeat loop as a whole, and readings
    of the receive loop *)

Module BroadcasterLoops.

Import Broadcaster.

(** [_heartbeat_loop]: one entry of [turns] per turn of the loop, with the
    clock read for the frame, the outcome of the send and the clock read
    after it. The loop ends with its guard, with the first send that
    fails, or, here, with the last turn listed. *)
Fixpoint _heartbeat_loop (turns : list (Q * bool * Q)) (b : t)
  : t * list effect :=
  match turns with
  | [] => (b, [])
  | (now, send_ok, now') :: rest =>
      let '(b1, e1, goes_on) := _heartbeat_iteration now send_ok now' b in
      if goes_on then
        let '(b2, e2) := _heartbeat_loop rest b1 in (b2, e1 ++ e2)
      else (b1, e1)
  end.

(** The state the worker is in while it drains: running, not stopped. *)
Definition draining (b : t) : Prop :=
  running b = true /\ stop_event b = false.

(** A frame that [_receive_loop] counts. *)
Definition is_pong (loads : string -> res Json.t) (message : string) : bool :=
  match loads message with
  | Ok (Json.Obj kv) =>
      is_str (default Json.Null (Json.assoc "topic" kv)) "heartbeat"
      && is_str (default Json.Null (Json.assoc "type" kv)) "pong"
  | _ => false
  end.

(** A frame that is a JSON object, or is not JSON at all. *)
Definition object_or_not_json (loads : string -> res Json.t) (message : string)
  : bool :=
  match loads message with
  | Ok (Json.Obj _) => true
  | Raise JSONDecodeError => true
  | _ => false
  end.

End BroadcasterLoops.

(** ** Readings of the recorder's broadcasts *)

Module RecorderReadings.

(** The queue of the recorder's broadcaster, empty when there is none. *)
Definition outbox (r : Recorder.t) : list Json.t :=
  match Recorder.broadcaster r with
  | Some b => Broadcaster.queue b
  | None => []
  end.

(** The broadcaster has room for [n] more messages. *)
Definition room_for (n : Z) (b : Broadcaster.t) : Prop :=
  Broadcaster.max_queue_size b <= 0 \/
  Z.of_nat (length (Broadcaster.queue b)) + n <= Broadcaster.max_queue_size b.

(** [self._current_device_name or "Unknown"] *)
Definition device_or_unknown (r : Recorder.t) : string :=
  if truthy (Recorder._current_device_name r)
  then default "Unknown" (Recorder._current_device_name r) else "Unknown".

(** The number of [note_on] and [note_off] messages. *)
Definition note_count (l : list Mido.message) : Z :=
  Z.of_nat (length (filter (fun m => Mido.is_note m = true) l)).

(** A recorder with a broadcaster that was started, for the examples. *)
Definition broadcasting : Recorder.t * Recorder.journal :=
  Recorder.fresh "/data/piano" 30 (Some "Digital Keyboard")
    (Some (fst (Broadcaster.started 5 60 1000))).

End RecorderReadings.

(** ** auto_midi_recorder.py: the silence timer in time *)

Module RecorderClock.

Import Mido Recorder.

(** [process_midi_message] got as far as [_reset_silence_timer]. No other
    statement sets the flag, so a call that starts with the flag cleared
    ends with it set exactly when it got there. *)
Definition restarts_timer (e : env) (msg : message) (r : Recorder.t) : bool :=
  silence_timer (fst (process_midi_message e msg (set_silence_timer false r))).

(** A message the loop hands to [process_midi_message]. *)
Record arrival : Type := {
  heard : env;               (* what the call reads *)
  note : message;
  timer_started : Q;         (* the instant of [self.silence_timer.start()] *)
  on_expiry : save_env       (* what the handler of a timer that ran out
                                before this message read *)
}.

(** The engine with its journal, and the instant at which the [Timer] that
    is running fires, if one is running. *)
Record t : Type := {
  recorder : Recorder.t * journal;
  pending : option Q
}.

Definition due (pending : option Q) (now : Q) : bool :=
  match pending with
  | Some deadline => Qle_bool deadline now
  | None => false
  end.

(** [Timer(self.silence_timeout, self._on_silence_timeout)] calls the
    handler [silence_timeout] seconds after [start()] unless it is cancelled
    first. The handler of a timer that has run out by the instant a message
    is read has had the session lock before the message. *)
Definition expire (a : arrival) (s : t) : t :=
  if due (pending s) (current_time (heard a)) then
    {| recorder := step (EvTimeout (on_expiry a)) (recorder s);
       pending := None |}
  else s.

(** One message: the timer that ran out fires first; [_reset_silence_timer],
    when the call reaches it, cancels the timer that is running and starts
    one for [silence_timeout] seconds; a call that does not reach it leaves
    the timer that is running, if any, as it is. *)
Definition arrive (a : arrival) (s : t) : t :=
  let s := expire a s in
  let r := fst (recorder s) in
  {| recorder := step (EvMessage (heard a) (note a)) (recorder s);
     pending :=
       if restarts_timer (heard a) (note a) r
       then Some (timer_started a + silence_timeout r)%Q
       else pending s |}.

Definition run (arrivals : list arrival) (s : t) : t :=
  fold_left (fun acc a => arrive a acc) arrivals s.

Definition fresh (output_dir : string) (silence_timeout : Q)
    (device : option string) (broadcaster : option Broadcaster.t) : t :=
  {| recorder := Recorder.fresh output_dir silence_timeout device broadcaster;
     pending := None |}.

(** An open session has a log path, and the timeout is the one the
    recorder was made with: the invariants of these executions. *)
Definition open_has_log (r : Recorder.t) : Prop :=
  truthy (current_session r) = true -> is_Some (current_log_path r).

Definition steady (timeout : Q) (s : t) : Prop :=
  open_has_log (fst (recorder s)) /\
  silence_timeout (fst (recorder s)) = timeout.

(** For the examples: a message read at instant [now] when every call
    succeeds, and one whose log line cannot be written. *)
Definition at_instant (now : Q) (m : message) : arrival :=
  {| heard := calm now; note := m; timer_started := now;
     on_expiry := calm_save now |}.

Definition unlogged (e : env) : env :=
  {| current_time := current_time e; stale := stale e;
     year_month := year_month e; timestamp := timestamp e;
     makedirs_ok := makedirs_ok e; start_clock := start_clock e;
     start_clock' := start_clock' e; log_create_ok := log_create_ok e;
     start_ts := start_ts e; log_append_ok := false; msg_ts := msg_ts e |}.

Definition unlogged_at (now : Q) (m : message) : arrival :=
  {| heard := unlogged (calm now); note := m; timer_started := now;
     on_expiry := calm_save now |}.

End RecorderClock.

(** * Properties *)

Import Mido.

(** ** The embedding on concrete inputs *)

Example middle_c_is_C4 : Converter.midi_note_to_name 60 = Ok "C4".
Proof. reflexivity. Qed.

Example lowest_note_is_C_minus_1 : Converter.midi_note_to_name 0 = Ok "C-1".
Proof. reflexivity. Qed.

Example negative_note_falls_back : Converter.midi_note_to_name (-5) = Ok "Note-5".
Proof. reflexivity. Qed.

Example sustain_has_a_name :
  Converter.get_control_name 64 = "sustain" /\
  Converter.get_control_name 3 = "cc3".
Proof. split; reflexivity. Qed.

Example splitext_keeps_inner_dots :
  Os.splitext_root "2025-01/2025-01-01 10.00.00.mid"
  = "2025-01/2025-01-01 10.00.00".
Proof. reflexivity. Qed.

Example session_id_drops_the_extension :
  Recorder.session_id_of "2025-01-01 10.00.00.mid" = "2025-01-01 10.00.00".
Proof. reflexivity. Qed.

Example int_truncates_towards_zero :
  int_of (7 # 2) = 3 /\ int_of (- (7 # 2)) = -3.
Proof. split; reflexivity. Qed.

Example round2_ties_to_even :
  round2 (125 # 1000) = (12 # 100)%Q /\ round2 (135 # 1000) = (14 # 100)%Q.
Proof. split; reflexivity. Qed.

(** A note struck at instant 100 and released a fifth of a second later:
    one session, deltas 0 and 192 ticks. *)
Example two_notes_one_session :
  Recorder.open_session
    (fst (Recorder.run
            [Recorder.EvMessage (Recorder.calm 100) Recorder.middle_c_on;
             Recorder.EvMessage (Recorder.calm (1002 # 10)) Recorder.middle_c_off]
            (Recorder.fresh "/data/piano" 30 None None)))
  = Some ("2025-01-01 10.00.00.mid",
          [Message (note_on 0 60 64) 0; Message (note_off 0 60 0) 192]).
Proof. reflexivity. Qed.

(** A full batch: with 60 messages queued, one call of
    [_send_queued_messages] sends 50 and leaves 10. *)
Example one_batch_sends_fifty :
  let b0 :=
    Broadcaster.set_queue (replicate 60 (Json.Int 0))
      (fst (Broadcaster.worker_step Broadcaster.extensions Broadcaster.accepting
              (fst (Broadcaster.started 5 60 1000)))) in
  let b := fst (Broadcaster.worker_steps Broadcaster.extensions
                  (replicate 102 Broadcaster.accepting) b0) in
  Broadcaster.at_pc b = Broadcaster.SessionHead /\
  Broadcaster.messages_sent (Broadcaster.st b) = 50 /\
  length (Broadcaster.queue b) = 10%nat.
Proof. vm_compute. auto. Qed.

(** ** The converter *)

Section ConverterFacts.

Import Converter.

Lemma index_in_range {A : Type} (l : list A) (i : Z) :
  0 <= i < Z.of_nat (length l) ->
  exists x, l !! Z.to_nat i = Some x /\ index l i = Ok x.
Proof.
  intros Hi. unfold index.
  destruct (i <? 0) eqn:Hneg; [apply Z.ltb_lt in Hneg; lia|].
  assert (Hlt : (Z.to_nat i < length l)%nat) by lia.
  destruct (lookup_lt_is_Some_2 l _ Hlt) as [x Hx].
  exists x. split; [exact Hx|].
  replace (0 <=? i) with true by (symmetry; apply Z.leb_le; lia).
  replace (i <? Z.of_nat (length l)) with true by (symmetry; apply Z.ltb_lt; lia).
  simpl. now rewrite Hx.
Qed.

Lemma midi_note_to_name_in_range (note : Z) :
  0 <= note <= 127 ->
  exists name,
    NOTE_NAMES !! Z.to_nat (note mod 12) = Some name /\
    midi_note_to_name note = Ok (name +:+ str_int (note / 12 - 1)).
Proof.
  intros [Hlo Hhi]. unfold midi_note_to_name.
  replace (0 <=? note) with true by (symmetry; apply Z.leb_le; lia).
  replace (note <=? 127) with true by (symmetry; apply Z.leb_le; lia).
  simpl negb. cbv iota.
  destruct (index_in_range NOTE_NAMES (note mod 12)) as (name & Hname & Hidx).
  { change (Z.of_nat (length NOTE_NAMES)) with 12. apply Z.mod_pos_bound. lia. }
  exists name. split; [exact Hname|]. now rewrite Hidx.
Qed.

Lemma midi_note_to_name_out_of_range (note : Z) :
  ~ (0 <= note <= 127) ->
  midi_note_to_name note = Ok ("Note" +:+ str_int note).
Proof.
  intros Hout. unfold midi_note_to_name.
  destruct ((0 <=? note) && (note <=? 127)) eqn:Hin; [|reflexivity].
  apply andb_true_iff in Hin as [H1 H2].
  apply Z.leb_le in H1, H2. lia.
Qed.

Lemma midi_note_to_name_returns (note : Z) :
  exists name, midi_note_to_name note = Ok name.
Proof.
  destruct (Z_le_dec 0 note) as [Hlo|Hlo]; [destruct (Z_le_dec note 127) as [Hhi|Hhi]|].
  - destruct (midi_note_to_name_in_range note) as (n & _ & H); eauto.
  - eexists. apply midi_note_to_name_out_of_range. lia.
  - eexists. apply midi_note_to_name_out_of_range. lia.
Qed.

End ConverterFacts.

(** C10. [midi_note_to_name] returns for every integer and never raises:
    for a note from 0 to 127 the result is the entry [note % 12] of
    [NOTE_NAMES] followed by the octave [(note // 12) - 1]; for every other
    note it is ["Note"] followed by the number. *)
Theorem midi_note_to_name_total (note : Z) :
  (0 <= note <= 127 ->
   exists name,
     Converter.NOTE_NAMES !! Z.to_nat (note mod 12) = Some name /\
     Converter.midi_note_to_name note = Ok (name +:+ str_int (note / 12 - 1))) /\
  (~ (0 <= note <= 127) ->
   Converter.midi_note_to_name note = Ok ("Note" +:+ str_int note)) /\
  (exists s, Converter.midi_note_to_name note = Ok s).
Proof.
  split; [apply midi_note_to_name_in_range|].
  split; [apply midi_note_to_name_out_of_range|].
  apply midi_note_to_name_returns.
Qed.

Lemma midi_note_to_name_total_witness :
  (0 <= 61 <= 127 /\ Converter.midi_note_to_name 61 = Ok "C#4") /\
  (~ (0 <= 128 <= 127) /\ Converter.midi_note_to_name 128 = Ok "Note128").
Proof.
  split.
  - split; [lia|].
    destruct (midi_note_to_name_total 61) as (Hin & _ & _).
    destruct Hin as (name & Hname & Heq); [lia|].
    rewrite Heq. vm_compute in Hname. injection Hname as <-. reflexivity.
  - split; [lia|].
    apply (midi_note_to_name_total 128). lia.
Defined.

(** C9. A [note_on] message with velocity 0 is reported with
    [data.event = "note_off"], its note, velocity 0 and channel kept; a
    [note_on] with a positive velocity is reported with
    [data.event = "note_on"]. *)
Theorem note_on_event_follows_velocity
    (ts : string) (session_id : option string) (channel note time : Z) :
  (exists j data,
     Converter.midi_message_to_json ts (Message (note_on channel note 0) time)
       session_id = Ok (Some j) /\
     Json.field "data" j = Some data /\
     Json.field "event" data = Some (Json.Str "note_off") /\
     Json.field "note" data = Some (Json.Int note) /\
     Json.field "velocity" data = Some (Json.Int 0) /\
     Json.field "channel" data = Some (Json.Int channel)) /\
  (forall velocity, 0 < velocity ->
   exists j data,
     Converter.midi_message_to_json ts
       (Message (note_on channel note velocity) time) session_id
       = Ok (Some j) /\
     Json.field "data" j = Some data /\
     Json.field "event" data = Some (Json.Str "note_on") /\
     Json.field "note" data = Some (Json.Int note) /\
     Json.field "velocity" data = Some (Json.Int velocity) /\
     Json.field "channel" data = Some (Json.Int channel)).
Proof.
  destruct (midi_note_to_name_returns note) as [name Hname].
  split.
  - unfold Converter.midi_message_to_json, Converter.note_message_to_json.
    simpl msg_body. cbv iota beta. rewrite Hname. simpl.
    do 2 eexists. repeat split.
  - intros velocity Hpos.
    unfold Converter.midi_message_to_json, Converter.note_message_to_json.
    simpl msg_body. cbv iota beta. rewrite Hname.
    replace (velocity =? 0) with false by (symmetry; apply Z.eqb_neq; lia).
    simpl. do 2 eexists. repeat split.
Qed.

Lemma note_on_event_follows_velocity_witness :
  0 < 64 /\
  exists j data,
    Converter.midi_message_to_json "2025-01-01T10:00:00.000Z"
      (Message (note_on 0 60 64) 0) (Some "2025-01-01 10.00.00")
      = Ok (Some j) /\
    Json.field "data" j = Some data /\
    Json.field "event" data = Some (Json.Str "note_on") /\
    Json.field "note" data = Some (Json.Int 60) /\
    Json.field "velocity" data = Some (Json.Int 64) /\
    Json.field "channel" data = Some (Json.Int 0).
Proof.
  split; [lia|].
  apply (note_on_event_follows_velocity "2025-01-01T10:00:00.000Z"
           (Some "2025-01-01 10.00.00") 0 60 0).
  lia.
Defined.

(** ** Session end messages *)

Section SessionEndFacts.

Import Converter.

Lemma ltb_lt (x y : Q) : Py.ltb x y = true <-> (x < y)%Q.
Proof.
  unfold Py.ltb. rewrite Qlt_alt. destruct (x ?= y)%Q; split; congruence.
Qed.

Lemma truthy_nonempty (p : string) : p <> "" -> truthy (Some p) = true.
Proof.
  intros Hp. simpl. apply negb_true_iff, String.eqb_neq. exact Hp.
Qed.

Lemma remove_spec (w : Os.fs) (p : string) :
  (Os.removable w p ->
   Os.remove w p = Ok {| Os.files := Os.files w ∖ {[p]}; Os.readonly := Os.readonly w |}) /\
  (~ Os.removable w p -> Os.remove w p = Raise OSError).
Proof.
  unfold Os.removable, Os.remove. split.
  - intros [Hin Hro]. rewrite bool_decide_eq_true_2 by assumption.
    rewrite bool_decide_eq_false_2 by assumption. reflexivity.
  - intros Hnot.
    destruct (decide (p ∈ Os.files w)) as [Hin|Hin];
      [|rewrite (bool_decide_eq_false_2 _ Hin); reflexivity].
    destruct (decide (p ∈ Os.readonly w)) as [Hro|Hro]; [|tauto].
    rewrite (bool_decide_eq_true_2 _ Hin), (bool_decide_eq_true_2 _ Hro).
    reflexivity.
Qed.

(** [delete_short_recording] reports a deletion exactly when the MIDI file
    or its MP3 sibling was there and could be removed. *)
Lemma delete_short_recording_true_iff (w : Os.fs) (p : string) (d : Q) :
  p <> "" ->
  fst (delete_short_recording w p d) = true <->
  Os.removable w p \/ Os.removable w (Os.splitext_root p +:+ ".mp3").
Proof.
  intros Hp. unfold delete_short_recording.
  rewrite (truthy_nonempty p Hp). simpl andb.
  set (mp3 := Os.splitext_root p +:+ ".mp3").
  unfold Os.path_exists.
  destruct (decide (Os.removable w p)) as [Hrm|Hrm].
  - destruct (remove_spec w p) as [Hok _]. specialize (Hok Hrm).
    destruct Hrm as [Hin Hro].
    rewrite (bool_decide_eq_true_2 _ Hin), Hok.
    split; [intros _; left; split; assumption|intros _].
    match goal with |- context [bool_decide ?P] => destruct (bool_decide P) end;
      [|reflexivity].
    match goal with |- context [Os.remove ?a ?b] => destruct (Os.remove a b) end;
      reflexivity.
  - assert (Hfirst :
      (if bool_decide (p ∈ Os.files w)
       then match Os.remove w p with
            | Ok w' => (true, w')
            | Raise _ => (false, w)
            end
       else (false, w)) = (false, w)).
    { destruct (bool_decide (p ∈ Os.files w)); [|reflexivity].
      destruct (remove_spec w p) as [_ Hfail]. now rewrite (Hfail Hrm). }
    rewrite Hfirst.
    destruct (decide (Os.removable w mp3)) as [Hrm2|Hrm2].
    + destruct (remove_spec w mp3) as [Hok _]. specialize (Hok Hrm2).
      destruct Hrm2 as [Hin Hro].
      rewrite (bool_decide_eq_true_2 _ Hin), Hok.
      split; [intros _; right; split; assumption|reflexivity].
    + destruct (remove_spec w mp3) as [_ Hfail]. specialize (Hfail Hrm2).
      rewrite Hfail.
      destruct (bool_decide (mp3 ∈ Os.files w)); simpl;
        (split; [discriminate|tauto]).
Qed.

End SessionEndFacts.

(** The [data] object of the session end message and the flag computed by
    [create_session_end_message]. *)
Lemma create_session_end_message_data
    (w : Os.fs) (ts session_id : string) (duration : Q) (note_count : Z)
    (file_path : option string) :
  exists data deleted,
    Json.field "data"
      (fst (Converter.create_session_end_message w ts session_id duration
              note_count file_path)) = Some data /\
    Json.field "deleted" data = Some (Json.Bool deleted) /\
    Json.field "filePath" data
      = Some (if deleted then Json.Null else Json.of_opt_str file_path) /\
    deleted =
      match file_path with
      | Some p =>
          if Py.ltb duration Converter.MIN_SESSION_DURATION_SECONDS
             && truthy file_path
          then fst (Converter.delete_short_recording w p duration)
          else false
      | None => false
      end.
Proof.
  unfold Converter.create_session_end_message.
  destruct file_path as [p|].
  - destruct (Py.ltb duration Converter.MIN_SESSION_DURATION_SECONDS
              && truthy (Some p)).
    + destruct (Converter.delete_short_recording w p duration) as [deleted w'].
      simpl. do 2 eexists. repeat split.
    + simpl. do 2 eexists. repeat split.
  - simpl. do 2 eexists. repeat split.
Qed.

(** C1, as the code has it. For a session end built for a non-empty file
    path: when the duration is below [MIN_SESSION_DURATION_SECONDS] and the
    MIDI file or its MP3 sibling was there and could be removed, the message
    has [deleted = true] and [filePath = null]; when the duration is below
    the threshold and neither could be removed, and whenever the duration
    reaches the threshold, it has [deleted = false] and [filePath] is the
    path that was passed. *)
Theorem session_end_deleted_iff_removed
    (w : Os.fs) (ts session_id : string) (duration : Q) (note_count : Z)
    (p : string) :
  p <> "" ->
  exists data,
    Json.field "data"
      (fst (Converter.create_session_end_message w ts session_id duration
              note_count (Some p))) = Some data /\
    ((duration < Converter.MIN_SESSION_DURATION_SECONDS)%Q ->
     Os.removable w p \/ Os.removable w (Os.splitext_root p +:+ ".mp3") ->
     Json.field "deleted" data = Some (Json.Bool true) /\
     Json.field "filePath" data = Some Json.Null) /\
    ((duration < Converter.MIN_SESSION_DURATION_SECONDS)%Q ->
     ~ (Os.removable w p \/ Os.removable w (Os.splitext_root p +:+ ".mp3")) ->
     Json.field "deleted" data = Some (Json.Bool false) /\
     Json.field "filePath" data = Some (Json.Str p)) /\
    (~ (duration < Converter.MIN_SESSION_DURATION_SECONDS)%Q ->
     Json.field "deleted" data = Some (Json.Bool false) /\
     Json.field "filePath" data = Some (Json.Str p)).
Proof.
  intros Hp.
  destruct (create_session_end_message_data w ts session_id duration
              note_count (Some p)) as (data & deleted & Hdata & Hdel & Hpath & Hflag).
  rewrite (truthy_nonempty p Hp), andb_true_r in Hflag.
  pose proof (delete_short_recording_true_iff w p duration Hp) as Hiff.
  exists data. split; [exact Hdata|].
  repeat split.
  - apply ltb_lt in H. rewrite H in Hflag.
    apply Hiff in H0. rewrite H0 in Hflag. now subst deleted.
  - apply ltb_lt in H. rewrite H in Hflag.
    apply Hiff in H0. rewrite H0 in Hflag. now subst deleted.
  - apply ltb_lt in H. rewrite H in Hflag.
    destruct (fst (Converter.delete_short_recording w p duration)) eqn:Hd;
      [exfalso; apply H0, Hiff; reflexivity|].
    now subst deleted.
  - apply ltb_lt in H. rewrite H in Hflag.
    destruct (fst (Converter.delete_short_recording w p duration)) eqn:Hd;
      [exfalso; apply H0, Hiff; reflexivity|].
    now subst deleted.
  - destruct (Py.ltb duration Converter.MIN_SESSION_DURATION_SECONDS) eqn:Hlt;
      [exfalso; apply H, ltb_lt, Hlt|].
    now subst deleted.
  - destruct (Py.ltb duration Converter.MIN_SESSION_DURATION_SECONDS) eqn:Hlt;
      [exfalso; apply H, ltb_lt, Hlt|].
    now subst deleted.
Qed.

(** A ten second session whose file is on disk and can be removed. *)
Lemma session_end_deleted_iff_removed_witness :
  let w := {| Os.files := {["2025-01/a.mid"]}; Os.readonly := ∅ |} in
  "2025-01/a.mid" <> "" /\
  (10 < Converter.MIN_SESSION_DURATION_SECONDS)%Q /\
  Os.removable w "2025-01/a.mid" /\
  exists data,
    Json.field "data"
      (fst (Converter.create_session_end_message w "T" "a" 10 2
              (Some "2025-01/a.mid"))) = Some data /\
    Json.field "deleted" data = Some (Json.Bool true) /\
    Json.field "filePath" data = Some Json.Null.
Proof.
  intros w.
  assert (Hp : "2025-01/a.mid" <> "") by discriminate.
  assert (Hlt : (10 < Converter.MIN_SESSION_DURATION_SECONDS)%Q) by reflexivity.
  assert (Hrm : Os.removable w "2025-01/a.mid").
  { unfold Os.removable, w. simpl. set_solver. }
  repeat split; try assumption; try apply Hrm.
  destruct (session_end_deleted_iff_removed w "T" "a" 10 2 "2025-01/a.mid" Hp)
    as (data & Hdata & Hdel & _).
  exists data. split; [exact Hdata|].
  apply Hdel; [exact Hlt|left; exact Hrm].
Defined.

(** C1 as stated fails: a ten second session whose file is not found at
    the path that was passed is announced with [deleted = false] and the
    path. *)
Lemma session_end_short_not_deleted :
  let w := {| Os.files := ∅; Os.readonly := ∅ |} in
  let m := fst (Converter.create_session_end_message w "T" "a" 10 2
                  (Some "2025-01/a.mid")) in
  (10 < Converter.MIN_SESSION_DURATION_SECONDS)%Q /\
  exists data,
    Json.field "data" m = Some data /\
    Json.field "deleted" data = Some (Json.Bool false) /\
    Json.field "filePath" data = Some (Json.Str "2025-01/a.mid").
Proof.
  intros w m. split; [reflexivity|].
  eexists. vm_compute. repeat split.
Qed.

(** ** The broadcast client *)

Section BroadcasterFacts.

Import Broadcaster.

Lemma full_true_iff (b : t) :
  full b = true <->
  0 < max_queue_size b <= Z.of_nat (length (queue b)).
Proof.
  unfold full. rewrite andb_true_iff, Z.ltb_lt, Z.leb_le. tauto.
Qed.

Lemma broadcast_stopped (m : Json.t) (b : t) :
  running b = false -> broadcast m b = (Ok false, b).
Proof. intros H. unfold broadcast. now rewrite H. Qed.

Lemma broadcast_full (m : Json.t) (b : t) :
  running b = true -> full b = true ->
  broadcast m b = (Ok false, set_stats (incr_dropped (st b)) b).
Proof.
  intros Hr Hf. unfold broadcast, put_nowait. now rewrite Hr, Hf.
Qed.

Lemma broadcast_room (m : Json.t) (b : t) :
  running b = true -> full b = false ->
  broadcast m b = (Ok true, set_queue (queue b ++ [m]) b).
Proof.
  intros Hr Hf. unfold broadcast, put_nowait. now rewrite Hr, Hf.
Qed.

End BroadcasterFacts.

(** C3. [broadcast] never raises. On a running broadcaster whose queue is
    at capacity it returns [False], leaves the queue as it is and adds
    exactly one to [messages_dropped]; on a broadcaster that is not running
    (before [start], after [stop]) it returns [False] and changes nothing;
    otherwise it appends the message to the queue, touches no counter and
    returns [True]. *)
Theorem broadcast_result (m : Json.t) (b : Broadcaster.t) :
  let at_capacity :=
    0 < Broadcaster.max_queue_size b
      <= Z.of_nat (length (Broadcaster.queue b)) in
  (exists r, fst (Broadcaster.broadcast m b) = Ok r) /\
  (Broadcaster.running b = false ->
   Broadcaster.broadcast m b = (Ok false, b)) /\
  (Broadcaster.running b = true -> at_capacity ->
   exists b',
     Broadcaster.broadcast m b = (Ok false, b') /\
     Broadcaster.queue b' = Broadcaster.queue b /\
     Broadcaster.messages_dropped (Broadcaster.st b')
       = Broadcaster.messages_dropped (Broadcaster.st b) + 1 /\
     Broadcaster.messages_sent (Broadcaster.st b')
       = Broadcaster.messages_sent (Broadcaster.st b)) /\
  (Broadcaster.running b = true -> ~ at_capacity ->
   exists b',
     Broadcaster.broadcast m b = (Ok true, b') /\
     Broadcaster.queue b' = Broadcaster.queue b ++ [m] /\
     Broadcaster.st b' = Broadcaster.st b).
Proof.
  intros at_capacity.
  assert (Hcases :
    Broadcaster.running b = false \/
    (Broadcaster.running b = true /\ Broadcaster.full b = true) \/
    (Broadcaster.running b = true /\ Broadcaster.full b = false)).
  { destruct (Broadcaster.running b), (Broadcaster.full b); auto. }
  split; [|split; [|split]].
  - destruct Hcases as [H|[[H1 H2]|[H1 H2]]].
    + rewrite (broadcast_stopped m b H). now exists false.
    + rewrite (broadcast_full m b H1 H2). now exists false.
    + rewrite (broadcast_room m b H1 H2). now exists true.
  - apply broadcast_stopped.
  - intros Hr Hcap. apply full_true_iff in Hcap.
    rewrite (broadcast_full m b Hr Hcap). eexists. repeat split.
  - intros Hr Hcap.
    assert (Hf : Broadcaster.full b = false).
    { destruct (Broadcaster.full b) eqn:E; [|reflexivity].
      exfalso. apply Hcap, full_true_iff, E. }
    rewrite (broadcast_room m b Hr Hf). eexists. repeat split.
Qed.

(** A running broadcaster of capacity two that already holds two messages. *)
Lemma broadcast_result_witness :
  let b :=
    Broadcaster.set_queue [Json.Int 1; Json.Int 2]
      (fst (Broadcaster.started 5 60 2)) in
  Broadcaster.running b = true /\
  0 < Broadcaster.max_queue_size b <= Z.of_nat (length (Broadcaster.queue b)) /\
  exists b',
    Broadcaster.broadcast (Json.Int 3) b = (Ok false, b') /\
    Broadcaster.queue b' = [Json.Int 1; Json.Int 2] /\
    Broadcaster.messages_dropped (Broadcaster.st b') = 1.
Proof.
  intros b.
  assert (Hr : Broadcaster.running b = true) by reflexivity.
  assert (Hcap : 0 < Broadcaster.max_queue_size b
                   <= Z.of_nat (length (Broadcaster.queue b))) by (simpl; lia).
  split; [exact Hr|]. split; [exact Hcap|].
  destruct (broadcast_result (Json.Int 3) b) as (_ & _ & Hfull & _).
  destruct (Hfull Hr Hcap) as (b' & Hb & Hq & Hd & _).
  exists b'. split; [exact Hb|]. split; [exact Hq|]. exact Hd.
Defined.

Section WorkerFacts.

Import Broadcaster.

(** Every return path of [worker_step], case by case. *)
Ltac worker_cases c o b :=
  unfold worker_step, on_failure, after_wait, finish, get_nowait, put_nowait;
  destruct (at_pc b) eqn:Hpc, c;
  repeat match goal with
         | |- context [if ?g then _ else _] => destruct g eqn:?
         | |- context [match queue ?x with _ => _ end] => destruct (queue x) eqn:?
         end.

(** No step of the worker, in either copy, loses or invents a message. *)
Lemma worker_step_accounted (c : copy) (o : oracle) (b : t) :
  accounted (fst (worker_step c o b)) = accounted b.
Proof.
  unfold accounted, in_flight.
  worker_cases c o b; simpl; rewrite ?Hpc; simpl;
    rewrite ?length_app; simpl;
    try match goal with H : queue b = _ |- _ => rewrite H end;
    simpl; try lia.
Qed.

Lemma worker_steps_accounted (c : copy) (os : list oracle) (b : t) :
  accounted (fst (worker_steps c os b)) = accounted b.
Proof.
  revert b. induction os as [|o os IH]; intros b; [reflexivity|].
  simpl. pose proof (worker_step_accounted c o b) as Hstep.
  destruct (worker_step c o b) as [b1 e1]. simpl in Hstep.
  specialize (IH b1). destruct (worker_steps c os b1) as [b2 e2].
  simpl in *. lia.
Qed.

Lemma set_flags_accounted (r k s h : bool) (b : t) :
  accounted (set_flags r k s h b) = accounted b.
Proof. reflexivity. Qed.

Lemma stop_accounted (c : copy) (flush : bool) (during : list oracle) (b : t) :
  accounted (fst (stop c flush during b)) = accounted b.
Proof.
  unfold stop. destruct (running b); simpl; [|reflexivity].
  pose proof (worker_steps_accounted c during
                (set_flags false (connected b) true (thread b) b)) as H.
  destruct (worker_steps c during _) as [b' effs]. simpl in *.
  now rewrite set_flags_accounted, H, set_flags_accounted.
Qed.

Lemma step_balanced (c : copy) (ev : event) (bl : t * ledger) :
  balanced bl -> balanced (step c ev bl).
Proof.
  destruct bl as [b l]. unfold balanced. simpl fst; simpl snd. intros Hbal.
  destruct ev as [m|flush during|o]; simpl.
  - destruct (running b) eqn:Hr.
    + destruct (full b) eqn:Hf.
      * rewrite (broadcast_full m b Hr Hf). simpl.
        unfold accounted, in_flight in *. simpl. lia.
      * rewrite (broadcast_room m b Hr Hf). simpl.
        unfold accounted, in_flight in *. simpl.
        rewrite length_app. simpl. lia.
    + rewrite (broadcast_stopped m b Hr). simpl. exact Hbal.
  - now rewrite stop_accounted.
  - now rewrite worker_step_accounted.
Qed.

Lemma run_balanced (c : copy) (evs : list event) (bl : t * ledger) :
  balanced bl -> balanced (run c evs bl).
Proof.
  revert bl. induction evs as [|ev evs IH]; intros bl Hbal; [exact Hbal|].
  simpl. apply IH, step_balanced, Hbal.
Qed.

(** Once [stop] has set the event, a worker found between two polls sends
    nothing more, counts nothing more and leaves the queue alone. *)
Lemma stopped_worker_step (c : copy) (o : oracle) (b : t) :
  stop_event b = true -> between_polls (at_pc b) = true ->
  stop_event (fst (worker_step c o b)) = true /\
  between_polls (at_pc (fst (worker_step c o b))) = true /\
  st (fst (worker_step c o b)) = st b /\
  queue (fst (worker_step c o b)) = queue b /\
  sent_frames (snd (worker_step c o b)) = [].
Proof.
  intros Hstop Hidle. unfold worker_step, after_wait, finish.
  destruct (at_pc b) eqn:Hpc; try discriminate Hidle; destruct c;
    rewrite ?Hstop, ?andb_false_r; simpl;
    try destruct (Py.ltb 0 wait_remaining);
    simpl; rewrite ?Hstop, ?Hpc; simpl; auto.
Qed.

Lemma stopped_worker_steps (c : copy) (os : list oracle) (b : t) :
  stop_event b = true -> between_polls (at_pc b) = true ->
  stop_event (fst (worker_steps c os b)) = true /\
  between_polls (at_pc (fst (worker_steps c os b))) = true /\
  st (fst (worker_steps c os b)) = st b /\
  queue (fst (worker_steps c os b)) = queue b /\
  sent_frames (snd (worker_steps c os b)) = [].
Proof.
  revert b. induction os as [|o os IH]; intros b Hstop Hidle; [simpl; auto|].
  simpl.
  destruct (stopped_worker_step c o b Hstop Hidle) as (H1 & H2 & H3 & H4 & H5).
  destruct (worker_step c o b) as [b1 e1]. simpl in *.
  destruct (IH b1 H1 H2) as (I1 & I2 & I3 & I4 & I5).
  destruct (worker_steps c os b1) as [b2 e2]. simpl in *.
  repeat split; try congruence.
  clear -H5 I5. induction e1 as [|[] e1 IHe]; simpl in *; try discriminate; auto.
Qed.

Lemma sent_frames_app (e1 e2 : list effect) :
  sent_frames (e1 ++ e2) = sent_frames e1 ++ sent_frames e2.
Proof.
  induction e1 as [|[] e1 IH]; simpl; try rewrite IH; reflexivity.
Qed.

(** [stop] called while the worker is between two polls: whatever the
    worker still does, during the call or after it, no frame goes out and
    the counters and the queue stay as they were. *)
Lemma stop_between_polls (c : copy) (flush : bool) (during after : list oracle)
    (b : t) :
  running b = true -> between_polls (at_pc b) = true ->
  let b1 := fst (stop c flush during b) in
  let b2 := fst (worker_steps c after b1) in
  running b1 = false /\ connected b1 = false /\
  st b2 = st b /\ queue b2 = queue b /\
  sent_frames (snd (stop c flush during b)
               ++ snd (worker_steps c after b1)) = [].
Proof.
  intros Hrun Hidle. unfold stop. rewrite Hrun. simpl negb. cbv iota.
  set (signalled := set_flags false (connected b) true (thread b) b).
  destruct (stopped_worker_steps c during signalled) as (H1 & H2 & H3 & H4 & H5);
    [reflexivity|exact Hidle|].
  assert (Hrunning : forall os x, running x = false ->
            running (fst (worker_steps c os x)) = false).
  { clear. induction os as [|o os IH]; intros x Hx; [exact Hx|].
    simpl. destruct (worker_step c o x) as [x1 e1] eqn:E.
    assert (Hx1 : running x1 = false).
    { replace x1 with (fst (worker_step c o x)) by now rewrite E.
      clear E. unfold worker_step, on_failure, after_wait, finish,
        get_nowait, put_nowait.
      destruct (at_pc x), c;
      repeat match goal with
             | |- context [if ?g then _ else _] => destruct g eqn:?
             | |- context [match queue ?y with _ => _ end] => destruct (queue y) eqn:?
             end; simpl; assumption. }
    specialize (IH x1 Hx1). destruct (worker_steps c os x1). exact IH. }
  pose proof (Hrunning during signalled eq_refl) as Hr1.
  destruct (worker_steps c during signalled) as [b' effs]. simpl in *.
  set (returned := set_flags (running b') false (stop_event b') false b').
  destruct (stopped_worker_steps c after returned) as (I1 & I2 & I3 & I4 & I5);
    [exact H1|exact H2|].
  repeat split; try assumption; try congruence.
  - now rewrite I3.
  - now rewrite I4.
  - now rewrite sent_frames_app, H5, I5.
Qed.

(** While the server refuses every connection the worker only waits: the
    queue and the two message counters stay as they are. *)
Lemma refused_worker_step (c : copy) (o : oracle) (b : t) :
  net_ok o = false -> disconnected (at_pc b) = true ->
  disconnected (at_pc (fst (worker_step c o b))) = true /\
  queue (fst (worker_step c o b)) = queue b /\
  messages_sent (st (fst (worker_step c o b))) = messages_sent (st b) /\
  messages_dropped (st (fst (worker_step c o b))) = messages_dropped (st b).
Proof.
  intros Hno Hdis. unfold worker_step, on_failure, after_wait, finish.
  destruct (at_pc b) eqn:Hpc; try discriminate Hdis; destruct c; rewrite ?Hno;
    repeat match goal with
           | |- context [if ?g then _ else _] => destruct g
           end; simpl; rewrite ?Hpc; auto.
Qed.

Lemma refused_worker_steps (c : copy) (os : list oracle) (b : t) :
  Forall (fun o => net_ok o = false) os -> disconnected (at_pc b) = true ->
  disconnected (at_pc (fst (worker_steps c os b))) = true /\
  queue (fst (worker_steps c os b)) = queue b /\
  messages_sent (st (fst (worker_steps c os b))) = messages_sent (st b) /\
  messages_dropped (st (fst (worker_steps c os b))) = messages_dropped (st b).
Proof.
  revert b. induction os as [|o os IH]; intros b Hos Hdis; [simpl; auto|].
  apply Forall_cons in Hos as [Ho Hos]. simpl.
  destruct (refused_worker_step c o b Ho Hdis) as (H1 & H2 & H3 & H4).
  destruct (worker_step c o b) as [b1 e1]. simpl in *.
  destruct (IH b1 Hos H1) as (I1 & I2 & I3 & I4).
  destruct (worker_steps c os b1) as [b2 e2]. simpl in *.
  repeat split; congruence.
Qed.

End WorkerFacts.

(** C6, as the code has it. At every point of an execution of either copy,
    every message [broadcast] took in, and every one it refused because the
    queue was full, is in exactly one place: counted in [messages_sent],
    counted in [messages_dropped], waiting in the queue, or held by the
    worker inside [ws.send]. *)
Theorem every_message_accounted
    (c : Broadcaster.copy) (reconnect_base reconnect_max : Q)
    (max_queue_size : Z) (evs : list Broadcaster.event) :
  let b := fst (Broadcaster.run c evs
                  (Broadcaster.started reconnect_base reconnect_max max_queue_size)) in
  let l := snd (Broadcaster.run c evs
                  (Broadcaster.started reconnect_base reconnect_max max_queue_size)) in
  Broadcaster.messages_sent (Broadcaster.st b)
  + Broadcaster.messages_dropped (Broadcaster.st b)
  + Z.of_nat (length (Broadcaster.queue b))
  + Broadcaster.in_flight b
  = Broadcaster.accepted l + Broadcaster.overflowed l.
Proof.
  intros b l.
  apply (run_balanced c evs
           (Broadcaster.started reconnect_base reconnect_max max_queue_size)).
  reflexivity.
Qed.

(** C6 as stated fails. A message taken in while the server refuses every
    connection is in neither counter however long the worker goes on; and
    a message taken in while the worker is connected and idle, followed by
    [stop(flush=True)], is never counted, whatever the worker does during
    [stop] and after it. *)
Lemma accepted_message_never_counted :
  let waiting c :=
    Broadcaster.run c [Broadcaster.EvBroadcast (Json.Int 1)]
      (Broadcaster.started 5 60 1000) in
  let stopped c during :=
    Broadcaster.run c
      [Broadcaster.EvWorker Broadcaster.accepting;
       Broadcaster.EvBroadcast (Json.Int 1);
       Broadcaster.EvStop true during]
      (Broadcaster.started 5 60 1000) in
  (forall c n,
     let b := fst (Broadcaster.worker_steps c (replicate n Broadcaster.refusing)
                     (fst (waiting c))) in
     Broadcaster.accepted (snd (waiting c)) = 1 /\
     Broadcaster.messages_sent (Broadcaster.st b)
     + Broadcaster.messages_dropped (Broadcaster.st b) = 0) /\
  (forall c during after,
     let b := fst (Broadcaster.worker_steps c after (fst (stopped c during))) in
     Broadcaster.accepted (snd (stopped c during)) = 1 /\
     Broadcaster.messages_sent (Broadcaster.st b)
     + Broadcaster.messages_dropped (Broadcaster.st b) = 0).
Proof.
  cbv zeta. split.
  - intros c n.
    set (bl := Broadcaster.run c _ _).
    assert (Hbl : Broadcaster.disconnected (Broadcaster.at_pc (fst bl)) = true /\
                  Broadcaster.messages_sent (Broadcaster.st (fst bl)) = 0 /\
                  Broadcaster.messages_dropped (Broadcaster.st (fst bl)) = 0 /\
                  Broadcaster.accepted (snd bl) = 1)
      by (destruct c; vm_compute; auto).
    destruct Hbl as (Hdis & Hsent & Hdrop & Hacc).
    split; [exact Hacc|].
    destruct (refused_worker_steps c (replicate n Broadcaster.refusing) (fst bl))
      as (_ & _ & H3 & H4); [|exact Hdis|].
    { apply Forall_forall. intros o Ho. apply elem_of_replicate in Ho as [-> _].
      reflexivity. }
    rewrite H3, H4, Hsent, Hdrop. reflexivity.
  - intros c during after.
    change (Broadcaster.run c
              [Broadcaster.EvWorker Broadcaster.accepting;
               Broadcaster.EvBroadcast (Json.Int 1);
               Broadcaster.EvStop true during]
              (Broadcaster.started 5 60 1000))
      with (Broadcaster.step c (Broadcaster.EvStop true during)
              (Broadcaster.run c
                 [Broadcaster.EvWorker Broadcaster.accepting;
                  Broadcaster.EvBroadcast (Json.Int 1)]
                 (Broadcaster.started 5 60 1000))).
    set (bl1 := Broadcaster.run c _ _).
    assert (Hprefix :
      Broadcaster.running (fst bl1) = true /\
      Broadcaster.between_polls (Broadcaster.at_pc (fst bl1)) = true /\
      Broadcaster.st (fst bl1)
        = Broadcaster.note_connected 0 Broadcaster.zero_stats /\
      Broadcaster.accepted (snd bl1) = 1)
      by (destruct c; vm_compute; auto).
    destruct Hprefix as (Hrun & Hidle & Hst & Hacc).
    destruct bl1 as [b1 l1]. simpl in *.
    split; [exact Hacc|].
    destruct (stop_between_polls c true during after b1 Hrun Hidle)
      as (_ & _ & Hst' & _).
    simpl in Hst'. rewrite Hst', Hst. reflexivity.
Qed.

(** C5 fails on the code. A connected, idle worker with three messages
    queued when [stop(flush=True)] is called: whatever the worker still does
    during the call ([during]) and after it ([after]), no frame is sent, the
    three messages stay in the queue and [messages_dropped] does not move. *)
Theorem stop_flush_sends_nothing
    (c : Broadcaster.copy) (during after : list Broadcaster.oracle) :
  let b0 :=
    fst (Broadcaster.run c
           [Broadcaster.EvWorker Broadcaster.accepting;
            Broadcaster.EvBroadcast (Json.Int 1);
            Broadcaster.EvBroadcast (Json.Int 2);
            Broadcaster.EvBroadcast (Json.Int 3)]
           (Broadcaster.started 5 60 1000)) in
  let stopped := Broadcaster.stop c true during b0 in
  let later := Broadcaster.worker_steps c after (fst stopped) in
  Broadcaster.connected b0 = true /\
  Broadcaster.queue b0 = [Json.Int 1; Json.Int 2; Json.Int 3] /\
  Broadcaster.sent_frames (snd stopped ++ snd later) = [] /\
  Broadcaster.queue (fst later) = [Json.Int 1; Json.Int 2; Json.Int 3] /\
  Broadcaster.messages_sent (Broadcaster.st (fst later)) = 0 /\
  Broadcaster.messages_dropped (Broadcaster.st (fst later)) = 0.
Proof.
  intros b0 stopped later.
  assert (Hconn : Broadcaster.connected b0 = true) by (destruct c; reflexivity).
  assert (Hq : Broadcaster.queue b0 = [Json.Int 1; Json.Int 2; Json.Int 3])
    by (destruct c; reflexivity).
  assert (Hst : Broadcaster.st b0
                = Broadcaster.note_connected 0 Broadcaster.zero_stats)
    by (destruct c; reflexivity).
  pose proof (stop_between_polls c true during after b0) as Hstop.
  cbv zeta in Hstop.
  destruct Hstop as (_ & _ & Hst' & Hq' & Hsent); [destruct c; reflexivity..|].
  unfold later, stopped.
  split; [exact Hconn|]. split; [exact Hq|]. split; [exact Hsent|].
  rewrite Hq', Hst', Hst. auto.
Qed.


(** ** Reconnection *)

Section ReconnectFacts.

Import Broadcaster.

(** Entering a connection puts the delay back to its base, in both copies. *)
Lemma connect_resets_delay (c : copy) (o : oracle) (b : t) :
  at_pc b = LoopHead -> running b = true -> stop_event b = false ->
  net_ok o = true ->
  reconnect_delay (fst (worker_step c o b)) = reconnect_base b /\
  connected (fst (worker_step c o b)) = true.
Proof.
  intros Hpc Hrun Hstop Hok. unfold worker_step.
  rewrite Hpc, Hrun, Hstop, Hok. simpl. auto.
Qed.

(** The end of a wait doubles the delay up to the maximum, in both copies. *)
Lemma wait_doubles_delay (c : copy) (o : oracle) (b : t) (w : Q) :
  at_pc b = Backoff w -> Py.ltb 0 w = false -> stop_event b = false ->
  reconnect_delay (fst (worker_step c o b))
    = Py.min (reconnect_delay b * 2)%Q (reconnect_max b) /\
  at_pc (fst (worker_step c o b)) = LoopHead.
Proof.
  intros Hpc Hw Hstop. unfold worker_step, after_wait.
  rewrite Hpc. destruct c; rewrite Hw; simpl; rewrite Hstop; simpl; auto.
Qed.

(** A failure in [_extensions] starts a wait of [reconnect_delay]; the one
    in [_extentions] starts a wait of [min(reconnect_delay, 1)]. *)
Lemma failure_starts_wait (c : copy) (o : oracle) (b : t) :
  at_pc b = LoopHead -> running b = true -> stop_event b = false ->
  net_ok o = false ->
  at_pc (fst (worker_step c o b))
    = Backoff (match c with
               | extensions => reconnect_delay b
               | extentions => Py.min (reconnect_delay b) 1
               end) /\
  reconnect_count (st (fst (worker_step c o b))) = reconnect_count (st b) + 1.
Proof.
  intros Hpc Hrun Hstop Hok. unfold worker_step, on_failure.
  rewrite Hpc, Hrun, Hstop, Hok. destruct c; simpl; auto.
Qed.

(** A step of the chunked wait of [_extensions]. *)
Lemma backoff_chunk (o : oracle) (b : t) (w : Q) :
  at_pc b = Backoff w -> stop_event b = false -> (0 < w)%Q ->
  worker_step extensions o b
  = (set_pc (Backoff (w - Py.min w 1)) b, [BackoffSleep (Py.min w 1)]).
Proof.
  intros Hpc Hstop Hw. unfold worker_step. rewrite Hpc, Hstop.
  now rewrite (proj2 (ltb_lt 0 w) Hw).
Qed.

Lemma py_min_spec (x y : Q) :
  ((y < x)%Q /\ Py.min x y = y) \/ ((x <= y)%Q /\ Py.min x y = x).
Proof.
  unfold Py.min. destruct (Py.ltb y x) eqn:H.
  - left. split; [now apply ltb_lt|reflexivity].
  - right. split; [|reflexivity].
    apply Qnot_lt_le. intros Hlt. apply ltb_lt in Hlt. congruence.
Qed.

(** In [_extensions] the chunks of a wait add up to the delay: a wait of
    [w] seconds, with [n - 1 < w <= n], takes [n] sleeps, and nothing but
    the position of the worker changes. *)
Lemma backoff_sleeps_the_delay (o : oracle) (n : nat) :
  forall (b : t) (w : Q),
    at_pc b = Backoff w -> stop_event b = false ->
    (0 <= w)%Q -> (inject_Z (Z.of_nat n) - 1 < w)%Q ->
    (w <= inject_Z (Z.of_nat n))%Q ->
    exists w',
      fst (worker_steps extensions (replicate n o) b) = set_pc (Backoff w') b /\
      (w' == 0)%Q /\
      (backoff_total (snd (worker_steps extensions (replicate n o) b)) == w)%Q.
Proof.
  induction n as [|n IH]; intros b w Hpc Hstop H0 Hlo Hhi.
  - exists w. simpl in *. split; [|split].
    + destruct b; simpl in *; now subst.
    + apply Qle_antisym; assumption.
    + symmetry. apply Qle_antisym; assumption.
  - assert (Hn : (inject_Z (Z.of_nat (S n)) == inject_Z (Z.of_nat n) + 1)%Q).
    { rewrite Nat2Z.inj_succ. unfold Z.succ. now rewrite inject_Z_plus. }
    assert (Hnn : (0 <= inject_Z (Z.of_nat n))%Q).
    { change 0%Q with (inject_Z 0). rewrite <- Zle_Qle. lia. }
    assert (Hpos : (0 < w)%Q) by lra.
    simpl replicate. simpl worker_steps.
    rewrite (backoff_chunk o b w Hpc Hstop Hpos).
    set (chunk := Py.min w 1).
    set (b1 := set_pc (Backoff (w - chunk)) b).
    assert (Hchunk : ((1 < w)%Q /\ chunk = 1%Q) \/ ((w <= 1)%Q /\ chunk = w))
      by apply py_min_spec.
    destruct Hchunk as [[Hbig Hc]|[Hsmall Hc]].
    + destruct (IH b1 (w - chunk)%Q) as (w' & Hfst & Hw' & Htot);
        try reflexivity; try exact Hstop; rewrite ?Hc; try lra.
      destruct (worker_steps extensions (replicate n o) b1) as [b2 e2].
      simpl in *. exists w'. split; [|split].
      * rewrite Hfst. subst b1. destruct b; reflexivity.
      * exact Hw'.
      * rewrite Htot, Hc. lra.
    + assert (Hzero : n = 0%nat).
      { destruct n as [|n']; [reflexivity|exfalso].
        assert ((1 <= inject_Z (Z.of_nat (S n')))%Q).
        { change 1%Q with (inject_Z 1). rewrite <- Zle_Qle. lia. }
        lra. }
      subst n. simpl. exists (w - chunk)%Q. split; [|split].
      * reflexivity.
      * rewrite Hc. lra.
      * rewrite Hc. lra.
Qed.

End ReconnectFacts.

(** C4 on the two copies, with [reconnect_base = 5] and
    [reconnect_max = 60] and a server that refuses six connections in a row.
    [_extensions] waits 5, 10, 20, 40, 60 and 60 seconds and a connection
    that succeeds puts the delay back to 5. [_extentions] takes
    [reconnect_delay] through the same values but sleeps
    [min(reconnect_delay, 1)], one second, after every failure. *)
Theorem reconnect_waits_of_the_two_copies :
  let failures c n :=
    Broadcaster.worker_steps c (replicate n Broadcaster.refusing)
      (fst (Broadcaster.started 5 60 1000)) in
  Broadcaster.reconnect_waits None (snd (failures Broadcaster.extensions 207%nat))
    = [5; 10; 20; 40; 60; 60]%Q /\
  Broadcaster.reconnect_delay
    (fst (Broadcaster.worker_step Broadcaster.extensions Broadcaster.accepting
            (fst (failures Broadcaster.extensions 207%nat)))) = 5%Q /\
  Broadcaster.reconnect_waits None (snd (failures Broadcaster.extentions 18%nat))
    = [1; 1; 1; 1; 1; 1]%Q /\
  map (fun n => Broadcaster.reconnect_delay
                  (fst (failures Broadcaster.extentions n)))
      [0; 3; 6; 9; 12; 15; 18]%nat
    = [5; 10; 20; 40; 60; 60; 60]%Q.
Proof.
  vm_compute. repeat split.
Qed.

(** ** Heartbeats *)

Section HeartbeatFacts.

Import Broadcaster.

(** A heartbeat that goes out has the ping shape and is counted once. *)
Lemma heartbeat_sent_counts (now now' : Q) (b : t) :
  running b = true -> stop_event b = false ->
  _heartbeat_iteration now true now' b
    = (set_stats (note_heartbeat_sent now' (st b)) b,
       [Sent (Json.Obj
                [("source", Json.Str "piano"); ("topic", Json.Str "heartbeat");
                 ("type", Json.Str "ping"); ("timestamp", Json.Float now)])],
       true) /\
  heartbeats_sent (note_heartbeat_sent now' (st b)) = heartbeats_sent (st b) + 1.
Proof.
  intros Hrun Hstop. unfold _heartbeat_iteration. rewrite Hrun, Hstop. auto.
Qed.

(** A pong is counted once and the loop goes on. *)
Lemma receive_pong (loads : string -> res Json.t) (message : string)
    (kv : list (string * Json.t)) (b : t) :
  loads message = Ok (Json.Obj kv) ->
  Json.assoc "topic" kv = Some (Json.Str "heartbeat") ->
  Json.assoc "type" kv = Some (Json.Str "pong") ->
  receive_frame loads message b
    = (Ok tt, set_stats (incr_heartbeats_received (st b)) b).
Proof.
  intros Hl Ht Hp. unfold receive_frame. rewrite Hl. simpl.
  rewrite Ht, Hp. reflexivity.
Qed.

(** A text that is not JSON is skipped. *)
Lemma receive_not_json (loads : string -> res Json.t) (message : string) (b : t) :
  loads message = Raise JSONDecodeError ->
  receive_frame loads message b = (Ok tt, b).
Proof. intros Hl. unfold receive_frame. now rewrite Hl. Qed.

(** A JSON object that is not a pong is skipped. *)
Lemma receive_other_object (loads : string -> res Json.t) (message : string)
    (kv : list (string * Json.t)) (b : t) :
  loads message = Ok (Json.Obj kv) ->
  ~ (Json.assoc "topic" kv = Some (Json.Str "heartbeat") /\
     Json.assoc "type" kv = Some (Json.Str "pong")) ->
  receive_frame loads message b = (Ok tt, b).
Proof.
  intros Hl Hnot. unfold receive_frame. rewrite Hl. simpl.
  destruct (Json.assoc "topic" kv) as [[| | | |s| |]|] eqn:Ht; simpl; try reflexivity.
  destruct (String.eqb s "heartbeat") eqn:Hs; [|reflexivity].
  apply String.eqb_eq in Hs. subst s.
  destruct (Json.assoc "type" kv) as [[| | | |s| |]|] eqn:Hp; simpl; try reflexivity.
  destruct (String.eqb s "pong") eqn:Hs; [|reflexivity].
  apply String.eqb_eq in Hs. subst s. tauto.
Qed.

(** JSON that is not an object has no [get]: the exception is not a
    [JSONDecodeError], so it leaves the loop. *)
Lemma receive_non_object (loads : string -> res Json.t) (message : string)
    (v : Json.t) (b : t) :
  loads message = Ok v ->
  (forall kv, v <> Json.Obj kv) ->
  receive_frame loads message b = (Raise AttributeError, b).
Proof.
  intros Hl Hv. unfold receive_frame. rewrite Hl.
  destruct v; try reflexivity. now destruct (Hv kv).
Qed.

End HeartbeatFacts.

(** C8 fails on the code for a frame that is JSON but not an object. After
    the frame [42] the receive loop has ended with an [AttributeError]: the
    pong that follows is not counted, while the same pong alone, or after a
    text that is not JSON, is counted once. *)
Theorem non_object_frame_ends_receive_loop :
  let b := fst (Broadcaster.worker_step Broadcaster.extensions
                  Broadcaster.accepting (fst (Broadcaster.started 5 60 1000))) in
  let received frames :=
    Broadcaster.heartbeats_received
      (Broadcaster.st
         (snd (Broadcaster._receive_loop Broadcaster.loads_on_examples frames b))) in
  received [Broadcaster.pong_text] = 1 /\
  received ["not json"; Broadcaster.pong_text] = 1 /\
  fst (Broadcaster._receive_loop Broadcaster.loads_on_examples
         ["42"; Broadcaster.pong_text] b) = Broadcaster.Escaped AttributeError /\
  received ["42"; Broadcaster.pong_text] = 0.
Proof.
  vm_compute. repeat split.
Qed.

(** ** The session engine *)

Section RecorderFacts.

Import Recorder.

Lemma same_session_refl (r : t) : same_session r r.
Proof. unfold same_session. auto 10. Qed.

Lemma same_session_trans (r1 r2 r3 : t) :
  same_session r1 r2 -> same_session r2 r3 -> same_session r1 r3.
Proof. unfold same_session. intuition congruence. Qed.

Lemma emit_same_session (m : Json.t) (r : t) : same_session r (snd (emit m r)).
Proof.
  unfold emit. destruct (broadcaster r) as [b|]; [|apply same_session_refl].
  destruct (Broadcaster.broadcast m b) as [[ok|x] b'];
    unfold same_session; simpl; auto 10.
Qed.

Lemma save_same_session (e : save_env) (r : t) :
  same_session r (fst (_save_current_session e r)).
Proof.
  unfold _save_current_session.
  destruct (session_messages r); [destruct (current_session r); apply same_session_refl|].
  destruct (current_session r) as [name|]; [|apply same_session_refl].
  destruct (String.eqb name ""); [apply same_session_refl|].
  destruct (negb (save_ok e)); [apply same_session_refl|].
  destruct (truthy (current_log_path r) && log_exists e);
    [destruct (log_remove_ok e)|]; simpl;
    try apply same_session_refl;
    (destruct (broadcaster r); [apply emit_same_session|apply same_session_refl]).
Qed.

(** What [ensure_session] leaves: the session that was open, untouched, or
    a new and empty one, or none when the directory cannot be made. *)
Lemma ensure_session_cases (e : env) (r : t) :
  let r1 := fst (ensure_session e r) in
  (truthy (current_session r) = true /\ r1 = r) \/
  (truthy (current_session r) = false /\ makedirs_ok e = false /\ r1 = r) \/
  (truthy (current_session r) = false /\ makedirs_ok e = true /\
   current_session r1 = Some (timestamp e +:+ ".mid") /\
   session_messages r1 = [] /\
   last_message_time r1 = Some (start_clock e) /\
   is_Some (current_log_path r1)).
Proof.
  unfold ensure_session.
  destruct (truthy (current_session r)) eqn:Hopen; simpl; [left; auto|right].
  unfold start_new_session. rewrite Hopen.
  destruct (makedirs_ok e); simpl; [right|left; auto].
  split; [reflexivity|]. split; [reflexivity|].
  match goal with
  | |- context [emit ?m ?x] => pose proof (emit_same_session m x) as Hemit
  end.
  destruct (log_create_ok e); simpl.
  - destruct Hemit as (H1 & H2 & H3 & H4 & H5 & H6).
    rewrite H1, H4, H5, H3. simpl. eauto.
  - simpl. eauto.
Qed.

Lemma process_fields (e : env) (msg : Mido.message) (r : t) :
  let r1 := fst (ensure_session e r) in
  let r' := fst (process_midi_message e msg r) in
  current_session r' = current_session r1 /\
  session_messages r'
    = session_messages r1
        ++ [set_time msg (delta_ticks (current_time e) (last_message_time r1))] /\
  last_message_time r' = Some (current_time e).
Proof.
  unfold process_midi_message.
  destruct (ensure_session e r) as [r1 effs]. simpl.
  destruct (current_log_path r1); [|simpl; auto].
  destruct (log_append_ok e); simpl; [|auto].
  destruct (broadcaster r1); simpl; [|auto].
  destruct (Converter.midi_message_to_json _ _ _) as [[j|]|x]; simpl; auto.
  match goal with
  | |- context [emit ?m ?x] =>
      pose proof (emit_same_session m x) as (H1 & _ & _ & H4 & H5 & _);
      destruct (emit m x) as [[u|x'] r2]
  end; simpl in *; rewrite H1, H4, H5; auto.
Qed.







Lemma mid_name_truthy (stamp : string) : truthy (Some (stamp +:+ ".mid")) = true.
Proof. destruct stamp; reflexivity. Qed.

Lemma open_messages_closed (r : t) :
  truthy (current_session r) = false -> open_messages r = [].
Proof.
  unfold open_messages, open_session.
  destruct (current_session r) as [name|]; [|reflexivity].
  intros H. now rewrite H.
Qed.

Lemma open_messages_open (r : t) :
  truthy (current_session r) = true -> open_messages r = session_messages r.
Proof.
  unfold open_messages, open_session.
  destruct (current_session r) as [name|]; [|discriminate].
  intros H. now rewrite H.
Qed.

Lemma open_session_truthy (r : t) :
  is_Some (open_session r) <-> truthy (current_session r) = true.
Proof.
  unfold open_session.
  destruct (current_session r) as [name|]; [|split; [intros [? ?]|]; discriminate].
  destruct (truthy (Some name)); split; eauto; try discriminate.
  intros [? ?]. discriminate.
Qed.

(** After the timeout handler no session is open. *)
Lemma timeout_closes (e : save_env) (r : t) :
  truthy (current_session (fst (_on_silence_timeout e r))) = false.
Proof.
  unfold _on_silence_timeout.
  destruct (truthy (current_session r)) eqn:H; [|exact H].
  now destruct (_save_current_session e r).
Qed.

Lemma step_partitioned (ev : event) (rj : t * journal) :
  partitioned rj -> partitioned (step ev rj).
Proof.
  destruct rj as [r j]. unfold partitioned. simpl. intros Hinv.
  destruct ev as [e msg|e]; simpl.
  - destruct (process_fields e msg r) as (Hcur & Hmsgs & _).
    set (r' := fst (process_midi_message e msg r)) in *.
    destruct (ensure_session_cases e r)
      as [[Hopen Heq]|[(Hopen & _ & Heq)|(Hopen & _ & Hname & Hempty & _)]].
    + rewrite Heq in Hcur, Hmsgs.
      assert (Hopen' : truthy (current_session r') = true) by now rewrite Hcur.
      destruct (proj2 (open_session_truthy r') Hopen') as [s Hs].
      rewrite Hs. simpl.
      rewrite (open_messages_open r' Hopen'), Hmsgs.
      rewrite (open_messages_open r Hopen) in Hinv.
      rewrite app_assoc, map_app, Hinv. reflexivity.
    + rewrite Heq in Hcur.
      assert (Hopen' : truthy (current_session r') = false) by now rewrite Hcur.
      destruct (open_session r') as [s|] eqn:Hs.
      { assert (is_Some (open_session r')) as Hsome by eauto.
        apply open_session_truthy in Hsome. congruence. }
      simpl. rewrite (open_messages_closed r' Hopen').
      now rewrite (open_messages_closed r Hopen) in Hinv.
    + rewrite Hname in Hcur. rewrite Hempty in Hmsgs. simpl in Hmsgs.
      assert (Hopen' : truthy (current_session r') = true)
        by (rewrite Hcur; apply mid_name_truthy).
      destruct (proj2 (open_session_truthy r') Hopen') as [s Hs].
      rewrite Hs. simpl.
      rewrite (open_messages_open r' Hopen'), Hmsgs.
      rewrite (open_messages_closed r Hopen), app_nil_r in Hinv.
      rewrite map_app, Hinv. reflexivity.
  - pose proof (timeout_closes e r) as Hclosed.
    rewrite (open_messages_closed _ Hclosed), app_nil_r.
    destruct (open_session r) as [s|] eqn:Hs.
    + unfold open_messages in Hinv. rewrite Hs in Hinv.
      rewrite map_app, concat_app. simpl. rewrite app_nil_r. exact Hinv.
    + unfold open_messages in Hinv. rewrite Hs, app_nil_r in Hinv. exact Hinv.
Qed.

Lemma run_partitioned (evs : list event) (rj : t * journal) :
  partitioned rj -> partitioned (run evs rj).
Proof.
  revert rj. induction evs as [|ev evs IH]; intros rj H; [exact H|].
  simpl. apply IH, step_partitioned, H.
Qed.

(** The first message after a timeout opens a session of its own. *)
Lemma message_after_timeout (e0 : save_env) (e : env) (msg : Mido.message) (r : t) :
  makedirs_ok e = true ->
  open_session (fst (process_midi_message e msg (fst (_on_silence_timeout e0 r))))
  = Some (timestamp e +:+ ".mid",
          [set_time msg (delta_ticks (current_time e) (Some (start_clock e)))]).
Proof.
  intros Hmk. set (r0 := fst (_on_silence_timeout e0 r)).
  pose proof (timeout_closes e0 r) as Hclosed. fold r0 in Hclosed.
  destruct (process_fields e msg r0) as (Hcur & Hmsgs & _).
  destruct (ensure_session_cases e r0)
    as [[Hopen _]|[(_ & Hno & _)|(_ & _ & Hname & Hempty & Hlast & _)]];
    try congruence.
  rewrite Hname in Hcur. rewrite Hempty, Hlast in Hmsgs. simpl in Hmsgs.
  unfold open_session. rewrite Hcur, mid_name_truthy, Hmsgs. reflexivity.
Qed.

(** A message that finds a session open is appended to that session. *)
Lemma message_joins_open_session (e : env) (msg : Mido.message) (r : t) :
  truthy (current_session r) = true ->
  open_session (fst (process_midi_message e msg r))
  = option_map
      (fun s => (fst s,
                 snd s ++ [set_time msg
                             (delta_ticks (current_time e) (last_message_time r))]))
      (open_session r).
Proof.
  intros Hopen.
  destruct (process_fields e msg r) as (Hcur & Hmsgs & _).
  assert (Heq : fst (ensure_session e r) = r).
  { unfold ensure_session. now rewrite Hopen. }
  rewrite Heq in Hcur, Hmsgs.
  unfold open_session. rewrite Hcur, Hmsgs.
  destruct (current_session r) as [name|]; [|discriminate].
  rewrite Hopen. reflexivity.
Qed.

(** When every directory can be made, every message finds a session. *)
Lemma run_arrived_all (evs : list event) (rj : t * journal) :
  dirs_made evs ->
  arrived (snd (run evs rj)) = arrived (snd rj) ++ messages_of evs.
Proof.
  revert rj. induction evs as [|ev evs IH]; intros rj Hdirs.
  - simpl. now rewrite app_nil_r.
  - apply Forall_cons in Hdirs as [Hev Hdirs]. simpl run.
    change (fold_left (fun acc ev0 => step ev0 acc) evs (step ev rj))
      with (run evs (step ev rj)).
    rewrite (IH _ Hdirs). destruct rj as [r j].
    destruct ev as [e msg|e]; simpl; [|reflexivity].
    destruct (process_fields e msg r) as (Hcur & _ & _).
    assert (Hopen : truthy (current_session (fst (process_midi_message e msg r))) = true).
    { rewrite Hcur.
      destruct (ensure_session_cases e r)
        as [[Hopen Heq]|[(_ & Hno & _)|(_ & _ & Hname & _)]].
      - now rewrite Heq.
      - congruence.
      - rewrite Hname. apply mid_name_truthy. }
    destruct (proj2 (open_session_truthy _) Hopen) as [s Hs].
    rewrite Hs. now rewrite <- app_assoc.
Qed.

End RecorderFacts.




(** X28. The engine has one slot for the open session. In every state it can
    reach, the sessions closed so far, in the order they were closed,
    followed by the open one, hold exactly the messages that arrived while a
    session was open or could be opened, each once and in the order of
    arrival; these are all the messages when no directory creation failed.
    A message that finds a session open is appended to it and opens no other.
    The timeout handler leaves no session open and files the one that was;
    the next message then opens a session that holds this message alone. *)
Theorem sessions_partition_the_events
    (output_dir : string) (silence_timeout : Q) (device : option string)
    (broadcaster : option Broadcaster.t) (evs : list Recorder.event) :
  let rj := Recorder.run evs
              (Recorder.fresh output_dir silence_timeout device broadcaster) in
  map Mido.msg_body
    (concat (map snd (Recorder.closed (snd rj)))
     ++ Recorder.open_messages (fst rj))
  = Recorder.arrived (snd rj) /\
  (Recorder.dirs_made evs -> Recorder.arrived (snd rj) = Recorder.messages_of evs) /\
  (forall e msg,
     truthy (Recorder.current_session (fst rj)) = true ->
     exists delta,
       Recorder.open_session (fst (Recorder.process_midi_message e msg (fst rj)))
       = option_map (fun s => (fst s, snd s ++ [Mido.set_time msg delta]))
           (Recorder.open_session (fst rj))) /\
  (forall e0,
     Recorder.open_session (fst (Recorder._on_silence_timeout e0 (fst rj))) = None /\
     Recorder.closed (snd (Recorder.step (Recorder.EvTimeout e0) rj))
     = Recorder.closed (snd rj)
       ++ match Recorder.open_session (fst rj) with
          | Some s => [s]
          | None => []
          end) /\
  (forall e0 e msg,
     Recorder.makedirs_ok e = true ->
     exists delta,
       Recorder.open_session
         (fst (Recorder.process_midi_message e msg
                 (fst (Recorder._on_silence_timeout e0 (fst rj)))))
       = Some (Recorder.timestamp e +:+ ".mid", [Mido.set_time msg delta])).
Proof.
  intros rj. split; [|split; [|split; [|split]]].
  - apply (run_partitioned evs
             (Recorder.fresh output_dir silence_timeout device broadcaster)).
    reflexivity.
  - intros Hdirs.
    apply (run_arrived_all evs
             (Recorder.fresh output_dir silence_timeout device broadcaster) Hdirs).
  - intros e msg Hopen. eexists.
    apply (message_joins_open_session e msg (fst rj) Hopen).
  - intros e0. split.
    + pose proof (timeout_closes e0 (fst rj)) as Hclosed.
      destruct (Recorder.open_session _) as [s|] eqn:Hs; [|reflexivity].
      assert (Hsome : is_Some (Recorder.open_session
                (fst (Recorder._on_silence_timeout e0 (fst rj))))) by eauto.
      apply open_session_truthy in Hsome. congruence.
    + destruct rj as [r j]. simpl.
      destruct (Recorder.open_session r); [reflexivity|].
      now rewrite app_nil_r.
  - intros e0 e msg Hmk. eexists.
    apply (message_after_timeout e0 e msg (fst rj) Hmk).
Qed.

(** Two notes, then a third one in the same session, or a timeout and a
    third note in a session of its own. *)
Lemma sessions_partition_the_events_witness :
  let evs :=
    [Recorder.EvMessage (Recorder.calm 100) Recorder.middle_c_on;
     Recorder.EvMessage (Recorder.calm (1002 # 10)) Recorder.middle_c_off] in
  let rj := Recorder.run evs (Recorder.fresh "/data/piano" 30 None None) in
  (Recorder.dirs_made evs /\
   Recorder.arrived (snd rj) = [Mido.note_on 0 60 64; Mido.note_off 0 60 0]) /\
  (truthy (Recorder.current_session (fst rj)) = true /\
   exists delta,
     Recorder.open_session
       (fst (Recorder.process_midi_message (Recorder.calm 101)
               Recorder.middle_c_on (fst rj)))
     = option_map
         (fun s => (fst s, snd s ++ [Mido.set_time Recorder.middle_c_on delta]))
         (Recorder.open_session (fst rj))) /\
  (Recorder.makedirs_ok (Recorder.calm 200) = true /\
   exists delta,
     Recorder.open_session
       (fst (Recorder.process_midi_message (Recorder.calm 200) Recorder.middle_c_on
               (fst (Recorder._on_silence_timeout (Recorder.calm_save 131) (fst rj)))))
     = Some ("2025-01-01 10.00.00.mid", [Mido.set_time Recorder.middle_c_on delta])).
Proof.
  intros evs rj.
  destruct (sessions_partition_the_events "/data/piano" 30 None None evs)
    as (_ & Hall & Hjoin & _ & Hnext).
  assert (Hdirs : Recorder.dirs_made evs).
  { repeat constructor. }
  split; [split|split; split].
  - exact Hdirs.
  - exact (Hall Hdirs).
  - reflexivity.
  - exact (Hjoin (Recorder.calm 101) Recorder.middle_c_on eq_refl).
  - reflexivity.
  - exact (Hnext (Recorder.calm_save 131) (Recorder.calm 200) Recorder.middle_c_on
             eq_refl).
Defined.

(** * Further properties of the code *)

(** ** Names of notes and controllers *)

Section NameFacts.

Import Converter ConverterTables.

Lemma to_int_proper (n : Z) :
  Z.to_int n <> Decimal.Pos Decimal.Nil /\ Z.to_int n <> Decimal.Neg Decimal.Nil.
Proof.
  destruct n as [|p|p]; simpl; split; try discriminate;
    intros H; injection H as H; now apply Unsigned.to_uint_nonnil in H.
Qed.

(** [str] of an integer can be read back: two integers that print alike
    are equal. *)
Lemma str_int_inj (n n' : Z) : str_int n = str_int n' -> n = n'.
Proof.
  unfold str_int. intros H.
  destruct (to_int_proper n) as [Hp Hn], (to_int_proper n') as [Hp' Hn'].
  pose proof (NilZero.isi (Z.to_int n) Hp Hn) as E.
  pose proof (NilZero.isi (Z.to_int n') Hp' Hn') as E'.
  rewrite H in E. rewrite E in E'. injection E' as E'.
  now apply to_int_inj.
Qed.

Lemma in_range_names_distinct :
  forallb (fun i =>
    forallb (fun j =>
      Nat.eqb i j
      || negb match nth i in_range_names (Raise IndexError),
                    nth j in_range_names (Raise IndexError) with
              | Ok a, Ok b => String.eqb a b
              | _, _ => true
              end) (seq 0 128)) (seq 0 128) = true.
Proof. vm_compute. reflexivity. Qed.

Lemma in_range_names_nth (n : Z) :
  0 <= n <= 127 ->
  nth (Z.to_nat n) in_range_names (Raise IndexError) = midi_note_to_name n.
Proof.
  intros Hn. unfold in_range_names.
  rewrite (nth_indep _ (Raise IndexError) (midi_note_to_name (Z.of_nat 0)))
    by (rewrite length_map, length_seq; lia).
  rewrite (map_nth (fun i => midi_note_to_name (Z.of_nat i))).
  rewrite seq_nth by lia. simpl. now rewrite Z2Nat.id by lia.
Qed.

Lemma in_range_name_not_fallback (n : Z) (s : string) :
  0 <= n <= 127 -> midi_note_to_name n <> Ok ("Note" +:+ s).
Proof.
  intros Hn H.
  destruct (midi_note_to_name_in_range n Hn) as (name & Hname & Heq).
  rewrite Heq in H. injection H as H.
  assert (Hk : 0 <= n mod 12 < 12) by (apply Z.mod_pos_bound; lia).
  assert (Hcases : In (Z.to_nat (n mod 12)) (seq 0 12)) by (apply in_seq; lia).
  simpl in Hcases.
  repeat (destruct Hcases as [Hc|Hcases];
          [rewrite <- Hc in Hname; vm_compute in Hname;
           injection Hname as Hname; subst name;
           cbv [String.append] in H; discriminate H|]).
  destruct Hcases.
Qed.

End NameFacts.

(** X1. [midi_note_to_name] gives different names to different integers,
    inside the MIDI range, outside it and across the two. *)
Theorem midi_note_to_name_injective (n n' : Z) :
  n <> n' -> Converter.midi_note_to_name n <> Converter.midi_note_to_name n'.
Proof.
  intros Hne H. apply Hne.
  destruct (decide (0 <= n <= 127)) as [Hn|Hn];
    destruct (decide (0 <= n' <= 127)) as [Hn'|Hn'].
  - pose proof in_range_names_distinct as Hall.
    rewrite forallb_forall in Hall.
    specialize (Hall (Z.to_nat n)). rewrite forallb_forall in Hall.
    specialize (Hall ltac:(apply in_seq; lia) (Z.to_nat n') ltac:(apply in_seq; lia)).
    rewrite (in_range_names_nth n Hn), (in_range_names_nth n' Hn'), <- H in Hall.
    destruct (midi_note_to_name_returns n) as [s Hs]. rewrite Hs in Hall.
    rewrite String.eqb_refl in Hall. simpl in Hall.
    rewrite orb_false_r in Hall. apply Nat.eqb_eq in Hall. lia.
  - rewrite (midi_note_to_name_out_of_range n' Hn') in H.
    now apply in_range_name_not_fallback in H.
  - rewrite (midi_note_to_name_out_of_range n Hn) in H. symmetry in H.
    now apply in_range_name_not_fallback in H.
  - rewrite (midi_note_to_name_out_of_range n Hn),
      (midi_note_to_name_out_of_range n' Hn') in H.
    injection H as H. now apply str_int_inj.
Qed.

Lemma midi_note_to_name_injective_witness :
  60 <> 128 /\
  Converter.midi_note_to_name 60 <> Converter.midi_note_to_name 128.
Proof.
  assert (H : 60 <> 128) by discriminate.
  split; [exact H|]. exact (midi_note_to_name_injective 60 128 H).
Defined.

Section ControlNameFacts.

Import Converter ConverterTables.

Lemma control_name_of_key (c : Z) (name : string) :
  In (c, name) control_table -> get_control_name c = name.
Proof.
  intros Hin. simpl in Hin.
  repeat (destruct Hin as [Hin|Hin];
          [injection Hin as <- <-; vm_compute; reflexivity|]).
  destruct Hin.
Qed.

Lemma control_name_cases (c : Z) :
  (exists name, In (c, name) control_table /\ get_control_name c = name) \/
  get_control_name c = "cc" +:+ str_int c.
Proof.
  destruct (decide (c ∈ control_table.*1)) as [Hin|Hout].
  - left. apply list_elem_of_fmap in Hin as ([c0 name] & -> & Hin).
    apply list_elem_of_In in Hin. exists name. split; [exact Hin|].
    now apply control_name_of_key.
  - right. unfold get_control_name.
    change CONTROL_NAMES with (list_to_map control_table : gmap Z string).
    now rewrite (not_elem_of_list_to_map_1 _ _ Hout).
Qed.

Lemma control_table_names_distinct (c c' : Z) (name : string) :
  In (c, name) control_table -> In (c', name) control_table -> c = c'.
Proof.
  intros H1 H2. simpl in H1, H2.
  repeat (destruct H1 as [H1|H1]; [injection H1 as <- <-|]); try destruct H1;
    repeat (destruct H2 as [H2|H2];
            [first [discriminate H2 | injection H2 as <-; reflexivity]|]);
    destruct H2.
Qed.

Lemma control_table_name_not_cc (c : Z) (name s : string) :
  In (c, name) control_table -> name <> "cc" +:+ s.
Proof.
  intros Hin H. simpl in Hin.
  repeat (destruct Hin as [Hin|Hin];
          [injection Hin as <- <-; cbv [String.append] in H; discriminate H|]).
  destruct Hin.
Qed.

End ControlNameFacts.

(** X2. [get_control_name] gives different names to different controller
    numbers: the ten named controllers have ten names, and no fallback name
    [cc<n>] is one of them or the fallback of another number. *)
Theorem get_control_name_injective (c c' : Z) :
  c <> c' -> Converter.get_control_name c <> Converter.get_control_name c'.
Proof.
  intros Hne H. apply Hne.
  destruct (control_name_cases c) as [(name & Hin & Hname)|Hname];
    destruct (control_name_cases c') as [(name' & Hin' & Hname')|Hname'].
  - rewrite Hname, Hname' in H. subst name'.
    exact (control_table_names_distinct c c' name Hin Hin').
  - rewrite Hname, Hname' in H.
    now apply (control_table_name_not_cc c name (str_int c')) in H.
  - rewrite Hname, Hname' in H. symmetry in H.
    now apply (control_table_name_not_cc c' name' (str_int c)) in H.
  - rewrite Hname, Hname' in H. cbv [String.append] in H.
    injection H as H. now apply str_int_inj.
Qed.

Lemma get_control_name_injective_witness :
  64 <> 65 /\ Converter.get_control_name 64 <> Converter.get_control_name 65.
Proof.
  assert (H : 64 <> 65) by discriminate.
  split; [exact H|]. exact (get_control_name_injective 64 65 H).
Defined.

(** A message the loop records is converted to some envelope. *)
Lemma recorded_message_has_an_envelope
    (ts : string) (session_id : option string) (msg : Mido.message) :
  RecorderApp.well_typed msg -> RecorderApp.recorded msg = true ->
  exists j, Converter.midi_message_to_json ts msg session_id = Ok (Some j).
Proof.
  intros Hwt. unfold RecorderApp.well_typed in Hwt.
  unfold RecorderApp.recorded, Converter.midi_message_to_json,
    Converter.note_message_to_json.
  destruct (msg_body msg) as [ch n v|ch n v|ch ct v|ch p|ch p|name];
    simpl RecorderApp.type_of; intros Hrec; eauto;
    try (destruct (midi_note_to_name_returns n) as [nm ->]; simpl; eauto).
  rewrite Hwt in Hrec. discriminate.
Qed.

(** X3. The filter of the recording loop and the converter agree: a
    message of one of the five recorded types is converted to an envelope
    with topic ["midi"], source ["piano"], the timestamp and session id
    given, type ["note"] for notes and ["control"] otherwise; a message of
    any other type is converted to [None]. The converter never raises. *)
Theorem recorded_messages_are_converted
    (ts : string) (session_id : option string) (msg : Mido.message) :
  RecorderApp.well_typed msg ->
  (RecorderApp.recorded msg = true ->
   exists j data,
     Converter.midi_message_to_json ts msg session_id = Ok (Some j) /\
     Json.field "topic" j = Some (Json.Str "midi") /\
     Json.field "source" j = Some (Json.Str "piano") /\
     Json.field "timestamp" j = Some (Json.Str ts) /\
     Json.field "sessionId" j = Some (Json.of_opt_str session_id) /\
     Json.field "type" j
       = Some (Json.Str (if Mido.is_note msg then "note" else "control")) /\
     Json.field "data" j = Some data) /\
  (RecorderApp.recorded msg = false ->
   Converter.midi_message_to_json ts msg session_id = Ok None).
Proof.
  intros Hwt. unfold RecorderApp.well_typed in Hwt.
  unfold RecorderApp.recorded, Converter.midi_message_to_json,
    Converter.note_message_to_json, Mido.is_note.
  destruct (msg_body msg) as [ch n v|ch n v|ch ct v|ch p|ch p|name] eqn:Hbody;
    simpl RecorderApp.type_of.
  - split; [intros _|discriminate].
    destruct (midi_note_to_name_returns n) as [nm Hnm]. rewrite Hnm. simpl.
    do 2 eexists. repeat split.
  - split; [intros _|discriminate].
    destruct (midi_note_to_name_returns n) as [nm Hnm]. rewrite Hnm. simpl.
    do 2 eexists. repeat split.
  - split; [intros _|discriminate]. do 2 eexists. repeat split.
  - split; [intros _|discriminate]. do 2 eexists. repeat split.
  - split; [intros _|discriminate]. do 2 eexists. repeat split.
  - rewrite Hwt. split; [discriminate|reflexivity].
Qed.

Lemma recorded_messages_are_converted_witness :
  let msg := Message (control_change 0 64 127) 0 in
  RecorderApp.well_typed msg /\ RecorderApp.recorded msg = true /\
  exists j data,
    Converter.midi_message_to_json "T" msg None = Ok (Some j) /\
    Json.field "topic" j = Some (Json.Str "midi") /\
    Json.field "source" j = Some (Json.Str "piano") /\
    Json.field "timestamp" j = Some (Json.Str "T") /\
    Json.field "sessionId" j = Some Json.Null /\
    Json.field "type" j = Some (Json.Str "control") /\
    Json.field "data" j = Some data.
Proof.
  intros msg.
  assert (Hwt : RecorderApp.well_typed msg) by exact I.
  assert (Hrec : RecorderApp.recorded msg = true) by reflexivity.
  split; [exact Hwt|]. split; [exact Hrec|].
  exact (proj1 (recorded_messages_are_converted "T" None msg Hwt) Hrec).
Defined.

(** ** What deleting a short recording does to the files *)

#[local] Set Warnings "-clear-no-such-hyp".

Section DeletionFacts.

Import Converter.

Lemma remove_footprint (w w' : Os.fs) (p : string) :
  Os.remove w p = Ok w' ->
  Os.files w' = Os.files w ∖ {[p]} /\ Os.readonly w' = Os.readonly w /\
  p ∈ Os.files w.
Proof.
  unfold Os.remove.
  destruct (bool_decide (p ∈ Os.files w)) eqn:Hin; [|discriminate].
  destruct (bool_decide (p ∈ Os.readonly w)); [discriminate|].
  simpl. intros H. injection H as <-. simpl.
  apply bool_decide_eq_true in Hin. auto.
Qed.

End DeletionFacts.

(** [delete_short_recording] creates no file. *)
Lemma delete_short_recording_shrinks (w : Os.fs) (p : string) (d : Q) :
  Os.files (snd (Converter.delete_short_recording w p d)) ⊆ Os.files w.
Proof.
  unfold Converter.delete_short_recording.
  set (mp3 := Os.splitext_root p +:+ ".mp3").
  destruct (truthy (Some p)); [|simpl; set_solver].
  simpl andb.
  destruct (Os.path_exists w p);
    [destruct (Os.remove w p) as [w1|x] eqn:Hrm1;
     [destruct (remove_footprint w w1 p Hrm1) as (Hf1 & _)|]|];
    match goal with
    | |- context [Os.path_exists ?w0 mp3] =>
        destruct (Os.path_exists w0 mp3);
        [destruct (Os.remove w0 mp3) as [w2|x'] eqn:Hrm2;
         [destruct (remove_footprint w0 w2 mp3 Hrm2) as (Hf2 & _)|]|]
    end;
    simpl; rewrite ?Hf2, ?Hf1; set_solver.
Qed.

(** X4. [delete_short_recording] touches nothing but the file it is given
    and the [.mp3] beside it: every other file stays, no file appears, the
    read-only marks stay. When it returns [False] the file system is as it
    was, when it returns [True] one of the two files is gone, and for an
    empty path it returns [False]. *)
Theorem delete_short_recording_footprint (w : Os.fs) (p : string) (d : Q) :
  let mp3 := Os.splitext_root p +:+ ".mp3" in
  let deleted := fst (Converter.delete_short_recording w p d) in
  let w' := snd (Converter.delete_short_recording w p d) in
  Os.files w' ⊆ Os.files w /\
  Os.readonly w' = Os.readonly w /\
  (forall q, q <> p -> q <> mp3 -> q ∈ Os.files w -> q ∈ Os.files w') /\
  (deleted = false -> w' = w) /\
  (deleted = true ->
   (p ∈ Os.files w /\ p ∉ Os.files w') \/
   (mp3 ∈ Os.files w /\ mp3 ∉ Os.files w')) /\
  (p = "" -> deleted = false).
Proof.
  cbv zeta. unfold Converter.delete_short_recording.
  set (mp3 := Os.splitext_root p +:+ ".mp3").
  destruct (truthy (Some p)) eqn:Hp.
  2:{ simpl. repeat split; auto; try discriminate; set_solver. }
  simpl andb.
  assert (Hne : p <> "").
  { intros ->. discriminate Hp. }
  destruct (Os.path_exists w p) eqn:Hex1;
    [destruct (Os.remove w p) as [w1|x] eqn:Hrm1;
     [destruct (remove_footprint w w1 p Hrm1) as (Hf1 & Hr1 & Hin1)|]|];
    match goal with
    | |- context [Os.path_exists ?w0 mp3] =>
        destruct (Os.path_exists w0 mp3) eqn:Hex2;
        [destruct (Os.remove w0 mp3) as [w2|x'] eqn:Hrm2;
         [destruct (remove_footprint w0 w2 mp3 Hrm2) as (Hf2 & Hr2 & Hin2)|]|]
    end;
    simpl; rewrite ?Hf2, ?Hr2, ?Hf1, ?Hr1;
    (split; [set_solver|]); (split; [reflexivity|]); (split; [set_solver|]);
    (split; [first [discriminate | reflexivity | intros _; reflexivity]|]);
    (split; [|intros; congruence]);
    first [discriminate
          | intros _; left; split; [exact Hin1|set_solver]
          | intros _; right; split; [set_solver|set_solver]].
Qed.

(** X5. Building the end message of a session that lasted
    [MIN_SESSION_DURATION_SECONDS] or more, or one without a file path,
    leaves every file in place; in every case the files left are among the
    files there were. *)
Theorem long_sessions_keep_their_files
    (w : Os.fs) (ts session_id : string) (duration : Q) (note_count : Z)
    (file_path : option string) :
  let w' := snd (Converter.create_session_end_message w ts session_id
                   duration note_count file_path) in
  (~ (duration < Converter.MIN_SESSION_DURATION_SECONDS)%Q -> w' = w) /\
  (truthy file_path = false -> w' = w) /\
  Os.files w' ⊆ Os.files w.
Proof.
  cbv zeta. unfold Converter.create_session_end_message.
  destruct file_path as [p|]; [|simpl; repeat split; auto].
  destruct (Py.ltb duration Converter.MIN_SESSION_DURATION_SECONDS) eqn:Hlt.
  - destruct (truthy (Some p)) eqn:Hp; simpl andb; cbv iota.
    + pose proof (delete_short_recording_shrinks w p duration) as Hsub.
      destruct (Converter.delete_short_recording w p duration) as [deleted w1].
      simpl in *. repeat split; try discriminate; auto.
      intros Hge. exfalso. apply Hge, ltb_lt, Hlt.
    + simpl. repeat split; auto.
  - simpl. repeat split; auto.
Qed.

Lemma long_sessions_keep_their_files_witness :
  let w := {| Os.files := {["2025-01/a.mid"]}; Os.readonly := ∅ |} in
  ~ (45 < Converter.MIN_SESSION_DURATION_SECONDS)%Q /\
  snd (Converter.create_session_end_message w "T" "a" 45 12
         (Some "2025-01/a.mid")) = w.
Proof.
  intros w.
  assert (Hge : ~ (45 < Converter.MIN_SESSION_DURATION_SECONDS)%Q)
    by (intros H; discriminate H).
  split; [exact Hge|].
  exact (proj1 (long_sessions_keep_their_files w "T" "a" 45 12
                  (Some "2025-01/a.mid")) Hge).
Defined.

(** ** The broadcast client: start, stop and the queue *)

Section LifecycleFacts.

Import Broadcaster.

Lemma worker_step_keeps_config (c : copy) (o : oracle) (b : t) :
  running (fst (worker_step c o b)) = running b /\
  stop_event (fst (worker_step c o b)) = stop_event b /\
  thread (fst (worker_step c o b)) = thread b /\
  max_queue_size (fst (worker_step c o b)) = max_queue_size b /\
  reconnect_base (fst (worker_step c o b)) = reconnect_base b /\
  reconnect_max (fst (worker_step c o b)) = reconnect_max b.
Proof.
  unfold worker_step, on_failure, after_wait, finish, get_nowait, put_nowait.
  destruct (at_pc b), c;
    repeat match goal with
           | |- context [if ?g then _ else _] => destruct g eqn:?
           | |- context [match queue ?x with _ => _ end] => destruct (queue x)
           end; simpl; repeat split; congruence.
Qed.

Lemma worker_steps_keep_config (c : copy) (os : list oracle) (b : t) :
  running (fst (worker_steps c os b)) = running b /\
  stop_event (fst (worker_steps c os b)) = stop_event b /\
  thread (fst (worker_steps c os b)) = thread b /\
  max_queue_size (fst (worker_steps c os b)) = max_queue_size b /\
  reconnect_base (fst (worker_steps c os b)) = reconnect_base b /\
  reconnect_max (fst (worker_steps c os b)) = reconnect_max b.
Proof.
  revert b. induction os as [|o os IH]; intros b; [simpl; auto 10|].
  simpl. pose proof (worker_step_keeps_config c o b) as Hs.
  destruct (worker_step c o b) as [b1 e1]. simpl in Hs.
  specialize (IH b1). destruct (worker_steps c os b1) as [b2 e2]. simpl in *.
  intuition congruence.
Qed.

Lemma stop_clears_running (c : copy) (flush : bool) (during : list oracle) (b : t) :
  running (fst (stop c flush during b)) = false.
Proof.
  unfold stop. destruct (running b) eqn:Hr; simpl; [|exact Hr].
  pose proof (worker_steps_keep_config c during
                (set_flags false (connected b) true (thread b) b)) as (H & _).
  destruct (worker_steps c during _) as [b' effs]. simpl in *. exact H.
Qed.

End LifecycleFacts.

(** X6. [start] on a broadcaster it has just started returns [False] and
    changes nothing; and starting keeps the queue and the counters, so
    what was queued before a restart is still queued. *)
Theorem start_twice_starts_once (b : Broadcaster.t) :
  fst (Broadcaster.start b) = true ->
  Broadcaster.start (snd (Broadcaster.start b))
    = (false, snd (Broadcaster.start b)) /\
  Broadcaster.queue (snd (Broadcaster.start b)) = Broadcaster.queue b /\
  Broadcaster.st (snd (Broadcaster.start b)) = Broadcaster.st b.
Proof.
  intros Hstarted.
  assert (Hsnd : snd (Broadcaster.start b)
                 = Broadcaster.set_reconnect_delay (Broadcaster.reconnect_base b)
                     (Broadcaster.set_pc Broadcaster.LoopHead
                        (Broadcaster.set_flags true (Broadcaster.connected b)
                           false true b))).
  { unfold Broadcaster.start in *.
    destruct (Broadcaster.is_running b); [discriminate|reflexivity]. }
  rewrite Hsnd. repeat split.
Qed.

Lemma start_twice_starts_once_witness :
  let b := Broadcaster.init 5 60 1000 in
  fst (Broadcaster.start b) = true /\
  Broadcaster.start (snd (Broadcaster.start b))
    = (false, snd (Broadcaster.start b)).
Proof.
  intros b. assert (H : fst (Broadcaster.start b) = true) by reflexivity.
  split; [exact H|]. exact (proj1 (start_twice_starts_once b H)).
Defined.

(** X7. Once [stop] has been called, whatever the worker still does,
    every [broadcast] returns [False] and changes neither the queue nor a
    counter, and a second [stop] does nothing. *)
Theorem stopped_broadcaster_refuses
    (c : Broadcaster.copy) (flush flush' : bool)
    (during after during' : list Broadcaster.oracle)
    (b : Broadcaster.t) (m : Json.t) :
  let b' := fst (Broadcaster.worker_steps c after
                   (fst (Broadcaster.stop c flush during b))) in
  Broadcaster.broadcast m b' = (Ok false, b') /\
  Broadcaster.stop c flush' during' b' = (b', []).
Proof.
  cbv zeta.
  pose proof (stop_clears_running c flush during b) as Hstop.
  pose proof (worker_steps_keep_config c after
                (fst (Broadcaster.stop c flush during b))) as (Hr & _).
  rewrite Hstop in Hr.
  split; [now apply broadcast_stopped|].
  unfold Broadcaster.stop at 1. now rewrite Hr.
Qed.

Section ExecutionFacts.

Import Broadcaster.

Lemma step_state (c : copy) (ev : event) (bl : t * ledger) :
  fst (step c ev bl) =
  match ev with
  | EvBroadcast m => snd (broadcast m (fst bl))
  | EvStop flush during => fst (stop c flush during (fst bl))
  | EvWorker o => fst (worker_step c o (fst bl))
  end.
Proof.
  destruct bl as [b l]. destruct ev as [m|flush during|o]; simpl; try reflexivity.
  destruct (broadcast m b) as [[[|]|x] b']; reflexivity.
Qed.

(** A property of the state kept by every step of the worker, by
    [broadcast] and by the flags [stop] sets is kept by every execution. *)
Lemma state_invariant (c : copy) (I : t -> Prop) :
  (forall o b, I b -> I (fst (worker_step c o b))) ->
  (forall m b, I b -> I (snd (broadcast m b))) ->
  (forall r k s h b, I b -> I (set_flags r k s h b)) ->
  forall evs bl, I (fst bl) -> I (fst (run c evs bl)).
Proof.
  intros Hw Hb Hf.
  assert (Hws : forall os b, I b -> I (fst (worker_steps c os b))).
  { induction os as [|o os IH]; intros b Hi; [exact Hi|].
    simpl. specialize (Hw o b Hi). destruct (worker_step c o b) as [b1 e1].
    specialize (IH b1 Hw). destruct (worker_steps c os b1). exact IH. }
  induction evs as [|ev evs IH]; intros bl Hi; [exact Hi|].
  simpl. apply IH. rewrite step_state.
  destruct ev as [m|flush during|o]; auto.
  unfold stop. destruct (running (fst bl)); simpl; [|exact Hi].
  specialize (Hws during _ (Hf false (connected (fst bl)) true (thread (fst bl)) _ Hi)).
  destruct (worker_steps c during _) as [b' effs]. simpl in *. now apply Hf.
Qed.

Lemma full_false_room (b : t) :
  full b = false -> 0 < max_queue_size b ->
  Z.of_nat (length (queue b)) < max_queue_size b.
Proof.
  unfold full. intros H Hpos.
  apply andb_false_iff in H as [H|H].
  - apply Z.ltb_ge in H. lia.
  - apply Z.leb_gt in H. lia.
Qed.

Lemma broadcast_cases (m : Json.t) (b : t) :
  snd (broadcast m b) = b \/
  (full b = true /\ snd (broadcast m b) = set_stats (incr_dropped (st b)) b) \/
  (full b = false /\ snd (broadcast m b) = set_queue (queue b ++ [m]) b).
Proof.
  destruct (running b) eqn:Hr; [|left; now rewrite broadcast_stopped].
  destruct (full b) eqn:Hf.
  - right; left. now rewrite broadcast_full.
  - right; right. now rewrite broadcast_room.
Qed.

End ExecutionFacts.

(** X8. The Delivery Queue never holds more than [max_queue_size]
    messages, in either copy and at every point of every execution: neither
    [broadcast] nor the worker putting back a message whose send failed
    goes past the capacity. *)
Theorem queue_never_exceeds_capacity
    (c : Broadcaster.copy) (reconnect_base reconnect_max : Q)
    (max_queue_size : Z) (evs : list Broadcaster.event) :
  0 < max_queue_size ->
  Z.of_nat (length (Broadcaster.queue
                      (fst (Broadcaster.run c evs
                              (Broadcaster.started reconnect_base reconnect_max
                                 max_queue_size)))))
  <= max_queue_size.
Proof.
  intros Hpos.
  set (I := fun b : Broadcaster.t =>
              Broadcaster.max_queue_size b = max_queue_size /\
              Z.of_nat (length (Broadcaster.queue b)) <= max_queue_size).
  enough (HI : I (fst (Broadcaster.run c evs
                         (Broadcaster.started reconnect_base reconnect_max
                            max_queue_size)))) by apply HI.
  apply state_invariant.
  - intros o b [Hmax Hlen]. unfold I.
    unfold Broadcaster.worker_step, Broadcaster.on_failure,
      Broadcaster.after_wait, Broadcaster.finish, Broadcaster.get_nowait,
      Broadcaster.put_nowait.
    destruct (Broadcaster.at_pc b), c;
      repeat match goal with
             | |- context [if ?g then _ else _] => destruct g eqn:?
             | |- context [match Broadcaster.queue ?x with _ => _ end] =>
                 destruct (Broadcaster.queue x) eqn:?
             end;
      try match goal with
          | H : Broadcaster.full b = false |- _ =>
              apply full_false_room in H; [|lia]
          end;
      simpl in *; rewrite ?length_app; simpl;
      try match goal with
          | H : Broadcaster.queue b = _ |- _ => rewrite ?H
          end;
      simpl in *; (split; [assumption|lia]).
  - intros m b [Hmax Hlen]. unfold I.
    destruct (broadcast_cases m b) as [->|[[_ ->]|[Hf ->]]]; simpl; auto.
    rewrite length_app. simpl.
    apply full_false_room in Hf; [|lia]. split; [assumption|lia].
  - intros r k s h b Hi. exact Hi.
  - unfold I. simpl. split; [reflexivity|lia].
Qed.

Lemma queue_never_exceeds_capacity_witness :
  0 < 2 /\
  Z.of_nat (length (Broadcaster.queue
    (fst (Broadcaster.run Broadcaster.extensions
            [Broadcaster.EvBroadcast (Json.Int 1);
             Broadcaster.EvBroadcast (Json.Int 2);
             Broadcaster.EvBroadcast (Json.Int 3)]
            (Broadcaster.started 5 60 2))))) <= 2.
Proof.
  assert (H : 0 < 2) by lia. split; [exact H|].
  exact (queue_never_exceeds_capacity Broadcaster.extensions 5 60 2
           [Broadcaster.EvBroadcast (Json.Int 1);
            Broadcaster.EvBroadcast (Json.Int 2);
            Broadcaster.EvBroadcast (Json.Int 3)] H).
Defined.

Lemma every_message_accounted_balance
    (c : Broadcaster.copy) (evs : list Broadcaster.event)
    (bl : Broadcaster.t * Broadcaster.ledger) :
  bl = Broadcaster.started (Broadcaster.reconnect_base (fst bl))
         (Broadcaster.reconnect_max (fst bl))
         (Broadcaster.max_queue_size (fst bl)) ->
  Broadcaster.balanced (Broadcaster.run c evs bl).
Proof.
  intros Hbl. apply run_balanced. rewrite Hbl. reflexivity.
Qed.

(** Every return path of [worker_step], with the tests it took. *)
Ltac worker_paths c b :=
  unfold Broadcaster.worker_step, Broadcaster.on_failure,
    Broadcaster.after_wait, Broadcaster.finish, Broadcaster.get_nowait,
    Broadcaster.put_nowait;
  destruct (Broadcaster.at_pc b), c;
  repeat match goal with
         | |- context [if ?g then _ else _] => destruct g eqn:?
         | |- context [match Broadcaster.queue ?x with _ => _ end] =>
             destruct (Broadcaster.queue x) eqn:?
         end.

(** X9. No counter of the broadcaster ever goes down: along every
    execution of either copy [messages_sent], [messages_dropped] and
    [reconnect_count] only grow. *)
Theorem counters_never_decrease
    (c : Broadcaster.copy) (evs : list Broadcaster.event)
    (bl : Broadcaster.t * Broadcaster.ledger) :
  let b := fst bl in
  let b' := fst (Broadcaster.run c evs bl) in
  Broadcaster.messages_sent (Broadcaster.st b)
    <= Broadcaster.messages_sent (Broadcaster.st b') /\
  Broadcaster.messages_dropped (Broadcaster.st b)
    <= Broadcaster.messages_dropped (Broadcaster.st b') /\
  Broadcaster.reconnect_count (Broadcaster.st b)
    <= Broadcaster.reconnect_count (Broadcaster.st b').
Proof.
  cbv zeta.
  set (s0 := Broadcaster.st (fst bl)).
  set (I := fun b : Broadcaster.t =>
              Broadcaster.messages_sent s0
                <= Broadcaster.messages_sent (Broadcaster.st b) /\
              Broadcaster.messages_dropped s0
                <= Broadcaster.messages_dropped (Broadcaster.st b) /\
              Broadcaster.reconnect_count s0
                <= Broadcaster.reconnect_count (Broadcaster.st b)).
  change (I (fst (Broadcaster.run c evs bl))).
  apply state_invariant.
  - intros o b (H1 & H2 & H3). unfold I.
    worker_paths c b; simpl; repeat split; lia.
  - intros m b (H1 & H2 & H3). unfold I.
    destruct (broadcast_cases m b) as [->|[[_ ->]|[_ ->]]]; simpl;
      repeat split; lia.
  - intros r k s h b Hi. exact Hi.
  - unfold I, s0. lia.
Qed.

(** X10. The reconnect delay stays between [reconnect_base] and
    [reconnect_max] at every point of every execution of either copy,
    provided the base is not negative and not above the maximum. *)
Theorem reconnect_delay_stays_in_bounds
    (c : Broadcaster.copy) (reconnect_base reconnect_max : Q)
    (max_queue_size : Z) (evs : list Broadcaster.event) :
  (0 <= reconnect_base)%Q -> (reconnect_base <= reconnect_max)%Q ->
  let b := fst (Broadcaster.run c evs
                  (Broadcaster.started reconnect_base reconnect_max
                     max_queue_size)) in
  (reconnect_base <= Broadcaster.reconnect_delay b)%Q /\
  (Broadcaster.reconnect_delay b <= reconnect_max)%Q.
Proof.
  intros H0 Hle. cbv zeta.
  set (I := fun b : Broadcaster.t =>
              Broadcaster.reconnect_base b = reconnect_base /\
              Broadcaster.reconnect_max b = reconnect_max /\
              (reconnect_base <= Broadcaster.reconnect_delay b)%Q /\
              (Broadcaster.reconnect_delay b <= reconnect_max)%Q).
  enough (HI : I (fst (Broadcaster.run c evs
                         (Broadcaster.started reconnect_base reconnect_max
                            max_queue_size)))) by apply HI.
  apply state_invariant.
  - intros o b (Hb & Hm & Hlo & Hhi). unfold I.
    assert (Hdouble :
      (reconnect_base
       <= Py.min (Broadcaster.reconnect_delay b * 2) (Broadcaster.reconnect_max b))%Q /\
      (Py.min (Broadcaster.reconnect_delay b * 2) (Broadcaster.reconnect_max b)
       <= reconnect_max)%Q).
    { destruct (py_min_spec (Broadcaster.reconnect_delay b * 2)%Q
                  (Broadcaster.reconnect_max b)) as [[Hlt ->]|[Hge ->]];
        rewrite ?Hm in *; split; lra. }
    worker_paths c b; simpl; rewrite ?Hb;
      repeat split; try assumption; try apply Hdouble; try lra.
  - intros m b Hi. unfold I in *.
    destruct (broadcast_cases m b) as [->|[[_ ->]|[_ ->]]]; simpl; exact Hi.
  - intros r k s h b Hi. exact Hi.
  - unfold I. simpl. repeat split; lra.
Qed.

Lemma reconnect_delay_stays_in_bounds_witness :
  (0 <= 5)%Q /\ (5 <= 60)%Q /\
  let b := fst (Broadcaster.run Broadcaster.extentions
                  (replicate 7 (Broadcaster.EvWorker Broadcaster.refusing))
                  (Broadcaster.started 5 60 1000)) in
  (5 <= Broadcaster.reconnect_delay b)%Q /\
  (Broadcaster.reconnect_delay b <= 60)%Q.
Proof.
  assert (H0 : (0 <= 5)%Q) by discriminate.
  assert (Hle : (5 <= 60)%Q) by discriminate.
  split; [exact H0|]. split; [exact Hle|].
  exact (reconnect_delay_stays_in_bounds Broadcaster.extentions 5 60 1000
           (replicate 7 (Broadcaster.EvWorker Broadcaster.refusing)) H0 Hle).
Defined.

(** X11. With an unbounded queue ([max_queue_size <= 0]) the [_extensions]
    copy never drops a message: [messages_dropped] stays 0 and every
    message [broadcast] took in is counted as sent, waiting in the queue or
    held by the worker. *)
Theorem unbounded_queue_never_drops
    (reconnect_base reconnect_max : Q) (max_queue_size : Z)
    (evs : list Broadcaster.event) :
  max_queue_size <= 0 ->
  let bl := Broadcaster.run Broadcaster.extensions evs
              (Broadcaster.started reconnect_base reconnect_max max_queue_size) in
  Broadcaster.messages_dropped (Broadcaster.st (fst bl)) = 0 /\
  Broadcaster.messages_sent (Broadcaster.st (fst bl))
  + Z.of_nat (length (Broadcaster.queue (fst bl)))
  + Broadcaster.in_flight (fst bl)
  = Broadcaster.accepted (snd bl).
Proof.
  intros Hmax. cbv zeta.
  set (start := Broadcaster.started reconnect_base reconnect_max max_queue_size).
  set (I := fun b : Broadcaster.t =>
              Broadcaster.max_queue_size b = max_queue_size /\
              Broadcaster.messages_dropped (Broadcaster.st b) = 0).
  assert (Hfull : forall b, Broadcaster.max_queue_size b = max_queue_size ->
                            Broadcaster.full b = false).
  { intros b Hb. unfold Broadcaster.full. rewrite Hb.
    replace (0 <? max_queue_size) with false by (symmetry; apply Z.ltb_ge; lia).
    reflexivity. }
  assert (HI : forall evs' bl, I (fst bl) ->
                 I (fst (Broadcaster.run Broadcaster.extensions evs' bl))).
  { intros evs' bl0. apply state_invariant.
    - intros o b [Hb Hd]. unfold I.
      pose proof (Hfull b Hb) as Hf.
      unfold Broadcaster.worker_step, Broadcaster.on_failure,
        Broadcaster.after_wait, Broadcaster.finish, Broadcaster.get_nowait,
        Broadcaster.put_nowait.
      rewrite Hf.
      destruct (Broadcaster.at_pc b);
        repeat match goal with
               | |- context [if ?g then _ else _] => destruct g eqn:?
               | |- context [match Broadcaster.queue ?x with _ => _ end] =>
                   destruct (Broadcaster.queue x) eqn:?
               end; simpl; auto.
    - intros m b [Hb Hd]. unfold I.
      destruct (broadcast_cases m b) as [->|[[Hf _]|[_ ->]]]; simpl; auto.
      rewrite (Hfull b Hb) in Hf. discriminate.
    - intros r k s h b Hi. exact Hi. }
  assert (Hover : forall evs' bl, I (fst bl) ->
            Broadcaster.overflowed
              (snd (Broadcaster.run Broadcaster.extensions evs' bl))
            = Broadcaster.overflowed (snd bl)).
  { induction evs' as [|ev evs' IH]; intros bl0 Hi; [reflexivity|].
    simpl. rewrite IH.
    - destruct bl0 as [b l]. destruct ev as [m|flush during|o]; simpl; try reflexivity.
      destruct Hi as [Hb _]. simpl in Hb.
      destruct (Broadcaster.running b) eqn:Hr.
      + rewrite (broadcast_room m b Hr (Hfull b Hb)). reflexivity.
      + rewrite (broadcast_stopped m b Hr). reflexivity.
    - apply (HI [ev] bl0 Hi). }
  assert (Hstart : I (fst start)) by (unfold I; simpl; auto).
  destruct (HI evs start Hstart) as [_ Hd].
  split; [exact Hd|].
  pose proof (every_message_accounted_balance Broadcaster.extensions evs start
                eq_refl) as Hbal.
  specialize (Hover evs start Hstart). simpl in Hover.
  unfold Broadcaster.balanced, Broadcaster.accounted in Hbal.
  rewrite Hover, Hd in Hbal. lia.
Qed.

(** A send that fails with an unbounded queue: the message goes back to the
    queue. *)
Lemma unbounded_queue_never_drops_witness :
  0 <= 0 /\
  let bl := Broadcaster.run Broadcaster.extensions
              [Broadcaster.EvWorker Broadcaster.accepting;
               Broadcaster.EvBroadcast (Json.Int 1);
               Broadcaster.EvWorker Broadcaster.accepting;
               Broadcaster.EvWorker Broadcaster.accepting;
               Broadcaster.EvWorker Broadcaster.refusing]
              (Broadcaster.started 5 60 0) in
  Broadcaster.messages_dropped (Broadcaster.st (fst bl)) = 0 /\
  Broadcaster.messages_sent (Broadcaster.st (fst bl))
  + Z.of_nat (length (Broadcaster.queue (fst bl)))
  + Broadcaster.in_flight (fst bl)
  = Broadcaster.accepted (snd bl).
Proof.
  assert (H : 0 <= 0) by lia. split; [exact H|].
  exact (unbounded_queue_never_drops 5 60 0
           [Broadcaster.EvWorker Broadcaster.accepting;
            Broadcaster.EvBroadcast (Json.Int 1);
            Broadcaster.EvWorker Broadcaster.accepting;
            Broadcaster.EvWorker Broadcaster.accepting;
            Broadcaster.EvWorker Broadcaster.refusing] H).
Defined.

(** ** Draining the queue *)

Section DrainFacts.

Import Broadcaster BroadcasterLoops.

Variable c : copy.

Lemma worker_steps_app (os1 os2 : list oracle) (b : t) :
  worker_steps c (os1 ++ os2) b
  = (fst (worker_steps c os2 (fst (worker_steps c os1 b))),
     snd (worker_steps c os1 b)
     ++ snd (worker_steps c os2 (fst (worker_steps c os1 b)))).
Proof.
  revert b. induction os1 as [|o os1 IH]; intros b; simpl.
  - now destruct (worker_steps c os2 b).
  - destruct (worker_step c o b) as [b1 e1]. rewrite IH.
    destruct (worker_steps c os1 b1) as [b2 e2]. simpl.
    now rewrite app_assoc.
Qed.

(** From the guard of the batch loop, a network that accepts every send
    gets the whole queue out, in order. *)
Lemma drain_from_batch (q : list Json.t) :
  forall (b : t) (k : Z),
    at_pc b = BatchHead k -> draining b -> queue b = q ->
    exists n,
      let done := worker_steps c (replicate n accepting) b in
      sent_frames (snd done) = q /\
      queue (fst done) = [] /\
      at_pc (fst done) = SessionHead /\
      draining (fst done) /\
      messages_sent (st (fst done))
        = messages_sent (st b) + Z.of_nat (length q) /\
      messages_dropped (st (fst done)) = messages_dropped (st b).
Proof.
  induction q as [|m q IH]; intros b k Hpc [Hrun Hstop] Hq.
  - exists 1%nat. simpl. unfold worker_step, get_nowait.
    rewrite Hpc, Hq. destruct (k <? max_batch); simpl;
      repeat split; auto; lia.
  - assert (Hsend : forall b1 k1,
              at_pc b1 = BatchHead k1 -> (k1 <? max_batch) = true ->
              draining b1 -> queue b1 = m :: q ->
              exists n,
                let done := worker_steps c (replicate n accepting) b1 in
                sent_frames (snd done) = m :: q /\
                queue (fst done) = [] /\
                at_pc (fst done) = SessionHead /\
                draining (fst done) /\
                messages_sent (st (fst done))
                  = messages_sent (st b1) + Z.of_nat (length (m :: q)) /\
                messages_dropped (st (fst done)) = messages_dropped (st b1)).
    { intros b1 k1 Hpc1 Hk1 [Hrun1 Hstop1] Hq1.
      set (b2 := set_pc (Sending k1 m) (set_queue q b1)).
      set (b3 := set_pc (BatchHead (k1 + 1)) (set_stats (incr_sent (st b2)) b2)).
      destruct (IH b3 (k1 + 1)) as (n & Hn); [reflexivity|split; assumption|reflexivity|].
      exists (2 + n)%nat.
      rewrite replicate_add, worker_steps_app.
      assert (Htwo : worker_steps c (replicate 2 accepting) b1 = (b3, [Sent m])).
      { simpl. unfold worker_step at 1, get_nowait. rewrite Hpc1, Hk1, Hq1.
        fold b2. unfold worker_step. simpl. reflexivity. }
      rewrite Htwo. cbv zeta in *. simpl fst in *. simpl snd in *.
      destruct Hn as (H1 & H2 & H3 & H4 & H5 & H6).
      repeat split; try apply H4; auto;
        try (simpl; now rewrite H1);
        try (rewrite H5; simpl length; simpl; lia). }
    destruct (k <? max_batch) eqn:Hk; [now apply (Hsend b k)|].
    (* the batch is full: a pause, and the next batch starts *)
    set (b1 := set_pc (BatchHead 0) (set_pc SessionHead b)).
    destruct (Hsend b1 0) as (n & Hn);
      [reflexivity|reflexivity|split; assumption|exact Hq|].
    exists (2 + n)%nat.
    rewrite replicate_add, worker_steps_app.
    assert (Htwo : worker_steps c (replicate 2 accepting) b = (b1, [PollSleep])).
    { simpl. unfold worker_step at 1. rewrite Hpc, Hk.
      unfold worker_step. simpl. rewrite Hrun, Hstop. reflexivity. }
    rewrite Htwo. cbv zeta in *. simpl fst in *. simpl snd in *.
    exact Hn.
Qed.

End DrainFacts.

(** X12. With a connection that accepts every send, a worker that is
    connected, running and idle sends the whole queue: after enough steps
    every queued message has gone out exactly once, oldest first, the queue
    is empty, [messages_sent] has grown by the number of messages and
    nothing was dropped. This holds in either copy and across batches of
    50. *)
Theorem idle_worker_drains_the_queue
    (c : Broadcaster.copy) (b : Broadcaster.t) :
  Broadcaster.at_pc b = Broadcaster.SessionHead ->
  Broadcaster.running b = true -> Broadcaster.stop_event b = false ->
  exists n,
    let done :=
      Broadcaster.worker_steps c (replicate n Broadcaster.accepting) b in
    Broadcaster.sent_frames (snd done) = Broadcaster.queue b /\
    Broadcaster.queue (fst done) = [] /\
    Broadcaster.at_pc (fst done) = Broadcaster.SessionHead /\
    Broadcaster.messages_sent (Broadcaster.st (fst done))
      = Broadcaster.messages_sent (Broadcaster.st b)
        + Z.of_nat (length (Broadcaster.queue b)) /\
    Broadcaster.messages_dropped (Broadcaster.st (fst done))
      = Broadcaster.messages_dropped (Broadcaster.st b).
Proof.
  intros Hpc Hrun Hstop.
  set (b1 := Broadcaster.set_pc (Broadcaster.BatchHead 0) b).
  destruct (drain_from_batch c (Broadcaster.queue b) b1 0)
    as (n & Hn); [reflexivity|split; assumption|reflexivity|].
  exists (1 + n)%nat.
  rewrite replicate_add, worker_steps_app.
  assert (Hone : Broadcaster.worker_steps c (replicate 1 Broadcaster.accepting) b
                 = (b1, [])).
  { simpl. unfold Broadcaster.worker_step. rewrite Hpc, Hrun, Hstop. reflexivity. }
  rewrite Hone. cbv zeta in *. simpl fst in *. simpl snd in *.
  destruct Hn as (H1 & H2 & H3 & _ & H5 & H6). auto.
Qed.

(** Sixty messages, more than one batch. *)
Lemma idle_worker_drains_the_queue_witness :
  let b :=
    Broadcaster.set_queue (map Json.Int (map Z.of_nat (seq 0 60)))
      (fst (Broadcaster.worker_step Broadcaster.extensions Broadcaster.accepting
              (fst (Broadcaster.started 5 60 1000)))) in
  Broadcaster.at_pc b = Broadcaster.SessionHead /\
  Broadcaster.running b = true /\ Broadcaster.stop_event b = false /\
  exists n,
    let done :=
      Broadcaster.worker_steps Broadcaster.extensions
        (replicate n Broadcaster.accepting) b in
    Broadcaster.sent_frames (snd done) = Broadcaster.queue b /\
    Broadcaster.queue (fst done) = [] /\
    Broadcaster.at_pc (fst done) = Broadcaster.SessionHead /\
    Broadcaster.messages_sent (Broadcaster.st (fst done))
      = Broadcaster.messages_sent (Broadcaster.st b)
        + Z.of_nat (length (Broadcaster.queue b)) /\
    Broadcaster.messages_dropped (Broadcaster.st (fst done))
      = Broadcaster.messages_dropped (Broadcaster.st b).
Proof.
  intros b.
  assert (Hpc : Broadcaster.at_pc b = Broadcaster.SessionHead) by reflexivity.
  assert (Hrun : Broadcaster.running b = true) by reflexivity.
  assert (Hstop : Broadcaster.stop_event b = false) by reflexivity.
  split; [exact Hpc|]. split; [exact Hrun|]. split; [exact Hstop|].
  exact (idle_worker_drains_the_queue Broadcaster.extensions b Hpc Hrun Hstop).
Defined.

(** ** Heartbeats over a whole connection *)

Section LoopFacts.

Import Broadcaster BroadcasterLoops.

Lemma receive_frame_counts (loads : string -> res Json.t) (message : string)
    (b : t) :
  object_or_not_json loads message = true ->
  receive_frame loads message b
  = (Ok tt,
     if is_pong loads message
     then set_stats (incr_heartbeats_received (st b)) b else b).
Proof.
  unfold object_or_not_json, is_pong, receive_frame.
  destruct (loads message) as [[| | | | | |kv]|[]]; try discriminate; intros _;
    [|reflexivity].
  simpl.
  destruct (is_str (default Json.Null (Json.assoc "topic" kv)) "heartbeat");
    [|reflexivity].
  simpl.
  destruct (is_str (default Json.Null (Json.assoc "type" kv)) "pong");
    reflexivity.
Qed.

End LoopFacts.

(** X13. Over a whole run of [_heartbeat_loop], [heartbeats_sent] grows by
    exactly the number of frames that went out, every frame that went out
    is a ping carrying the clock read for it, and the loop touches neither
    the queue nor the message counters. *)
Theorem heartbeat_loop_counts_its_pings
    (turns : list (Q * bool * Q)) (b : Broadcaster.t) :
  let done := BroadcasterLoops._heartbeat_loop turns b in
  Broadcaster.heartbeats_sent (Broadcaster.st (fst done))
    = Broadcaster.heartbeats_sent (Broadcaster.st b)
      + Z.of_nat (length (Broadcaster.sent_frames (snd done))) /\
  Forall (fun frame => exists now, In now (map (fun t => fst (fst t)) turns) /\
                                   frame = Broadcaster.heartbeat_msg now)
    (Broadcaster.sent_frames (snd done)) /\
  Broadcaster.queue (fst done) = Broadcaster.queue b /\
  Broadcaster.messages_sent (Broadcaster.st (fst done))
    = Broadcaster.messages_sent (Broadcaster.st b) /\
  Broadcaster.messages_dropped (Broadcaster.st (fst done))
    = Broadcaster.messages_dropped (Broadcaster.st b).
Proof.
  cbv zeta. revert b.
  induction turns as [|[[now ok] now'] turns IH]; intros b.
  - simpl. repeat split; auto; lia.
  - simpl. unfold Broadcaster._heartbeat_iteration.
    destruct (Broadcaster.running b && negb (Broadcaster.stop_event b));
      [|simpl; repeat split; auto; lia].
    destruct ok; [|simpl; repeat split; auto; lia].
    specialize (IH (Broadcaster.set_stats
                      (Broadcaster.note_heartbeat_sent now' (Broadcaster.st b)) b)).
    destruct (BroadcasterLoops._heartbeat_loop turns _) as [b2 e2].
    simpl in *. destruct IH as (H1 & H2 & H3 & H4 & H5).
    repeat split; auto; try lia.
    constructor; [exists now; auto|].
    eapply Forall_impl; [exact H2|].
    intros frame (t & Ht & ->). exists t. auto.
Qed.

(** X14. When every incoming frame is a JSON object or is not JSON at
    all, [_receive_loop] reads all of them, [heartbeats_received] grows by
    exactly the number of pong frames among them, and nothing else
    changes. *)
Theorem receive_loop_counts_the_pongs
    (loads : string -> res Json.t) (frames : list string) (b : Broadcaster.t) :
  Forall (fun message => BroadcasterLoops.object_or_not_json loads message = true)
    frames ->
  let done := Broadcaster._receive_loop loads frames b in
  fst done = Broadcaster.Exhausted /\
  Broadcaster.heartbeats_received (Broadcaster.st (snd done))
    = Broadcaster.heartbeats_received (Broadcaster.st b)
      + Z.of_nat (length (filter (fun message =>
                                    BroadcasterLoops.is_pong loads message = true)
                            frames)) /\
  Broadcaster.heartbeats_sent (Broadcaster.st (snd done))
    = Broadcaster.heartbeats_sent (Broadcaster.st b) /\
  Broadcaster.messages_sent (Broadcaster.st (snd done))
    = Broadcaster.messages_sent (Broadcaster.st b) /\
  Broadcaster.queue (snd done) = Broadcaster.queue b.
Proof.
  intros Hall. cbv zeta. revert b.
  induction Hall as [|message frames Hm Hall IH]; intros b.
  - simpl. repeat split; lia.
  - simpl. rewrite (receive_frame_counts loads message b Hm).
    rewrite filter_cons.
    destruct (BroadcasterLoops.is_pong loads message) eqn:Hp.
    + destruct (IH (Broadcaster.set_stats
                      (Broadcaster.incr_heartbeats_received (Broadcaster.st b)) b))
        as (H1 & H2 & H3 & H4 & H5).
      rewrite decide_True by reflexivity.
      repeat split; auto. rewrite H2. simpl. lia.
    + destruct (IH b) as (H1 & H2 & H3 & H4 & H5).
      rewrite decide_False by discriminate.
      repeat split; auto.
Qed.

Lemma receive_loop_counts_the_pongs_witness :
  let frames := [Broadcaster.pong_text; "not json"; Broadcaster.pong_text] in
  let b := fst (Broadcaster.started 5 60 1000) in
  Forall (fun message =>
            BroadcasterLoops.object_or_not_json Broadcaster.loads_on_examples
              message = true) frames /\
  Broadcaster.heartbeats_received
    (Broadcaster.st
       (snd (Broadcaster._receive_loop Broadcaster.loads_on_examples frames b)))
  = 2.
Proof.
  intros frames b.
  assert (Hall : Forall (fun message =>
            BroadcasterLoops.object_or_not_json Broadcaster.loads_on_examples
              message = true) frames).
  { repeat constructor. }
  split; [exact Hall|].
  destruct (receive_loop_counts_the_pongs Broadcaster.loads_on_examples frames b Hall)
    as (_ & Hcount & _).
  exact Hcount.
Defined.

(** ** Delta times *)

Section DeltaFacts.

Import Recorder.



End DeltaFacts.



(** ** Session names and identifiers *)

Section SessionIdFacts.

Import Recorder RecorderApp.

Lemma no_m_head (s : string) :
  contains "m" s = false ->
  match s with
  | EmptyString => True
  | String a s' => a <> "m"%char /\ contains "m" s' = false
  end.
Proof.
  destruct s as [|a s']; [trivial|]. intros H.
  cbn [contains strip_prefix] in H.
  destruct (Ascii.eqb "m" a) eqn:Ha; [discriminate H|].
  split; [|exact H].
  intros ->. now rewrite Ascii.eqb_refl in Ha.
Qed.

Lemma strip_mid_fails (a : ascii) (s : string) :
  contains "m" s = false ->
  strip_prefix ".mid" (String a (s +:+ ".mid")) = None.
Proof.
  intros Hs. cbn [strip_prefix]. destruct (Ascii.eqb "." a); [|reflexivity].
  apply no_m_head in Hs. destruct s as [|b s']; [reflexivity|].
  destruct Hs as [Hb _].
  change (String b s' +:+ ".mid") with (String b (s' +:+ ".mid")).
  cbn [strip_prefix].
  destruct (Ascii.eqb "m" b) eqn:E; [|reflexivity].
  apply Ascii.eqb_eq in E. congruence.
Qed.

Lemma replace_mid_suffix (s : string) :
  forall fuel, contains "m" s = false -> (String.length s < fuel)%nat ->
  replace_fuel fuel ".mid" "" (s +:+ ".mid") = s.
Proof.
  induction s as [|a s IH]; intros fuel Hs Hfuel.
  - destruct fuel as [|fuel]; [lia|]. simpl. now destruct fuel.
  - destruct fuel as [|fuel]; [simpl in Hfuel; lia|].
    pose proof (no_m_head _ Hs) as [Ha Hs'].
    change (String a s +:+ ".mid") with (String a (s +:+ ".mid")).
    cbn [replace_fuel]. rewrite (strip_mid_fails a s Hs').
    rewrite IH; [reflexivity|exact Hs'|simpl in Hfuel; lia].
Qed.

Lemma length_append (s t : string) :
  String.length (s +:+ t) = (String.length s + String.length t)%nat.
Proof. induction s as [|a s IH]; simpl; [reflexivity|now rewrite IH]. Qed.

End SessionIdFacts.

(** X16. The session id is the timestamp of the session: for a timestamp
    without the letter [m], as [strftime("%Y-%m-%d %H.%M.%S")] gives,
    removing [".mid"] from the session name gives the timestamp back, dots
    included. *)
Theorem session_id_is_the_timestamp (stamp : string) :
  RecorderApp.contains "m" stamp = false ->
  Recorder.session_id_of (stamp +:+ ".mid") = stamp.
Proof.
  intros Hs. unfold Recorder.session_id_of, replace.
  apply replace_mid_suffix; [exact Hs|].
  rewrite length_append. simpl. lia.
Qed.

Lemma session_id_is_the_timestamp_witness :
  RecorderApp.contains "m" "2025-01-01 10.00.00" = false /\
  Recorder.session_id_of ("2025-01-01 10.00.00" +:+ ".mid")
  = "2025-01-01 10.00.00".
Proof.
  assert (H : RecorderApp.contains "m" "2025-01-01 10.00.00" = false)
    by reflexivity.
  split; [exact H|]. exact (session_id_is_the_timestamp _ H).
Defined.


(** ** Timeouts and failures in the engine *)

Section EngineEdgeFacts.

Import Recorder.

Lemma midi_message_to_json_returns (ts : string) (msg : Mido.message)
    (session_id : option string) :
  exists o, Converter.midi_message_to_json ts msg session_id = Ok o.
Proof.
  unfold Converter.midi_message_to_json, Converter.note_message_to_json.
  destruct (msg_body msg) as [ch n v|ch n v|ch ct v|ch p|ch p|name]; eauto;
    destruct (midi_note_to_name_returns n) as [nm ->]; simpl; eauto.
Qed.

Lemma emit_returns (m : Json.t) (r : t) : fst (emit m r) = Ok tt.
Proof.
  unfold emit. destruct (broadcaster r) as [b|]; [|reflexivity].
  destruct (Broadcaster.running b) eqn:Hr;
    [destruct (Broadcaster.full b) eqn:Hf|].
  - now rewrite broadcast_full.
  - now rewrite broadcast_room.
  - now rewrite broadcast_stopped.
Qed.

End EngineEdgeFacts.

(** X17. A timeout that fires when the session has already been closed
    does nothing: the second of two timeouts saves no file, broadcasts
    nothing and leaves the engine as it is. *)
Theorem second_timeout_does_nothing (e1 e2 : Recorder.save_env) (r : Recorder.t) :
  Recorder._on_silence_timeout e2 (fst (Recorder._on_silence_timeout e1 r))
  = (fst (Recorder._on_silence_timeout e1 r), []).
Proof.
  pose proof (timeout_closes e1 r) as Hclosed.
  unfold Recorder._on_silence_timeout at 1. now rewrite Hclosed.
Qed.

(** X18. A message whose log line cannot be written is still stored in the
    session with its delta, but it is not broadcast and the silence timer is
    not started again; when the log line is written the timer is started. *)
Theorem log_failure_keeps_the_message
    (e : Recorder.env) (msg : Mido.message) (r : Recorder.t) :
  let opened := fst (Recorder.ensure_session e r) in
  let r' := fst (Recorder.process_midi_message e msg r) in
  is_Some (Recorder.current_log_path opened) ->
  (Recorder.log_append_ok e = false ->
   Recorder.session_messages r'
     = Recorder.session_messages opened
       ++ [Mido.set_time msg
             (Recorder.delta_ticks (Recorder.current_time e)
                (Recorder.last_message_time opened))] /\
   Recorder.silence_timer r' = Recorder.silence_timer opened /\
   Recorder.broadcaster r' = Recorder.broadcaster opened) /\
  (Recorder.log_append_ok e = true -> Recorder.silence_timer r' = true).
Proof.
  cbv zeta. intros [p Hp].
  unfold Recorder.process_midi_message.
  destruct (Recorder.ensure_session e r) as [r1 effs]. simpl in *.
  rewrite Hp. split; intros Hlog; rewrite Hlog; simpl; [auto|].
  destruct (Recorder.broadcaster r1); [|reflexivity].
  match goal with
  | |- context [Converter.midi_message_to_json ?a ?b ?c] =>
      destruct (midi_message_to_json_returns a b c) as [[j|] ->]
  end; [|reflexivity].
  match goal with
  | |- context [Recorder.emit ?m ?x] =>
      pose proof (emit_returns m x) as Hemit;
      destruct (Recorder.emit m x) as [[u|x'] r2]
  end; simpl in *; [reflexivity|discriminate].
Qed.

Lemma log_failure_keeps_the_message_witness :
  let r := fst (Recorder.run
                  [Recorder.EvMessage (Recorder.calm 100) Recorder.middle_c_on]
                  (Recorder.fresh "/data/piano" 30 None None)) in
  let e :=
    {| Recorder.current_time := 1002 # 10;
       Recorder.stale := Recorder.calm_save 100;
       Recorder.year_month := "2025-01";
       Recorder.timestamp := "2025-01-01 10.00.00";
       Recorder.makedirs_ok := true; Recorder.start_clock := 100;
       Recorder.start_clock' := 100; Recorder.log_create_ok := true;
       Recorder.start_ts := "T"; Recorder.log_append_ok := false;
       Recorder.msg_ts := "T" |} in
  is_Some (Recorder.current_log_path (fst (Recorder.ensure_session e r))) /\
  Recorder.log_append_ok e = false /\
  Recorder.session_messages
    (fst (Recorder.process_midi_message e Recorder.middle_c_off r))
  = [Message (note_on 0 60 64) 0; Message (note_off 0 60 0) 192].
Proof.
  intros r e.
  assert (Hlog : is_Some (Recorder.current_log_path
                            (fst (Recorder.ensure_session e r)))) by (simpl; eauto).
  assert (Hfail : Recorder.log_append_ok e = false) by reflexivity.
  split; [exact Hlog|]. split; [exact Hfail|].
  destruct (log_failure_keeps_the_message e Recorder.middle_c_off r) as [H _];
    [exact Hlog|].
  destruct (H Hfail) as (Hmsgs & _). exact Hmsgs.
Defined.

(** X19. When [mid.save] fails the timeout still closes the session: its
    messages are dropped from memory, no file is written and no session end
    is broadcast. *)
Theorem failed_save_discards_the_session (e : Recorder.save_env) (r : Recorder.t) :
  truthy (Recorder.current_session r) = true ->
  Recorder.save_ok e = false ->
  Recorder._on_silence_timeout e r
  = (Recorder.set_session_messages []
       (Recorder.set_session None None None r), []) /\
  Recorder.broadcaster (fst (Recorder._on_silence_timeout e r))
  = Recorder.broadcaster r.
Proof.
  intros Hopen Hsave.
  assert (Hs : Recorder._save_current_session e r = (r, [])).
  { unfold Recorder._save_current_session. rewrite Hsave.
    destruct (Recorder.session_messages r); destruct (Recorder.current_session r);
      try reflexivity.
    destruct (String.eqb s ""); reflexivity. }
  unfold Recorder._on_silence_timeout. rewrite Hopen, Hs. split; reflexivity.
Qed.

Lemma failed_save_discards_the_session_witness :
  let r := fst (Recorder.run
                  [Recorder.EvMessage (Recorder.calm 100) Recorder.middle_c_on]
                  (Recorder.fresh "/data/piano" 30 None None)) in
  let e :=
    {| Recorder.save_ok := false; Recorder.log_exists := true;
       Recorder.log_remove_ok := true; Recorder.end_clock := 131;
       Recorder.rel_path := "2025-01/2025-01-01 10.00.00.mid";
       Recorder.end_fs := {| Os.files := ∅; Os.readonly := ∅ |};
       Recorder.end_ts := "T" |} in
  truthy (Recorder.current_session r) = true /\
  Recorder.save_ok e = false /\
  Recorder.session_messages (fst (Recorder._on_silence_timeout e r)) = [] /\
  snd (Recorder._on_silence_timeout e r) = [].
Proof.
  intros r e.
  assert (Hopen : truthy (Recorder.current_session r) = true) by reflexivity.
  assert (Hsave : Recorder.save_ok e = false) by reflexivity.
  split; [exact Hopen|]. split; [exact Hsave|].
  destruct (failed_save_discards_the_session e r Hopen Hsave) as [Heq _].
  rewrite Heq. split; reflexivity.
Defined.

(** ** What the engine broadcasts *)

Section BroadcastOrderFacts.

Import Recorder RecorderReadings.

Lemma room_not_full (n : Z) (b : Broadcaster.t) :
  0 < n -> room_for n b -> Broadcaster.full b = false.
Proof.
  intros Hn [Hmax|Hlen]; unfold Broadcaster.full.
  - replace (0 <? Broadcaster.max_queue_size b) with false
      by (symmetry; apply Z.ltb_ge; lia). reflexivity.
  - replace (Broadcaster.max_queue_size b
             <=? Z.of_nat (length (Broadcaster.queue b))) with false
      by (symmetry; apply Z.leb_gt; lia). apply andb_false_r.
Qed.

Lemma emit_appends (m : Json.t) (r : t) (b : Broadcaster.t) :
  broadcaster r = Some b -> Broadcaster.running b = true ->
  Broadcaster.full b = false ->
  emit m r
  = (Ok tt,
     set_broadcaster (Some (Broadcaster.set_queue (Broadcaster.queue b ++ [m]) b)) r).
Proof.
  intros Hb Hrun Hfull. unfold emit. rewrite Hb.
  now rewrite (broadcast_room m b Hrun Hfull).
Qed.

(** Reduction of the record projections through the field updates. *)
Ltac fields :=
  cbn [fst snd
       Recorder.base_output_dir Recorder.silence_timeout
       Recorder.current_session Recorder.current_session_path
       Recorder.current_log_path Recorder.session_messages
       Recorder.last_message_time Recorder.silence_timer
       Recorder._current_device_name Recorder._session_start_time
       Recorder.broadcaster Recorder.set_broadcaster Recorder.set_session
       Recorder.set_session_messages Recorder.set_clocks
       Recorder.set_silence_timer Recorder._reset_silence_timer negb] in *.

(** A message processed without failure, with a broadcaster that takes it,
    goes to the end of the broadcaster's queue. *)
Lemma process_broadcasts (e : env) (msg : Mido.message) (r : t)
    (b1 : Broadcaster.t) (j : Json.t) :
  is_Some (current_log_path (fst (ensure_session e r))) ->
  log_append_ok e = true ->
  broadcaster (fst (ensure_session e r)) = Some b1 ->
  Broadcaster.running b1 = true -> Broadcaster.full b1 = false ->
  Converter.midi_message_to_json (msg_ts e)
    (Mido.set_time msg
       (delta_ticks (current_time e)
          (last_message_time (fst (ensure_session e r)))))
    (if truthy (current_session (fst (ensure_session e r)))
     then option_map session_id_of (current_session (fst (ensure_session e r)))
     else None) = Ok (Some j) ->
  broadcaster (fst (process_midi_message e msg r))
  = Some (Broadcaster.set_queue (Broadcaster.queue b1 ++ [j]) b1).
Proof.
  unfold process_midi_message.
  destruct (ensure_session e r) as [r1 effs]. fields.
  intros [p Hp] Hlog Hb Hrun Hfull Hj.
  rewrite Hp, Hlog, Hb. fields. rewrite Hj.
  match goal with
  | |- context [emit ?m ?x] => rewrite (emit_appends m x b1 Hb Hrun Hfull)
  end.
  reflexivity.
Qed.

(** Opening a session, when nothing fails, puts the session start in the
    broadcaster's queue. *)
Lemma ensure_session_announces (e : env) (r : t) (b : Broadcaster.t) :
  truthy (current_session r) = false ->
  makedirs_ok e = true -> log_create_ok e = true ->
  broadcaster r = Some b -> Broadcaster.running b = true ->
  Broadcaster.full b = false ->
  broadcaster (fst (ensure_session e r))
  = Some (Broadcaster.set_queue
            (Broadcaster.queue b
             ++ [Converter.create_session_start_message (start_ts e)
                   (session_id_of (timestamp e +:+ ".mid"))
                   (device_or_unknown r)]) b).
Proof.
  intros Hclosed Hmk Hcreate Hb Hrun Hfull.
  unfold ensure_session, start_new_session.
  rewrite Hclosed, Hmk, Hcreate. fields.
  match goal with
  | |- context [emit ?m ?x] => rewrite (emit_appends m x b Hb Hrun Hfull)
  end.
  reflexivity.
Qed.

End BroadcastOrderFacts.

(** X20. The first message of a session is announced after the session:
    when no session is open and nothing fails, processing a recorded message
    appends two messages to the broadcaster's queue, first the session start
    with the session id and the device name, then the envelope of the
    message, stamped with that session id. *)
Theorem session_start_is_queued_first
    (e : Recorder.env) (msg : Mido.message) (r : Recorder.t)
    (b : Broadcaster.t) :
  truthy (Recorder.current_session r) = false ->
  Recorder.makedirs_ok e = true -> Recorder.log_create_ok e = true ->
  Recorder.log_append_ok e = true ->
  Recorder.broadcaster r = Some b -> Broadcaster.running b = true ->
  RecorderReadings.room_for 2 b ->
  RecorderApp.recorded msg = true -> RecorderApp.well_typed msg ->
  let session_id := Recorder.session_id_of (Recorder.timestamp e +:+ ".mid") in
  let stamped :=
    Mido.set_time msg
      (Recorder.delta_ticks (Recorder.current_time e)
         (Some (Recorder.start_clock e))) in
  exists j,
    Converter.midi_message_to_json (Recorder.msg_ts e) stamped (Some session_id)
      = Ok (Some j) /\
    RecorderReadings.outbox (fst (Recorder.process_midi_message e msg r))
    = Broadcaster.queue b
      ++ [Converter.create_session_start_message (Recorder.start_ts e)
            session_id (RecorderReadings.device_or_unknown r);
          j].
Proof.
  intros Hclosed Hmk Hcreate Happend Hb Hrun Hroom Hrec Hwt. cbv zeta.
  set (session_id := Recorder.session_id_of (Recorder.timestamp e +:+ ".mid")).
  set (stamped := Mido.set_time msg _).
  destruct (recorded_message_has_an_envelope (Recorder.msg_ts e)
              (Some session_id) stamped Hwt Hrec) as (j & Hj).
  exists j. split; [exact Hj|].
  assert (Hfull1 : Broadcaster.full b = false)
    by (apply (room_not_full 2); [lia|exact Hroom]).
  set (start_message :=
         Converter.create_session_start_message (Recorder.start_ts e) session_id
           (RecorderReadings.device_or_unknown r)).
  set (b1 := Broadcaster.set_queue (Broadcaster.queue b ++ [start_message]) b).
  assert (Hfull2 : Broadcaster.full b1 = false).
  { apply (room_not_full 1); [lia|].
    destruct Hroom as [Hmax|Hlen]; [left; exact Hmax|right].
    unfold b1. simpl. rewrite length_app. simpl. lia. }
  pose proof (ensure_session_announces e r b Hclosed Hmk Hcreate Hb Hrun Hfull1)
    as Hb1.
  destruct (ensure_session_cases e r)
    as [[Hopen _]|[(_ & Hno & _)|(_ & _ & Hname & _ & Hlast & Hlog)]];
    try congruence.
  unfold RecorderReadings.outbox.
  rewrite (process_broadcasts e msg r b1 j Hlog Happend Hb1 Hrun Hfull2).
  - simpl. now rewrite <- app_assoc.
  - rewrite Hname, Hlast, mid_name_truthy. exact Hj.
Qed.

Lemma session_start_is_queued_first_witness :
  let r := fst RecorderReadings.broadcasting in
  let e := Recorder.calm 100 in
  exists b j,
    Recorder.broadcaster r = Some b /\
    Broadcaster.running b = true /\ RecorderReadings.room_for 2 b /\
    RecorderApp.recorded Recorder.middle_c_on = true /\
    Converter.midi_message_to_json (Recorder.msg_ts e) Recorder.middle_c_on
      (Some "2025-01-01 10.00.00") = Ok (Some j) /\
    RecorderReadings.outbox
      (fst (Recorder.process_midi_message e Recorder.middle_c_on r))
    = [Converter.create_session_start_message "2025-01-01T10:00:00.000Z"
         "2025-01-01 10.00.00" "Digital Keyboard";
       j].
Proof.
  intros r e.
  exists (fst (Broadcaster.started 5 60 1000)).
  assert (Hroom : RecorderReadings.room_for 2 (fst (Broadcaster.started 5 60 1000)))
    by (right; simpl; lia).
  destruct (session_start_is_queued_first e Recorder.middle_c_on r
              (fst (Broadcaster.started 5 60 1000))
              eq_refl eq_refl eq_refl eq_refl eq_refl eq_refl Hroom eq_refl I)
    as (j & Hj & Hout).
  exists j. repeat split; try exact Hroom; [exact Hj|exact Hout].
Defined.

Section SessionEndReportFacts.

Import Recorder RecorderReadings.

Lemma session_end_fields
    (w : Os.fs) (ts session_id : string) (duration : Q) (count : Z)
    (file_path : option string) :
  exists data,
    Json.field "data"
      (fst (Converter.create_session_end_message w ts session_id duration
              count file_path)) = Some data /\
    Json.field "event" data = Some (Json.Str "session_end") /\
    Json.field "sessionId" data = Some (Json.Str session_id) /\
    Json.field "duration" data = Some (Json.Float (round2 duration)) /\
    Json.field "noteCount" data = Some (Json.Int count).
Proof.
  unfold Converter.create_session_end_message.
  destruct file_path as [p|];
    [destruct (Py.ltb duration Converter.MIN_SESSION_DURATION_SECONDS
               && truthy (Some p));
     [destruct (Converter.delete_short_recording w p duration)|]|];
    simpl; eexists; repeat split.
Qed.

End SessionEndReportFacts.

(** X21. The session end that a timeout broadcasts describes the session
    it closes: when the file is saved and the broadcaster takes the
    message, the queue gains one [session_end] message whose [sessionId] is
    the session's, whose [noteCount] is the number of [note_on] and
    [note_off] messages of the session (control messages are not counted)
    and whose [duration] is the time since the session started, rounded to
    hundredths; the MIDI file holds all messages of the session in order. *)
Theorem session_end_describes_the_session
    (e : Recorder.save_env) (r : Recorder.t) (b : Broadcaster.t)
    (name : string) (start : Q) :
  Recorder.current_session r = Some name -> name <> "" ->
  Recorder.session_messages r <> [] ->
  Recorder._session_start_time r = Some start -> ~ (start == 0)%Q ->
  Recorder.save_ok e = true ->
  (Recorder.log_exists e = true -> Recorder.log_remove_ok e = true) ->
  Recorder.broadcaster r = Some b -> Broadcaster.running b = true ->
  Broadcaster.full b = false ->
  exists m data,
    RecorderReadings.outbox (fst (Recorder._on_silence_timeout e r))
    = Broadcaster.queue b ++ [m] /\
    Json.field "data" m = Some data /\
    Json.field "event" data = Some (Json.Str "session_end") /\
    Json.field "sessionId" data = Some (Json.Str (Recorder.session_id_of name)) /\
    Json.field "noteCount" data
      = Some (Json.Int (RecorderReadings.note_count (Recorder.session_messages r))) /\
    Json.field "duration" data
      = Some (Json.Float (round2 (Recorder.end_clock e - start))) /\
    In (Recorder.SavedMidi (Recorder.current_session_path r)
          (Recorder.session_messages r))
       (snd (Recorder._on_silence_timeout e r)).
Proof.
  intros Hname Hne Hmsgs Hstart Hnz Hsave Hlog Hb Hrun Hfull.
  set (duration := (Recorder.end_clock e - start)%Q).
  set (m := fst (Converter.create_session_end_message (Recorder.end_fs e)
                   (Recorder.end_ts e) (Recorder.session_id_of name) duration
                   (RecorderReadings.note_count (Recorder.session_messages r))
                   (Some (Recorder.rel_path e)))).
  destruct (session_end_fields (Recorder.end_fs e) (Recorder.end_ts e)
              (Recorder.session_id_of name) duration
              (RecorderReadings.note_count (Recorder.session_messages r))
              (Some (Recorder.rel_path e)))
    as (data & Hdata & Hevent & Hid & Hdur & Hcount).
  fold m in Hdata.
  exists m, data.
  assert (Htruthy : truthy (Recorder.current_session r) = true).
  { rewrite Hname. now apply truthy_nonempty. }
  assert (Hfloat : Recorder.truthy_float (Some start) = true).
  { simpl. apply negb_true_iff. destruct (Qeq_bool start 0) eqn:E; [|reflexivity].
    apply Qeq_bool_iff in E. contradiction. }
  assert (Hsaved :
    exists effs,
      Recorder._save_current_session e r
      = (Recorder.set_broadcaster
           (Some (Broadcaster.set_queue (Broadcaster.queue b ++ [m]) b)) r,
         Recorder.SavedMidi (Recorder.current_session_path r)
           (Recorder.session_messages r) :: effs)).
  { unfold Recorder._save_current_session.
    destruct (Recorder.session_messages r) as [|m0 rest] eqn:Hm; [congruence|].
    rewrite Hname.
    replace (String.eqb name "") with false
      by (symmetry; now apply String.eqb_neq).
    rewrite Hsave, Hb, Hstart, Hfloat. simpl negb. cbv iota.
    fold duration.
    change (Z.of_nat (length (filter (fun m1 => Mido.is_note m1 = true) (m0 :: rest))))
      with (RecorderReadings.note_count (m0 :: rest)).
    rewrite <- Hm.
    rewrite (emit_appends _ r b Hb Hrun Hfull).
    destruct (truthy (Recorder.current_log_path r) && Recorder.log_exists e) eqn:Hl.
    - apply andb_true_iff in Hl as [_ Hl]. rewrite (Hlog Hl), ?Hm.
      eexists. reflexivity.
    - rewrite ?Hm. eexists. reflexivity. }
  destruct Hsaved as (effs & Hsaved).
  unfold Recorder._on_silence_timeout. rewrite Htruthy, Hsaved.
  unfold RecorderReadings.outbox. simpl.
  repeat split; auto.
Qed.

(** Two notes and a pedal, closed after 31 seconds. *)
Lemma session_end_describes_the_session_witness :
  let r :=
    fst (Recorder.run
           [Recorder.EvMessage (Recorder.calm 100) Recorder.middle_c_on;
            Recorder.EvMessage (Recorder.calm 101)
              (Message (control_change 0 64 127) 0);
            Recorder.EvMessage (Recorder.calm 102) Recorder.middle_c_off]
           RecorderReadings.broadcasting) in
  exists m data,
    Recorder.current_session r = Some "2025-01-01 10.00.00.mid" /\
    RecorderReadings.outbox
      (fst (Recorder._on_silence_timeout (Recorder.calm_save 131) r))
    = RecorderReadings.outbox r ++ [m] /\
    Json.field "data" m = Some data /\
    Json.field "noteCount" data = Some (Json.Int 2) /\
    Json.field "duration" data = Some (Json.Float (3100 # 100)).
Proof.
  intros r.
  assert (Hb : exists b, Recorder.broadcaster r = Some b /\
                         Broadcaster.running b = true /\
                         Broadcaster.full b = false /\
                         RecorderReadings.outbox r = Broadcaster.queue b).
  { vm_compute. eexists. repeat split. }
  destruct Hb as (b & Hb & Hrun & Hfull & Hout).
  assert (Hnz : ~ (100 == 0)%Q) by discriminate.
  assert (Hne : "2025-01-01 10.00.00.mid" <> "") by discriminate.
  assert (Hmsgs : Recorder.session_messages r <> []) by discriminate.
  destruct (session_end_describes_the_session (Recorder.calm_save 131) r b
              "2025-01-01 10.00.00.mid" 100 eq_refl Hne Hmsgs eq_refl Hnz eq_refl
              (fun _ => eq_refl) Hb Hrun Hfull)
    as (m & data & Hq & Hdata & _ & _ & Hcount & Hdur & _).
  exists m, data. split; [reflexivity|].
  split; [now rewrite Hout|]. split; [exact Hdata|].
  split; [exact Hcount|exact Hdur].
Defined.

(** ** Choosing the device, the recording loop, shutdown *)

Section AppFacts.

Import Recorder RecorderApp.

Lemma preferred_nonempty (name : string) : preferred name = true -> name <> "".
Proof. intros H ->. discriminate H. Qed.

Lemma set_device_same_session (d : option string) (r : Recorder.t) :
  same_session r (set_current_device_name d r) /\
  broadcaster (set_current_device_name d r) = broadcaster r.
Proof. unfold same_session. simpl. auto 10. Qed.

(** The first effect of a save that succeeds is the MIDI file, with all
    messages of the session. *)
Lemma save_writes_the_track (e : save_env) (r : Recorder.t) :
  truthy (current_session r) = true -> session_messages r <> [] ->
  save_ok e = true ->
  exists effs,
    snd (_save_current_session e r)
    = SavedMidi (current_session_path r) (session_messages r) :: effs.
Proof.
  intros Hopen Hmsgs Hsave. unfold _save_current_session.
  destruct (session_messages r) as [|m0 rest] eqn:Hm; [congruence|].
  destruct (current_session r) as [name|]; [|discriminate].
  simpl in Hopen. apply negb_true_iff in Hopen. rewrite Hopen, Hsave.
  simpl negb. cbv iota.
  destruct (truthy (current_log_path r) && log_exists e);
    [destruct (log_remove_ok e)|];
    simpl; destruct (broadcaster r); simpl; eauto.
Qed.

(** A broadcaster that has been stopped stays as it is through a save. *)
Lemma emit_stopped (m : Json.t) (r : Recorder.t) :
  (forall b, broadcaster r = Some b -> Broadcaster.running b = false) ->
  broadcaster (snd (emit m r)) = broadcaster r.
Proof.
  intros Hoff. unfold emit.
  destruct (broadcaster r) as [b|] eqn:Hb; [|exact Hb].
  rewrite (broadcast_stopped m b (Hoff b eq_refl)). reflexivity.
Qed.

Lemma save_keeps_a_stopped_broadcaster (e : save_env) (r : Recorder.t) :
  (forall b, broadcaster r = Some b -> Broadcaster.running b = false) ->
  broadcaster (fst (_save_current_session e r)) = broadcaster r.
Proof.
  intros Hoff. unfold _save_current_session.
  destruct (session_messages r); [now destruct (current_session r)|].
  destruct (current_session r) as [name|]; [|reflexivity].
  destruct (String.eqb name ""); [reflexivity|].
  destruct (negb (save_ok e)); [reflexivity|].
  destruct (truthy (current_log_path r) && log_exists e);
    [destruct (log_remove_ok e)|]; cbv zeta; cbn [fst snd]; try reflexivity;
    (destruct (broadcaster r) eqn:Hb; [|exact Hb]);
    cbn [fst]; rewrite <- Hb; apply emit_stopped; rewrite Hb; exact Hoff.
Qed.

(** Looking for the device leaves the session alone. *)
Lemma find_midi_device_session (input_names : list string) (r : Recorder.t) :
  same_session r (snd (find_midi_device input_names r)) /\
  (input_names = [] -> find_midi_device input_names r = (None, r)).
Proof.
  unfold find_midi_device. destruct input_names as [|first rest].
  - split; [apply same_session_refl|reflexivity].
  - split; [apply set_device_same_session|discriminate].
Qed.

(** [stop_recording] clears the flag and keeps the session. *)
Lemma stop_recording_session (c : Broadcaster.copy) (e : save_env)
    (during : list Broadcaster.oracle) (a : RecorderApp.t) :
  is_recording (fst (stop_recording c e during a)) = false /\
  same_session (engine a) (engine (fst (stop_recording c e during a))).
Proof.
  unfold stop_recording.
  set (saved := if truthy (current_session (engine a))
                then _save_current_session e (engine a)
                else (engine a, [])).
  assert (Hsame : same_session (engine a) (fst saved)).
  { unfold saved. destruct (truthy _);
      [apply save_same_session|apply same_session_refl]. }
  destruct saved as [r1 effs]. simpl in *.
  split; [reflexivity|].
  destruct (broadcaster r1); simpl; [|exact Hsame].
  unfold same_session in *. simpl. exact Hsame.
Qed.

End AppFacts.

(** X22. [find_midi_device] returns nothing, and stores nothing, exactly
    when there is no input port; otherwise the device it returns is one of
    the ports and is stored for the broadcasts. The first port whose name
    contains ["Digital Keyboard"], or ["yamaha"] in any case, wins; without
    one, the first port that is neither virtual nor GarageBand wins, if it
    has a name. The session in progress is not touched. *)
Theorem find_midi_device_choice (input_names : list string) (r : Recorder.t) :
  let device := fst (RecorderApp.find_midi_device input_names r) in
  let r' := snd (RecorderApp.find_midi_device input_names r) in
  (input_names = [] -> device = None /\ r' = r) /\
  (input_names <> [] ->
   exists name, device = Some name /\ In name input_names /\
                Recorder._current_device_name r' = Some name) /\
  (forall name, find RecorderApp.preferred input_names = Some name ->
                device = Some name) /\
  (forall name, find RecorderApp.preferred input_names = None ->
                find RecorderApp.non_virtual input_names = Some name ->
                name <> "" -> device = Some name) /\
  Recorder.same_session r r' /\
  Recorder.broadcaster r' = Recorder.broadcaster r.
Proof.
  cbv zeta. unfold RecorderApp.find_midi_device.
  destruct input_names as [|first rest].
  - simpl. repeat split; try congruence; try discriminate;
      try apply same_session_refl.
  - set (names := first :: rest). cbv beta iota zeta.
    assert (Hfirst : In first names) by now left.
    destruct (find RecorderApp.preferred names) as [p|] eqn:Hp.
    + destruct (find_some _ _ Hp) as [Hin Hpref].
      pose proof (truthy_nonempty p (preferred_nonempty p Hpref)) as Ht.
      rewrite !Ht. cbn [negb]. rewrite !Ht. cbn [negb fst snd].
      unfold RecorderApp.set_current_device_name, Recorder.same_session; simpl.
      repeat split; try congruence; try discriminate; eauto 6.
    + cbn [truthy negb].
      destruct (find RecorderApp.non_virtual names) as [n|] eqn:Hn.
      * destruct (find_some _ _ Hn) as [Hin _].
        destruct (truthy (Some n)) eqn:Ht; cbn [negb fst snd];
          unfold RecorderApp.set_current_device_name, Recorder.same_session;
          simpl; repeat split; try congruence; try discriminate; eauto 6.
        intros name _ Hname Hne. injection Hname as <-.
        rewrite (truthy_nonempty n Hne) in Ht. discriminate.
      * cbn [truthy negb fst snd].
        unfold RecorderApp.set_current_device_name, Recorder.same_session; simpl.
        repeat split; try congruence; try discriminate; eauto 6.
Qed.

Lemma find_midi_device_choice_witness :
  let names := ["Virtual Port"; "Yamaha P-125"; "Digital Keyboard"] in
  let r := Recorder.init "/data/piano" 30 None None in
  names <> [] /\
  find RecorderApp.preferred names = Some "Yamaha P-125" /\
  fst (RecorderApp.find_midi_device names r) = Some "Yamaha P-125".
Proof.
  intros names r.
  assert (Hp : find RecorderApp.preferred names = Some "Yamaha P-125")
    by reflexivity.
  split; [discriminate|]. split; [exact Hp|].
  destruct (find_midi_device_choice names r) as (_ & _ & Hfirst & _).
  exact (Hfirst _ Hp).
Defined.

(** X23. The recording loop behaves as if the messages of other types
    (clock, sysex, ...) had never arrived: running it on all incoming
    messages gives the same engine and the same files as running it on the
    recorded ones alone. *)
Theorem unrecorded_messages_change_nothing
    (incoming : list (Recorder.env * Mido.message)) (r : Recorder.t) :
  RecorderApp.record_all incoming r
  = RecorderApp.record_all
      (List.filter (fun em => RecorderApp.recorded (snd em)) incoming) r.
Proof.
  revert r. induction incoming as [|[e msg] rest IH]; intros r; [reflexivity|].
  simpl. destruct (RecorderApp.recorded msg) eqn:Hrec.
  - simpl. rewrite Hrec.
    destruct (Recorder.process_midi_message e msg r) as [r1 e1].
    now rewrite IH.
  - rewrite <- IH. now destruct (RecorderApp.record_all rest r).
Qed.

(** X24. [stop_recording] clears [is_recording] and stops the
    broadcaster, but leaves the session open with its messages: a second
    call, as the signal handler followed by the [finally] clause makes,
    writes the MIDI file of the same session again, while the broadcaster,
    already stopped, takes nothing more. *)
Theorem stop_recording_keeps_the_session
    (c : Broadcaster.copy) (e e' : Recorder.save_env)
    (during during' : list Broadcaster.oracle) (a : RecorderApp.t) :
  let a1 := fst (RecorderApp.stop_recording c e during a) in
  let again := RecorderApp.stop_recording c e' during' a1 in
  RecorderApp.is_recording a1 = false /\
  Recorder.same_session (RecorderApp.engine a) (RecorderApp.engine a1) /\
  (forall b, Recorder.broadcaster (RecorderApp.engine a1) = Some b ->
             Broadcaster.running b = false) /\
  Recorder.broadcaster (RecorderApp.engine (fst again))
    = Recorder.broadcaster (RecorderApp.engine a1) /\
  (truthy (Recorder.current_session (RecorderApp.engine a)) = true ->
   Recorder.session_messages (RecorderApp.engine a) <> [] ->
   Recorder.save_ok e' = true ->
   In (Recorder.SavedMidi
         (Recorder.current_session_path (RecorderApp.engine a))
         (Recorder.session_messages (RecorderApp.engine a)))
      (snd again)).
Proof.
  cbv zeta.
  assert (Hstop : forall e0 d0 a0,
    let a' := fst (RecorderApp.stop_recording c e0 d0 a0) in
    (forall b, Recorder.broadcaster (RecorderApp.engine a') = Some b ->
               Broadcaster.running b = false) /\
    ((forall b, Recorder.broadcaster (RecorderApp.engine a0) = Some b ->
                Broadcaster.running b = false) ->
     Recorder.broadcaster (RecorderApp.engine a')
     = Recorder.broadcaster (RecorderApp.engine a0)) /\
    snd (RecorderApp.stop_recording c e0 d0 a0)
    = (if truthy (Recorder.current_session (RecorderApp.engine a0))
       then snd (Recorder._save_current_session e0 (RecorderApp.engine a0))
       else [])).
  { intros e0 d0 a0. cbv zeta. unfold RecorderApp.stop_recording.
    set (saved := if truthy (Recorder.current_session (RecorderApp.engine a0))
                  then Recorder._save_current_session e0 (RecorderApp.engine a0)
                  else (RecorderApp.engine a0, [])).
    assert (Hbro : (forall b, Recorder.broadcaster (RecorderApp.engine a0) = Some b ->
                              Broadcaster.running b = false) ->
                   Recorder.broadcaster (fst saved)
                   = Recorder.broadcaster (RecorderApp.engine a0)).
    { intros Hoff. unfold saved. destruct (truthy _); [|reflexivity].
      now apply save_keeps_a_stopped_broadcaster. }
    assert (Heffs : snd saved
                    = (if truthy (Recorder.current_session (RecorderApp.engine a0))
                       then snd (Recorder._save_current_session e0
                                   (RecorderApp.engine a0))
                       else [])).
    { unfold saved. now destruct (truthy _). }
    destruct saved as [r1 effs]. cbn [fst snd] in *.
    destruct (Recorder.broadcaster r1) as [b1|] eqn:Hb1; cbn [fst snd].
    - split; [|split; [|exact Heffs]].
      + simpl. intros b Hb. injection Hb as <-. apply stop_clears_running.
      + intros Hoff. specialize (Hbro Hoff). simpl. rewrite <- Hbro.
        symmetry in Hbro.
        unfold Broadcaster.stop. rewrite (Hoff b1 Hbro). reflexivity.
    - split; [|split; [|exact Heffs]].
      + simpl. intros b Hb. rewrite Hb1 in Hb. discriminate.
      + intros Hoff. simpl. rewrite <- (Hbro Hoff). exact Hb1. }
  destruct (stop_recording_session c e during a) as (H1 & H2).
  destruct (Hstop e during a) as (H3 & _ & _).
  destruct (Hstop e' during' (fst (RecorderApp.stop_recording c e during a)))
    as (_ & H4 & H5).
  split; [exact H1|]. split; [exact H2|]. split; [exact H3|].
  split; [exact (H4 H3)|].
  intros Hopen Hmsgs Hsave. rewrite H5.
  destruct H2 as (Hcur & Hpath & _ & Hm & _).
  rewrite Hcur, Hopen.
  destruct (save_writes_the_track e'
              (RecorderApp.engine (fst (RecorderApp.stop_recording c e during a))))
    as (effs & Heffs); [now rewrite Hcur|now rewrite Hm|exact Hsave|].
  rewrite Heffs, Hpath, Hm. now left.
Qed.

Lemma stop_recording_keeps_the_session_witness :
  let a :=
    {| RecorderApp.engine :=
         fst (Recorder.run
                [Recorder.EvMessage (Recorder.calm 100) Recorder.middle_c_on]
                RecorderReadings.broadcasting);
       RecorderApp.is_recording := true |} in
  let again :=
    RecorderApp.stop_recording Broadcaster.extentions (Recorder.calm_save 102) []
      (fst (RecorderApp.stop_recording Broadcaster.extentions
              (Recorder.calm_save 101) [] a)) in
  truthy (Recorder.current_session (RecorderApp.engine a)) = true /\
  Recorder.session_messages (RecorderApp.engine a) <> [] /\
  Recorder.save_ok (Recorder.calm_save 102) = true /\
  In (Recorder.SavedMidi
        (Some "/data/piano/2025-01/2025-01-01 10.00.00.mid")
        [Message (note_on 0 60 64) 0])
     (snd again).
Proof.
  intros a again.
  assert (Hopen : truthy (Recorder.current_session (RecorderApp.engine a)) = true)
    by reflexivity.
  assert (Hmsgs : Recorder.session_messages (RecorderApp.engine a) <> [])
    by discriminate.
  assert (Hsave : Recorder.save_ok (Recorder.calm_save 102) = true) by reflexivity.
  split; [exact Hopen|]. split; [exact Hmsgs|]. split; [exact Hsave|].
  destruct (stop_recording_keeps_the_session Broadcaster.extentions
              (Recorder.calm_save 101) (Recorder.calm_save 102) [] [] a)
    as (_ & _ & _ & _ & Hagain).
  exact (Hagain Hopen Hmsgs Hsave).
Defined.

(** X25. [start_recording] returns [True] exactly when
    [find_midi_device] found a device with a name, also when the port
    could not be opened; when it returns [True] the loop has ended with
    [stop_recording], so [is_recording] is [False], and when the port could
    not be opened no message was processed. *)
Theorem start_recording_reports_the_device
    (c : Broadcaster.copy) (input_names : list string) (open_ok : bool)
    (incoming : list (Recorder.env * Mido.message)) (e : Recorder.save_env)
    (during : list Broadcaster.oracle) (a : RecorderApp.t) :
  let result := RecorderApp.start_recording c input_names open_ok incoming
                  e during a in
  let found := RecorderApp.find_midi_device input_names (RecorderApp.engine a) in
  fst (fst result) = truthy (fst found) /\
  (truthy (fst found) = true -> RecorderApp.is_recording (snd (fst result)) = false) /\
  (input_names = [] -> result = (false, a, [])) /\
  (open_ok = false ->
   Recorder.session_messages (RecorderApp.engine (snd (fst result)))
   = Recorder.session_messages (RecorderApp.engine a)).
Proof.
  cbv zeta. unfold RecorderApp.start_recording.
  destruct (find_midi_device_session input_names (RecorderApp.engine a))
    as (Hsame & Hnil).
  destruct (RecorderApp.find_midi_device input_names (RecorderApp.engine a))
    as [device r] eqn:Hfound.
  simpl fst in *. simpl snd in *.
  destruct (truthy device) eqn:Ht; simpl negb; cbv iota.
  - assert (Hstopped : forall a0,
              RecorderApp.is_recording
                (fst (RecorderApp.stop_recording c e during a0)) = false /\
              Recorder.session_messages
                (RecorderApp.engine (fst (RecorderApp.stop_recording c e during a0)))
              = Recorder.session_messages (RecorderApp.engine a0)).
    { intros a0.
      pose proof (stop_recording_session c e during a0) as (H1 & H2).
      split; [exact H1|apply H2]. }
    destruct open_ok; simpl negb; cbv iota.
    + destruct (RecorderApp.record_all incoming r) as [r' effs].
      destruct (Hstopped {| RecorderApp.engine := r'; RecorderApp.is_recording := true |})
        as [H1 _].
      destruct (RecorderApp.stop_recording c e during _) as [a' effs'].
      simpl in *. repeat split; auto; try discriminate.
      intros Hn. specialize (Hnil Hn). injection Hnil as -> ->. discriminate.
    + destruct (Hstopped {| RecorderApp.engine := r;
                            RecorderApp.is_recording := RecorderApp.is_recording a |})
        as [H1 H2].
      destruct (RecorderApp.stop_recording c e during _) as [a' effs'].
      simpl in *. repeat split; auto.
      * intros Hn. specialize (Hnil Hn). injection Hnil as -> ->. discriminate.
      * intros _. rewrite H2. apply Hsame.
  - simpl. repeat split; auto; try discriminate.
    + intros Hn. specialize (Hnil Hn). injection Hnil as _ ->. now destruct a.
    + intros _. apply Hsame.
Qed.

(** ** The configuration file *)

Section ConfigFacts.

Import Config.

Lemma assoc_app (k : string) (a b : list (string * Json.t)) :
  Json.assoc k (a ++ b)
  = match Json.assoc k a with Some v => Some v | None => Json.assoc k b end.
Proof.
  induction a as [|[k' v] a IH]; [reflexivity|].
  simpl. now destruct (String.eqb k k').
Qed.

Lemma assoc_overridden (k : string) (a b : list (string * Json.t)) :
  Json.assoc k
    (map (fun kv => (fst kv, default (snd kv) (Json.assoc (fst kv) b))) a)
  = match Json.assoc k a with
    | Some v => Some (default v (Json.assoc k b))
    | None => None
    end.
Proof.
  induction a as [|[k' v] a IH]; [reflexivity|].
  simpl. destruct (String.eqb k k') eqn:Hk; [|exact IH].
  apply String.eqb_eq in Hk. now subst.
Qed.

Lemma assoc_only_new (k : string) (a b : list (string * Json.t)) :
  Json.assoc k a = None ->
  Json.assoc k (filter (fun kv => has_key (fst kv) a = false) b)
  = Json.assoc k b.
Proof.
  intros Ha. induction b as [|[k' v] b IH]; [reflexivity|].
  rewrite filter_cons. simpl.
  destruct (String.eqb k k') eqn:Hk.
  - apply String.eqb_eq in Hk. subst k'.
    destruct (decide (has_key k a = false)) as [_|Hno].
    + simpl. now rewrite String.eqb_refl.
    + exfalso. apply Hno. unfold has_key. now rewrite Ha.
  - destruct (decide (has_key k' a = false)); [|exact IH].
    simpl. now rewrite Hk.
Qed.

(** [{**a, **b}[k]] is [b[k]] where [b] has the key, else [a[k]]. *)
Lemma assoc_merge (k : string) (a b : list (string * Json.t)) :
  Json.assoc k (merge a b)
  = match Json.assoc k b with Some v => Some v | None => Json.assoc k a end.
Proof.
  unfold merge. rewrite assoc_app, assoc_overridden.
  destruct (Json.assoc k a) as [va|] eqn:Ha.
  - now destruct (Json.assoc k b).
  - rewrite (assoc_only_new k a b Ha). now destruct (Json.assoc k b).
Qed.

Lemma assoc_set_key (k k' : string) (v : Json.t) (d : list (string * Json.t)) :
  Json.assoc k (set_key k' v d)
  = if String.eqb k k'
    then (if has_key k' d then Some v else None)
    else Json.assoc k d.
Proof.
  unfold has_key. induction d as [|[k0 v0] d IH].
  - simpl. now destruct (String.eqb k k').
  - simpl. destruct (String.eqb k0 k') eqn:H0.
    + apply String.eqb_eq in H0. subst k0. simpl.
      rewrite String.eqb_refl. now destruct (String.eqb k k').
    + simpl. destruct (String.eqb k k') eqn:Hk.
      * apply String.eqb_eq in Hk. subst k.
        rewrite String.eqb_sym, H0. exact IH.
      * destruct (String.eqb k k0); [reflexivity|]. exact IH.
Qed.

End ConfigFacts.

(** X26. For a [config.yml] that holds a mapping, or nothing, whose
    [websocket] entry, if there is one, is a mapping too, [load_config]
    returns the file's value for every key the file sets and the default
    for the others, and the same holds one level down inside [websocket]:
    a file that sets only [websocket.enabled] keeps the default host, port
    and path. *)
Theorem load_config_overrides_the_defaults
    (loaded : Json.t) (file_kv : list (string * Json.t)) :
  loaded = Json.Obj file_kv \/ (loaded = Json.Null /\ file_kv = []) ->
  (forall v, Json.assoc "websocket" file_kv = Some v -> exists ws, v = Json.Obj ws) ->
  let config := Config.load_config (Some (Ok loaded)) in
  (forall k, k <> "websocket" ->
     Json.assoc k config
     = match Json.assoc k file_kv with
       | Some v => Some v
       | None => Json.assoc k Config.default_config
       end) /\
  exists ws,
    Json.assoc "websocket" config = Some (Json.Obj ws) /\
    forall k,
      Json.assoc k ws
      = match Json.assoc "websocket" file_kv with
        | Some (Json.Obj file_ws) =>
            match Json.assoc k file_ws with
            | Some v => Some v
            | None => Json.assoc k Config.default_websocket
            end
        | _ => Json.assoc k Config.default_websocket
        end.
Proof.
  intros Hloaded Hws. cbv zeta.
  assert (Hcfg : Config.load_config (Some (Ok loaded))
                 = match Json.assoc "websocket" file_kv with
                   | Some (Json.Obj ws) =>
                       Config.set_key "websocket"
                         (Json.Obj (Config.merge Config.default_websocket ws))
                         (Config.merge Config.default_config file_kv)
                   | Some _ => Config.default_config
                   | None => Config.merge Config.default_config file_kv
                   end).
  { unfold Config.load_config.
    destruct Hloaded as [->|[-> ->]]; [|reflexivity].
    simpl Config.truthy_value. now destruct file_kv. }
  rewrite Hcfg. clear Hcfg.
  destruct (Json.assoc "websocket" file_kv) as [v|] eqn:Hv.
  - destruct (Hws v eq_refl) as [ws ->]. split.
    + intros k Hk. rewrite assoc_set_key.
      destruct (String.eqb k "websocket") eqn:Hkw;
        [apply String.eqb_eq in Hkw; contradiction|].
      apply assoc_merge.
    + exists (Config.merge Config.default_websocket ws). split.
      * rewrite assoc_set_key. simpl String.eqb. cbv iota.
        unfold Config.has_key. rewrite assoc_merge, Hv. reflexivity.
      * intros k. apply assoc_merge.
  - split.
    + intros k Hk. apply assoc_merge.
    + exists Config.default_websocket. split.
      * rewrite assoc_merge, Hv. reflexivity.
      * reflexivity.
Qed.

Lemma load_config_overrides_the_defaults_witness :
  let file_kv :=
    [("websocket", Json.Obj [("enabled", Json.Bool true)]);
     ("silence_timeout", Json.Int 45)] in
  let config := Config.load_config (Some (Ok (Json.Obj file_kv))) in
  Json.assoc "silence_timeout" config = Some (Json.Int 45) /\
  exists ws,
    Json.assoc "websocket" config = Some (Json.Obj ws) /\
    Json.assoc "enabled" ws = Some (Json.Bool true) /\
    Json.assoc "port" ws = Some (Json.Int 3112).
Proof.
  intros file_kv config.
  assert (Hloaded : Json.Obj file_kv = Json.Obj file_kv \/
                    (Json.Obj file_kv = Json.Null /\ file_kv = []))
    by (left; reflexivity).
  assert (Hws : forall v, Json.assoc "websocket" file_kv = Some v ->
                          exists ws, v = Json.Obj ws).
  { intros v Hv. injection Hv as <-. eexists. reflexivity. }
  destruct (load_config_overrides_the_defaults (Json.Obj file_kv) file_kv
              Hloaded Hws) as (Hkeys & ws & Hsection & Hinside).
  split.
  - exact (Hkeys "silence_timeout" ltac:(discriminate)).
  - exists ws. split; [exact Hsection|]. split.
    + exact (Hinside "enabled").
    + exact (Hinside "port").
Defined.

(** X27. Whatever the file holds, the configuration [load_config]
    returns has a [silence_timeout] entry and a [websocket] entry that is
    a mapping with the keys [enabled], [host], [port] and [path]: the
    fallbacks of the [get] calls in [main] are never used. A file that is
    missing, cannot be read or parsed, holds something other than a
    mapping, or has a [websocket] entry that is not a mapping, gives
    exactly the defaults, so the other settings of such a file are lost
    with it. *)
Theorem load_config_is_always_complete (file : option (res Json.t)) :
  let config := Config.load_config file in
  Config.has_key "silence_timeout" config = true /\
  (exists ws,
     Json.assoc "websocket" config = Some (Json.Obj ws) /\
     forall k, Config.has_key k Config.default_websocket = true ->
               Config.has_key k ws = true) /\
  ((forall loaded, file = Some (Ok loaded) ->
      (forall file_kv, loaded = Json.Obj file_kv ->
         exists v, Json.assoc "websocket" file_kv = Some v /\
                   forall ws, v <> Json.Obj ws) \/
      (Config.truthy_value loaded = true /\
       forall file_kv, loaded <> Json.Obj file_kv)) ->
   config = Config.default_config).
Proof.
  cbv zeta.
  assert (Hdef : Config.has_key "silence_timeout" Config.default_config = true /\
                 exists ws,
                   Json.assoc "websocket" Config.default_config = Some (Json.Obj ws) /\
                   forall k, Config.has_key k Config.default_websocket = true ->
                             Config.has_key k ws = true).
  { split; [reflexivity|]. exists Config.default_websocket. now split. }
  assert (Hmerged : forall file_kv,
            Config.load_config (Some (Ok (Json.Obj file_kv)))
            = match Json.assoc "websocket" file_kv with
              | Some (Json.Obj ws) =>
                  Config.set_key "websocket"
                    (Json.Obj (Config.merge Config.default_websocket ws))
                    (Config.merge Config.default_config file_kv)
              | Some _ => Config.default_config
              | None => Config.merge Config.default_config file_kv
              end).
  { intros file_kv. unfold Config.load_config. simpl Config.truthy_value.
    now destruct file_kv. }
  assert (Hobj : forall file_kv,
            Config.has_key "silence_timeout"
              (Config.load_config (Some (Ok (Json.Obj file_kv)))) = true /\
            exists ws,
              Json.assoc "websocket"
                (Config.load_config (Some (Ok (Json.Obj file_kv))))
              = Some (Json.Obj ws) /\
              forall k, Config.has_key k Config.default_websocket = true ->
                        Config.has_key k ws = true).
  { intros file_kv. rewrite Hmerged.
    assert (Hkept : forall k a b, Config.has_key k a = true ->
                                  Config.has_key k (Config.merge a b) = true).
    { intros k a b. unfold Config.has_key. rewrite assoc_merge.
      now destruct (Json.assoc k b), (Json.assoc k a). }
    destruct (Json.assoc "websocket" file_kv) as [v|] eqn:Hv.
    - destruct v; try exact Hdef. split.
      + unfold Config.has_key. rewrite assoc_set_key. simpl String.eqb.
        cbv iota. apply (Hkept "silence_timeout"). reflexivity.
      + eexists. split.
        * rewrite assoc_set_key. simpl String.eqb. cbv iota.
          rewrite (Hkept "websocket" Config.default_config file_kv eq_refl).
          reflexivity.
        * intros k. apply Hkept.
    - split.
      + apply (Hkept "silence_timeout"). reflexivity.
      + exists Config.default_websocket. split; [|auto].
        rewrite assoc_merge, Hv. reflexivity. }
  split; [|split].
  - destruct file as [[loaded|x]|]; try apply Hdef.
    destruct loaded as [|b|n|x|s|l|kv]; try apply Hobj;
      unfold Config.load_config;
      destruct (Config.truthy_value _); try apply Hdef; apply (Hobj []).
  - destruct file as [[loaded|x]|]; try apply Hdef.
    destruct loaded as [|b|n|x|s|l|kv]; try apply Hobj;
      unfold Config.load_config;
      destruct (Config.truthy_value _); try apply Hdef; apply (Hobj []).
  - intros Hbad. destruct file as [[loaded|x]|]; try reflexivity.
    destruct (Hbad loaded eq_refl) as [Hsection|[Htruthy Hother]].
    + destruct loaded as [|b|n|x|s|l|kv];
        try (unfold Config.load_config;
             destruct (Config.truthy_value _); reflexivity).
      destruct (Hsection kv eq_refl) as (v & Hv & Hnot).
      rewrite Hmerged, Hv.
      destruct v; try reflexivity. now destruct (Hnot kv0).
    + unfold Config.load_config. rewrite Htruthy.
      destruct loaded; try reflexivity. now destruct (Hother kv).
Qed.

(** ** The silence timer in time *)

Section ClockFacts.

Import Recorder.

(** The settings and the log path survive a broadcast and a save. *)
Lemma emit_keeps_timeout (m : Json.t) (r : Recorder.t) :
  silence_timeout (snd (emit m r)) = silence_timeout r.
Proof.
  unfold emit. destruct (broadcaster r) as [b|]; [|reflexivity].
  now destruct (Broadcaster.broadcast m b) as [[ok|x] b'].
Qed.

Lemma save_keeps_timeout (e : save_env) (r : Recorder.t) :
  silence_timeout (fst (_save_current_session e r)) = silence_timeout r.
Proof.
  unfold _save_current_session.
  destruct (session_messages r); [now destruct (current_session r)|].
  destruct (current_session r) as [name|]; [|reflexivity].
  destruct (String.eqb name ""); [reflexivity|].
  destruct (negb (save_ok e)); [reflexivity|].
  destruct (truthy (current_log_path r) && log_exists e);
    [destruct (log_remove_ok e)|]; cbv zeta; cbn [fst snd]; try reflexivity;
    (destruct (broadcaster r); [|reflexivity]);
    cbn [fst]; apply emit_keeps_timeout.
Qed.

Lemma ensure_session_keeps_timeout (e : env) (r : Recorder.t) :
  silence_timeout (fst (ensure_session e r)) = silence_timeout r.
Proof.
  unfold ensure_session.
  destruct (truthy (current_session r)) eqn:Hopen; simpl; [reflexivity|].
  unfold start_new_session. rewrite Hopen.
  destruct (makedirs_ok e); simpl; [|reflexivity].
  destruct (log_create_ok e); simpl; [|reflexivity].
  now rewrite emit_keeps_timeout.
Qed.

(** After the session has been found or opened, the call changes neither
    the settings nor the log path. *)
Lemma process_keeps_setup (e : env) (msg : Mido.message) (r : Recorder.t) :
  silence_timeout (fst (process_midi_message e msg r)) = silence_timeout r /\
  current_log_path (fst (process_midi_message e msg r))
  = current_log_path (fst (ensure_session e r)).
Proof.
  pose proof (ensure_session_keeps_timeout e r) as Hto.
  unfold process_midi_message.
  destruct (ensure_session e r) as [r1 effs]. simpl in *.
  destruct (current_log_path r1) eqn:Hlog; [|simpl; now rewrite Hlog].
  destruct (log_append_ok e); simpl; [|now rewrite Hlog].
  destruct (broadcaster r1); simpl; [|now rewrite Hlog].
  destruct (Converter.midi_message_to_json _ _ _) as [[j|]|x]; simpl;
    try now rewrite Hlog.
  match goal with
  | |- context [emit ?m ?x] =>
      pose proof (emit_same_session m x) as (_ & _ & H3 & _);
      pose proof (emit_keeps_timeout m x) as H0;
      destruct (emit m x) as [[u|x'] r2]
  end; simpl in *; rewrite H0, H3; simpl; now rewrite Hlog.
Qed.

Lemma timeout_keeps_timeout (e : save_env) (r : Recorder.t) :
  silence_timeout (fst (_on_silence_timeout e r)) = silence_timeout r.
Proof.
  unfold _on_silence_timeout.
  destruct (truthy (current_session r)); [|reflexivity].
  pose proof (save_keeps_timeout e r) as H.
  destruct (_save_current_session e r). simpl in *. exact H.
Qed.

Lemma step_open_has_log (ev : event) (rj : Recorder.t * journal) :
  RecorderClock.open_has_log (fst rj) ->
  RecorderClock.open_has_log (fst (step ev rj)).
Proof.
  destruct rj as [r j]. unfold RecorderClock.open_has_log. simpl. intros Hinv.
  destruct ev as [e msg|e]; simpl.
  - destruct (process_fields e msg r) as (Hcur & _).
    destruct (process_keeps_setup e msg r) as (_ & Hlog).
    rewrite Hcur, Hlog.
    destruct (ensure_session_cases e r)
      as [[_ Heq]|[(_ & _ & Heq)|(_ & _ & _ & _ & _ & Hsome)]];
      [rewrite Heq; exact Hinv|rewrite Heq; exact Hinv|intros _; exact Hsome].
  - rewrite (timeout_closes e r). discriminate.
Qed.

Lemma step_keeps_timeout (ev : event) (rj : Recorder.t * journal) :
  silence_timeout (fst (step ev rj)) = silence_timeout (fst rj).
Proof.
  destruct rj as [r j]. destruct ev as [e msg|e]; simpl.
  - apply process_keeps_setup.
  - apply timeout_keeps_timeout.
Qed.

(** A message whose log line is written restarts the timer. *)
Lemma logged_message_restarts_timer
    (e : env) (msg : Mido.message) (r : Recorder.t) :
  RecorderClock.open_has_log r ->
  makedirs_ok e = true -> log_append_ok e = true ->
  RecorderClock.restarts_timer e msg r = true.
Proof.
  intros Hinv Hmk Hlog. unfold RecorderClock.restarts_timer.
  set (r0 := set_silence_timer false r).
  assert (Hsome : is_Some (current_log_path (fst (ensure_session e r0)))).
  { destruct (ensure_session_cases e r0)
      as [[Hopen Heq]|[(_ & Hno & _)|(_ & _ & _ & _ & _ & Hsome)]];
      [|congruence|exact Hsome].
    rewrite Heq. apply Hinv. exact Hopen. }
  destruct Hsome as [p Hp].
  unfold process_midi_message.
  destruct (ensure_session e r0) as [r1 effs]. simpl in *.
  rewrite Hp, Hlog. simpl.
  destruct (broadcaster r1); [|reflexivity].
  match goal with
  | |- context [Converter.midi_message_to_json ?a ?b ?c] =>
      destruct (midi_message_to_json_returns a b c) as [[j|] ->]
  end; [|reflexivity].
  match goal with
  | |- context [emit ?m ?x] =>
      pose proof (emit_returns m x) as Hemit;
      destruct (emit m x) as [[u|x'] r2]
  end; simpl in *; [reflexivity|discriminate].
Qed.

Lemma expire_steady
    (timeout : Q) (a : RecorderClock.arrival) (s : RecorderClock.t) :
  RecorderClock.steady timeout s ->
  RecorderClock.steady timeout (RecorderClock.expire a s).
Proof.
  intros [H1 H2]. unfold RecorderClock.expire.
  destruct (RecorderClock.due _ _); [|now split].
  split; simpl.
  - now apply step_open_has_log.
  - now rewrite step_keeps_timeout.
Qed.

Lemma arrive_steady
    (timeout : Q) (a : RecorderClock.arrival) (s : RecorderClock.t) :
  RecorderClock.steady timeout s ->
  RecorderClock.steady timeout (RecorderClock.arrive a s).
Proof.
  intros H. apply (expire_steady timeout a) in H. destruct H as [H1 H2].
  unfold RecorderClock.arrive. split; simpl.
  - now apply step_open_has_log.
  - now rewrite step_keeps_timeout.
Qed.

Lemma run_steady (timeout : Q) (arrivals : list RecorderClock.arrival)
    (s : RecorderClock.t) :
  RecorderClock.steady timeout s ->
  RecorderClock.steady timeout (RecorderClock.run arrivals s).
Proof.
  revert s. induction arrivals as [|a rest IH]; intros s H; [exact H|].
  simpl. apply IH. now apply arrive_steady.
Qed.

End ClockFacts.

Section ClockSteps.

Import Recorder.

(** What one message leaves in the timed state. *)
Lemma arrive_recorder (a : RecorderClock.arrival) (s : RecorderClock.t) :
  RecorderClock.recorder (RecorderClock.arrive a s)
  = step (EvMessage (RecorderClock.heard a) (RecorderClock.note a))
      (RecorderClock.recorder (RecorderClock.expire a s)).
Proof. reflexivity. Qed.

Lemma message_step (e : env) (msg : Mido.message) (rj : Recorder.t * journal) :
  fst (step (EvMessage e msg) rj) = fst (process_midi_message e msg (fst rj)) /\
  closed (snd (step (EvMessage e msg) rj)) = closed (snd rj).
Proof. now destruct rj. Qed.

Lemma timeout_step (e : save_env) (rj : Recorder.t * journal) :
  fst (step (EvTimeout e) rj) = fst (_on_silence_timeout e (fst rj)) /\
  closed (snd (step (EvTimeout e) rj))
  = closed (snd rj)
    ++ match open_session (fst rj) with Some s => [s] | None => [] end.
Proof.
  destruct rj as [r j]. simpl. split; [reflexivity|].
  destruct (open_session r); [reflexivity|]. now rewrite app_nil_r.
Qed.

(** A message for which the directory can be made leaves a session open
    that ends with it. *)
Lemma message_ends_open_session (e : env) (msg : Mido.message) (r : Recorder.t) :
  makedirs_ok e = true ->
  truthy (current_session (fst (process_midi_message e msg r))) = true /\
  exists name earlier delta,
    open_session (fst (process_midi_message e msg r))
    = Some (name, earlier ++ [Mido.set_time msg delta]).
Proof.
  intros Hmk.
  destruct (process_fields e msg r) as (Hcur & Hmsgs & _).
  assert (Hopen : truthy (current_session (fst (ensure_session e r))) = true).
  { destruct (ensure_session_cases e r)
      as [[Hopen Heq]|[(_ & Hno & _)|(_ & _ & Hname & _)]];
      [now rewrite Heq|congruence|rewrite Hname; apply mid_name_truthy]. }
  rewrite <- Hcur in Hopen. split; [exact Hopen|].
  unfold open_session.
  destruct (current_session (fst (process_midi_message e msg r))) as [name|];
    [|discriminate].
  rewrite Hopen, Hmsgs. eauto.
Qed.

End ClockSteps.

(** X29. In time, with a [Timer] that fires [silence_timeout] seconds after
    it was started: a message whose log line was written restarts the
    timer, and the next message decides by its instant. Read at the
    deadline or later, it finds the session closed, with the earlier
    message as its last one, and opens a session that holds this message
    alone; read before the deadline, it joins the session. *)
Theorem silence_gap_closes_the_session
    (output_dir : string) (silence_timeout : Q) (device : option string)
    (broadcaster : option Broadcaster.t)
    (before : list RecorderClock.arrival) (a a' : RecorderClock.arrival) :
  Recorder.makedirs_ok (RecorderClock.heard a) = true ->
  Recorder.log_append_ok (RecorderClock.heard a) = true ->
  let s1 := RecorderClock.run (before ++ [a])
              (RecorderClock.fresh output_dir silence_timeout device
                 broadcaster) in
  let s2 := RecorderClock.arrive a' s1 in
  let read := Recorder.current_time (RecorderClock.heard a') in
  let deadline := (RecorderClock.timer_started a + silence_timeout)%Q in
  RecorderClock.pending s1 = Some deadline /\
  exists name earlier delta,
    let session :=
      (name, earlier ++ [Mido.set_time (RecorderClock.note a) delta]) in
    Recorder.open_session (fst (RecorderClock.recorder s1)) = Some session /\
    ((deadline <= read)%Q ->
     Recorder.closed (snd (RecorderClock.recorder s2))
     = Recorder.closed (snd (RecorderClock.recorder s1)) ++ [session] /\
     (Recorder.makedirs_ok (RecorderClock.heard a') = true ->
      exists delta',
        Recorder.open_session (fst (RecorderClock.recorder s2))
        = Some (Recorder.timestamp (RecorderClock.heard a') +:+ ".mid",
                [Mido.set_time (RecorderClock.note a') delta']))) /\
    ((read < deadline)%Q ->
     Recorder.closed (snd (RecorderClock.recorder s2))
     = Recorder.closed (snd (RecorderClock.recorder s1)) /\
     exists delta',
       Recorder.open_session (fst (RecorderClock.recorder s2))
       = Some (name,
               snd session ++ [Mido.set_time (RecorderClock.note a') delta'])).
Proof.
  intros Hmk Hlog. cbv zeta.
  unfold RecorderClock.run. rewrite fold_left_app. cbn [fold_left].
  fold (RecorderClock.run before
          (RecorderClock.fresh output_dir silence_timeout device broadcaster)).
  assert (Hsteady : RecorderClock.steady silence_timeout
            (RecorderClock.run before
               (RecorderClock.fresh output_dir silence_timeout device
                  broadcaster))).
  { apply run_steady. split; [intros H; discriminate H|reflexivity]. }
  remember (RecorderClock.run before _) as s eqn:Hs. clear Hs.
  apply (expire_steady silence_timeout a) in Hsteady.
  destruct Hsteady as [Hinv Hto].
  assert (Hpending : RecorderClock.pending (RecorderClock.arrive a s)
                     = Some (RecorderClock.timer_started a + silence_timeout)%Q).
  { unfold RecorderClock.arrive. cbn [RecorderClock.pending].
    rewrite (logged_message_restarts_timer _ _ _ Hinv Hmk Hlog), Hto.
    reflexivity. }
  split; [exact Hpending|].
  destruct (message_step (RecorderClock.heard a) (RecorderClock.note a)
              (RecorderClock.recorder (RecorderClock.expire a s)))
    as [Hfst _].
  rewrite <- arrive_recorder in Hfst.
  destruct (message_ends_open_session (RecorderClock.heard a)
              (RecorderClock.note a)
              (fst (RecorderClock.recorder (RecorderClock.expire a s))) Hmk)
    as (Hopen & name & earlier & delta & Hsession).
  rewrite <- Hfst in Hopen, Hsession.
  remember (RecorderClock.arrive a s) as s1 eqn:Hs1. clear Hs1 Hfst Hinv Hto.
  exists name, earlier, delta. cbv zeta. split; [exact Hsession|].
  rewrite (arrive_recorder a' s1). unfold RecorderClock.expire.
  rewrite Hpending. cbn [RecorderClock.due].
  split.
  - intros Hgap. apply Qle_bool_iff in Hgap. rewrite Hgap.
    cbn [RecorderClock.recorder].
    destruct (message_step (RecorderClock.heard a') (RecorderClock.note a')
                (Recorder.step (Recorder.EvTimeout (RecorderClock.on_expiry a'))
                   (RecorderClock.recorder s1))) as [Hfst Hclosed].
    destruct (timeout_step (RecorderClock.on_expiry a')
                (RecorderClock.recorder s1)) as [Hfst0 Hclosed0].
    rewrite Hclosed, Hclosed0, Hsession. split; [reflexivity|].
    intros Hmk'. eexists. rewrite Hfst, Hfst0.
    apply (message_after_timeout _ _ _ _ Hmk').
  - intros Hgap.
    assert (Hnot : Qle_bool (RecorderClock.timer_started a + silence_timeout)
                     (Recorder.current_time (RecorderClock.heard a')) = false).
    { destruct (Qle_bool _ _) eqn:Hle; [|reflexivity].
      apply Qle_bool_iff in Hle. exfalso. apply (Qlt_not_le _ _ Hgap Hle). }
    rewrite Hnot.
    destruct (message_step (RecorderClock.heard a') (RecorderClock.note a')
                (RecorderClock.recorder s1)) as [Hfst Hclosed].
    split; [exact Hclosed|]. eexists. rewrite Hfst.
    rewrite (message_joins_open_session _ _ _ Hopen), Hsession. reflexivity.
Qed.

Lemma silence_gap_closes_the_session_witness :
  let a := RecorderClock.at_instant 100 Recorder.middle_c_on in
  let a' := RecorderClock.at_instant 131 Recorder.middle_c_off in
  let s1 := RecorderClock.run [a] (RecorderClock.fresh "/data/piano" 30 None None) in
  Recorder.makedirs_ok (RecorderClock.heard a) = true /\
  Recorder.log_append_ok (RecorderClock.heard a) = true /\
  RecorderClock.pending s1 = Some (100 + 30)%Q.
Proof.
  intros a a' s1.
  assert (Hmk : Recorder.makedirs_ok (RecorderClock.heard a) = true)
    by reflexivity.
  assert (Hlog : Recorder.log_append_ok (RecorderClock.heard a) = true)
    by reflexivity.
  split; [exact Hmk|]. split; [exact Hlog|].
  exact (proj1 (silence_gap_closes_the_session "/data/piano" 30 None None
                  [] a a' Hmk Hlog)).
Defined.

(** C7. Two messages 9900 s apart, with a silence timeout of 30 s. When
    the log line of the first was written, the timer has closed its session
    before the second is read, and the second opens a session of its own:
    an inactivity gap of the timeout or more closes the session. When the
    log line of the first cannot be written, the message is stored in the
    session it opened, but the call leaves before [_reset_silence_timer]
    and no timer is running: the message read 9900 s later, or at any other
    instant, joins the session of the first, and no session has been
    closed. *)
Theorem unlogged_message_outlives_the_timeout :
  let start := RecorderClock.fresh "/data/piano" 30 None None in
  let session_name := "2025-01-01 10.00.00.mid" in
  (let s := RecorderClock.run
              [RecorderClock.at_instant 100 Recorder.middle_c_on;
               RecorderClock.at_instant 10000 Recorder.middle_c_off] start in
   Recorder.closed (snd (RecorderClock.recorder s))
   = [(session_name, [Message (note_on 0 60 64) 0])] /\
   Recorder.open_session (fst (RecorderClock.recorder s))
   = Some (session_name, [Message (note_off 0 60 0) 0])) /\
  (let s := RecorderClock.run
              [RecorderClock.unlogged_at 100 Recorder.middle_c_on] start in
   RecorderClock.pending s = None /\
   Recorder.open_session (fst (RecorderClock.recorder s))
   = Some (session_name, [Message (note_on 0 60 64) 0])) /\
  (let s := RecorderClock.run
              [RecorderClock.unlogged_at 100 Recorder.middle_c_on;
               RecorderClock.at_instant 10000 Recorder.middle_c_off] start in
   Recorder.closed (snd (RecorderClock.recorder s)) = [] /\
   Recorder.open_session (fst (RecorderClock.recorder s))
   = Some (session_name,
           [Message (note_on 0 60 64) 0; Message (note_off 0 60 0) 65535])) /\
  (forall now : Q,
     let s := RecorderClock.run
                [RecorderClock.unlogged_at 100 Recorder.middle_c_on;
                 RecorderClock.at_instant now Recorder.middle_c_off] start in
     Recorder.closed (snd (RecorderClock.recorder s)) = [] /\
     Recorder.open_session (fst (RecorderClock.recorder s))
     = Some (session_name,
             [Message (note_on 0 60 64) 0;
              Message (note_off 0 60 0)
                (Recorder.delta_ticks now (Some 100%Q))])).
Proof.
  cbv zeta. split; [|split; [|split]].
  - vm_compute. split; reflexivity.
  - vm_compute. split; reflexivity.
  - vm_compute. split; reflexivity.
  - intros now.
    set (start := RecorderClock.fresh "/data/piano" 30 None None).
    set (first := RecorderClock.unlogged_at 100 Recorder.middle_c_on).
    set (second := RecorderClock.at_instant now Recorder.middle_c_off).
    change (RecorderClock.run [first; second] start)
      with (RecorderClock.arrive second (RecorderClock.run [first] start)).
    assert (Hpending : RecorderClock.pending (RecorderClock.run [first] start)
                       = None) by (vm_compute; reflexivity).
    assert (Hclosed : Recorder.closed
                        (snd (RecorderClock.recorder
                                (RecorderClock.run [first] start))) = [])
      by (vm_compute; reflexivity).
    assert (Hopen : truthy (Recorder.current_session
                              (fst (RecorderClock.recorder
                                      (RecorderClock.run [first] start))))
                    = true) by (vm_compute; reflexivity).
    assert (Hsession : Recorder.open_session
                         (fst (RecorderClock.recorder
                                 (RecorderClock.run [first] start)))
                       = Some ("2025-01-01 10.00.00.mid",
                               [Message (note_on 0 60 64) 0]))
      by (vm_compute; reflexivity).
    assert (Hlast : Recorder.last_message_time
                      (fst (RecorderClock.recorder
                              (RecorderClock.run [first] start)))
                    = Some 100%Q) by (vm_compute; reflexivity).
    remember (RecorderClock.run [first] start) as s1 eqn:Hs1. clear Hs1.
    rewrite (arrive_recorder second s1). unfold RecorderClock.expire.
    rewrite Hpending. cbn [RecorderClock.due].
    destruct (message_step (RecorderClock.heard second)
                (RecorderClock.note second) (RecorderClock.recorder s1))
      as [Hfst Hkept].
    rewrite Hkept, Hclosed, Hfst. split; [reflexivity|].
    rewrite (message_joins_open_session _ _ _ Hopen), Hsession, Hlast.
    reflexivity.
Qed.
